(** * jira_status_automation: authentication probing, paginated search,
      defensive field extraction and aggregation

    Shallow embedding of
    - [safe_get_attr] (main.py),
    - [JiraClient.test_connection], [JiraClient._execute_search],
      [JiraClient._parse_issue] and the nested [parse_datetime] of
      [JiraClient._parse_jira_library_issue] (jira_status_automation.py),
    - [StatusSummarizer.summarize_tasks] and [_categorize_status]
      (jira_status_automation.py).

    Python exceptions are explicit: a partial operation returns [option]
    ([None] = the operation raises) and the functions that can let an
    exception escape return a result type with a constructor for it. *)

From Stdlib Require Import List String Ascii ZArith Lia Bool Arith.
From Stdlib Require Import Sorting.Sorted Sorting.Permutation.
Import ListNotations.
Set Warnings "-register-all".
Open Scope string_scope.
Open Scope Z_scope.
Open Scope list_scope.

(* ===================================================================== *)
(** ** Strings as the code uses them *)
(* ===================================================================== *)

Module PyStr.

(** [s.split(sep)] for a one-character separator: always at least one
    piece, empty pieces are kept. *)
Fixpoint split (sep : ascii) (s : string) : list string :=
  match s with
  | EmptyString => [EmptyString]
  | String c rest =>
      if Ascii.eqb c sep then EmptyString :: split sep rest
      else match split sep rest with
           | [] => [String c EmptyString]
           | w :: ws => String c w :: ws
           end
  end.

(** [s.startswith(p)] *)
Fixpoint startswith (p s : string) : bool :=
  match p, s with
  | EmptyString, _ => true
  | String a p', String b s' => Ascii.eqb a b && startswith p' s'
  | String _ _, EmptyString => false
  end.

(** [needle in s] *)
Fixpoint contains (needle s : string) : bool :=
  startswith needle s ||
  match s with
  | EmptyString => false
  | String _ s' => contains needle s'
  end.

(** [s.endswith(p)] for a one-character [p] *)
Fixpoint endswith_char (c : ascii) (s : string) : bool :=
  match s with
  | EmptyString => false
  | String a EmptyString => Ascii.eqb a c
  | String _ s' => endswith_char c s'
  end.

(** [s.replace(c, by)] for a one-character pattern: every occurrence. *)
Fixpoint replace_char (c : ascii) (by_ : string) (s : string) : string :=
  match s with
  | EmptyString => EmptyString
  | String a s' =>
      if Ascii.eqb a c then by_ ++ replace_char c by_ s'
      else String a (replace_char c by_ s')
  end.

(** [s[-n:]] *)
Definition last_chars (n : nat) (s : string) : string :=
  substring (String.length s - n) n s.

(** [c in s] for a character *)
Fixpoint has_char (c : ascii) (s : string) : bool :=
  match s with
  | EmptyString => false
  | String a s' => Ascii.eqb a c || has_char c s'
  end.

End PyStr.

(* ===================================================================== *)
(** ** FieldExtractor: [safe_get_attr] (main.py) *)
(* ===================================================================== *)

Module FieldExtractor.

(** Python values a record can be made of.  [VObj] is an object with
    instance attributes (what the jira binding returns), [VDict] a
    mapping (decoded JSON), [VBound] a bound built-in method such as
    [{}.keys]. *)
Inductive value : Type :=
| VNone
| VInt (n : Z)
| VStr (s : string)
| VDict (entries : list (string * value))
| VObj (attrs : list (string * value))
| VBound (owner : value) (name : string).

Fixpoint assoc {A : Type} (k : string) (l : list (string * A)) : option A :=
  match l with
  | [] => None
  | (k', v) :: l' => if String.eqb k k' then Some v else assoc k l'
  end.

Section Getattr.

(** What the type of a value contributes to attribute lookup (methods,
    dunder names).  It is the runtime's table, not the program's, so
    it is a parameter; it may depend on the value because a bound
    method remembers its owner. *)
Variable type_attr : value -> string -> option value.

(** [getattr(v, name)] when [hasattr(v, name)], [None] otherwise.
    Instance attributes of an object come first; the entries of a
    dict are NOT attributes. *)
Definition py_getattr (v : value) (name : string) : option value :=
  match v with
  | VObj attrs =>
      match assoc name attrs with
      | Some x => Some x
      | None => type_attr v name
      end
  | _ => type_attr v name
  end.

(** The [for attr in attrs] loop of [safe_get_attr]. *)
Fixpoint walk (current : value) (attrs : list string) (default : value)
  : value :=
  match attrs with
  | [] => current
  | attr :: rest =>
      match py_getattr current attr with
      | Some next => walk next rest default
      | None => default
      end
  end.

(** [safe_get_attr(obj, attr_path, default)].  [attr_path] is a string
    here, so [split] cannot raise and the [except] clause is not
    reached. *)
Definition safe_get_attr (obj : value) (attr_path : string)
  (default : value) : value :=
  walk obj (PyStr.split "." attr_path) default.

(** The value reached by following [attrs] when every one is exposed. *)
Fixpoint follow (current : value) (attrs : list string) : option value :=
  match attrs with
  | [] => Some current
  | attr :: rest =>
      match py_getattr current attr with
      | Some next => follow next rest
      | None => None
      end
  end.

End Getattr.

(** The attribute names of Python's [dict] type, [dir(dict)]. *)
Definition dict_attr_names : list string :=
  [ "__class__"; "__class_getitem__"; "__contains__"; "__delattr__";
    "__delitem__"; "__dir__"; "__doc__"; "__eq__"; "__format__"; "__ge__";
    "__getattribute__"; "__getitem__"; "__getstate__"; "__gt__";
    "__hash__"; "__init__"; "__init_subclass__"; "__ior__"; "__iter__";
    "__le__"; "__len__"; "__lt__"; "__ne__"; "__new__"; "__or__";
    "__reduce__"; "__reduce_ex__"; "__repr__"; "__reversed__"; "__ror__";
    "__setattr__"; "__setitem__"; "__sizeof__"; "__str__";
    "__subclasshook__"; "clear"; "copy"; "fromkeys"; "get"; "items";
    "keys"; "pop"; "popitem"; "setdefault"; "update"; "values" ].

(** A concrete attribute table for the examples: a dict exposes the
    names of [dict_attr_names] as bound methods and nothing else; other
    values expose only their instance attributes. *)
Definition dict_type_attr (v : value) (name : string) : option value :=
  match v with
  | VDict _ =>
      if existsb (String.eqb name) dict_attr_names
      then Some (VBound v name) else None
  | _ => None
  end.

(** The two records of the specification's example. *)
Definition nested_dict : value :=
  VDict [("a", VDict [("b", VDict [("c", VInt 7)])])].

Definition nested_obj : value :=
  VObj [("a", VObj [("b", VObj [("c", VInt 7)])])].

End FieldExtractor.

(* ===================================================================== *)
(** ** Timestamps: Python's [datetime] as the code uses it *)
(* ===================================================================== *)

Module Datetime.

(** A [datetime]: the wall-clock fields as microseconds since
    0001-01-01T00:00:00, and [tzinfo]: [None] for a naive value, the UTC
    offset in microseconds for an aware one. *)
Record datetime : Type := mk_datetime { wall : Z; tzinfo : option Z }.

Definition is_naive (d : datetime) : bool :=
  match tzinfo d with None => true | Some _ => false end.

(** [datetime.now()] with no argument is naive. *)
Definition of_clock (now : Z) : datetime := mk_datetime now None.

(** [d.replace(tzinfo=None)]: same wall-clock fields, offset dropped. *)
Definition replace_tzinfo_none (d : datetime) : datetime :=
  mk_datetime (wall d) None.

Definition day_us : Z := 86400000000.

(** [d - timedelta(days=n)] *)
Definition minus_days (d : datetime) (n : Z) : datetime :=
  mk_datetime (wall d - n * day_us) (tzinfo d).

(** [a >= b].  Python raises [TypeError] when exactly one of the two is
    aware: [None]. Two aware values compare as instants. *)
Definition ge (a b : datetime) : option bool :=
  match tzinfo a, tzinfo b with
  | None, None => Some (wall b <=? wall a)
  | Some oa, Some ob => Some (wall b - ob <=? wall a - oa)
  | _, _ => None
  end.

(** *** A parser for [datetime.fromisoformat]

    The library function is a parameter of the parsers below.  This
    instance, used to evaluate them on concrete records, accepts
    [YYYY-MM-DD[*HH[:MM[:SS[.fff[fff]]]][(+|-)HH:MM]]], the formats every
    Python since 3.7 accepts, and rejects the rest ([None] =
    [ValueError]). *)

Definition digit (c : ascii) : option Z :=
  let n := nat_of_ascii c in
  if (Nat.leb 48 n && Nat.leb n 57)%bool
  then Some (Z.of_nat (n - 48)) else None.

(** Exactly [n] decimal digits at the head of [s]. *)
Fixpoint digits (n : nat) (acc : Z) (s : string) : option (Z * string) :=
  match n with
  | O => Some (acc, s)
  | S n' =>
      match s with
      | EmptyString => None
      | String c s' =>
          match digit c with
          | Some d => digits n' (10 * acc + d) s'
          | None => None
          end
      end
  end.

Definition expect (c : ascii) (s : string) : option string :=
  match s with
  | String a s' => if Ascii.eqb a c then Some s' else None
  | EmptyString => None
  end.

Definition is_leap (y : Z) : bool :=
  ((y mod 4 =? 0) && (negb (y mod 100 =? 0) || (y mod 400 =? 0)))%bool.

Definition days_in_month (y m : Z) : Z :=
  if m =? 2 then (if is_leap y then 29 else 28)
  else if (m =? 4) || (m =? 6) || (m =? 9) || (m =? 11) then 30 else 31.

Definition days_before_month (y m : Z) : Z :=
  nth (Z.to_nat (m - 1))
      [0; 31; 59; 90; 120; 151; 181; 212; 243; 273; 304; 334] 0
  + (if (2 <? m) && is_leap y then 1 else 0).

(** Proleptic Gregorian ordinal, 0001-01-01 is day 1. *)
Definition ymd2ord (y m d : Z) : Z :=
  let y1 := y - 1 in
  y1 * 365 + y1 / 4 - y1 / 100 + y1 / 400 + days_before_month y m + d.

Definition parse_date (s : string) : option (Z * string) :=
  match digits 4 0 s with
  | None => None
  | Some (y, s1) =>
  match expect "-" s1 with
  | None => None
  | Some s2 =>
  match digits 2 0 s2 with
  | None => None
  | Some (m, s3) =>
  match expect "-" s3 with
  | None => None
  | Some s4 =>
  match digits 2 0 s4 with
  | None => None
  | Some (d, s5) =>
      if (1 <=? y) && (1 <=? m) && (m <=? 12) && (1 <=? d)
         && (d <=? days_in_month y m)
      then Some ((ymd2ord y m d - 1) * day_us, s5)
      else None
  end end end end end.

(** [.fff] or [.ffffff], in microseconds; nothing consumed when there
    is no dot. *)
Definition parse_fraction (s : string) : option (Z * string) :=
  match s with
  | String "." s' =>
      match digits 6 0 s' with
      | Some r => Some r
      | None =>
          match digits 3 0 s' with
          | Some (ms, s'') => Some (ms * 1000, s'')
          | None => None
          end
      end
  | _ => Some (0, s)
  end.

(** [HH[:MM[:SS[.fff[fff]]]]], in microseconds. *)
Definition parse_time (s : string) : option (Z * string) :=
  match digits 2 0 s with
  | None => None
  | Some (h, s1) =>
      if negb (h <? 24) then None else
      match s1 with
      | String ":" s2 =>
          match digits 2 0 s2 with
          | None => None
          | Some (mi, s3) =>
              if negb (mi <? 60) then None else
              match s3 with
              | String ":" s4 =>
                  match digits 2 0 s4 with
                  | None => None
                  | Some (sec, s5) =>
                      if negb (sec <? 60) then None else
                      match parse_fraction s5 with
                      | None => None
                      | Some (us, s6) =>
                          Some (((h * 60 + mi) * 60 + sec) * 1000000 + us,
                                s6)
                      end
                  end
              | _ => Some ((h * 60 + mi) * 60 * 1000000, s3)
              end
          end
      | _ => Some (h * 3600 * 1000000, s1)
      end
  end.

(** [(+|-)HH:MM] up to the end of the string, or nothing. *)
Definition parse_offset (s : string) : option (option Z) :=
  match s with
  | EmptyString => Some None
  | String c s1 =>
      let sign :=
        if Ascii.eqb c "+" then Some 1
        else if Ascii.eqb c "-" then Some (-1) else None in
      match sign with
      | None => None
      | Some sg =>
          match digits 2 0 s1 with
          | None => None
          | Some (h, s2) =>
          match expect ":" s2 with
          | None => None
          | Some s3 =>
          match digits 2 0 s3 with
          | Some (mi, EmptyString) =>
              if (h <? 24) && (mi <? 60)
              then Some (Some (sg * (h * 60 + mi) * 60 * 1000000))
              else None
          | _ => None
          end end end
      end
  end.

Definition fromisoformat (s : string) : option datetime :=
  match parse_date s with
  | None => None
  | Some (date_us, EmptyString) => Some (mk_datetime date_us None)
  | Some (date_us, String _ s1) =>
      match parse_time s1 with
      | None => None
      | Some (time_us, s2) =>
          match parse_offset s2 with
          | None => None
          | Some off => Some (mk_datetime (date_us + time_us) off)
          end
      end
  end.

End Datetime.

(* ===================================================================== *)
(** ** Decoded JSON and the operations the parser applies to it *)
(* ===================================================================== *)

Module Json.

(** What [response.json()] returns.  Numbers are integers here;
    non-integral JSON numbers are outside the model. *)
Inductive json : Type :=
| JNull
| JBool (b : bool)
| JNum (n : Z)
| JStr (s : string)
| JArr (items : list json)
| JObj (members : list (string * json)).

Fixpoint lookup (k : string) (l : list (string * json)) : option json :=
  match l with
  | [] => None
  | (k', v) :: l' => if String.eqb k k' then Some v else lookup k l'
  end.

(** Python truth value. *)
Definition truthy (v : json) : bool :=
  match v with
  | JNull => false
  | JBool b => b
  | JNum n => negb (n =? 0)
  | JStr s => negb (String.eqb s "")
  | JArr l => match l with [] => false | _ => true end
  | JObj l => match l with [] => false | _ => true end
  end.

(** [v[k]] for a string [k]: [KeyError] on a dict without the key,
    [TypeError] on everything that is not a dict. *)
Definition subscript (v : json) (k : string) : option json :=
  match v with
  | JObj members => lookup k members
  | _ => None
  end.

(** [v.get(k, default)]: [AttributeError] on everything that is not a
    dict. *)
Definition get (v : json) (k : string) (default : json) : option json :=
  match v with
  | JObj members =>
      match lookup k members with
      | Some x => Some x
      | None => Some default
      end
  | _ => None
  end.

(** [v[0]]: [IndexError] on an empty sequence, [KeyError] on a dict (its
    keys are strings), [TypeError] on the rest. *)
Definition first (v : json) : option json :=
  match v with
  | JArr (x :: _) => Some x
  | JStr (String c _) => Some (JStr (String c EmptyString))
  | _ => None
  end.

Fixpoint chars (s : string) : list json :=
  match s with
  | EmptyString => []
  | String c s' => JStr (String c EmptyString) :: chars s'
  end.

(** The items [for x in v] visits: the elements of a list, the
    characters of a string, the keys of a dict; [TypeError] on the
    rest. *)
Definition iter (v : json) : option (list json) :=
  match v with
  | JArr l => Some l
  | JStr s => Some (chars s)
  | JObj members => Some (map (fun kv => JStr (fst kv)) members)
  | _ => None
  end.

(** [int(v)] as used by a comparison with an integer: defined on
    numbers and booleans, [TypeError] on the rest. *)
Definition as_number (v : json) : option Z :=
  match v with
  | JNum n => Some n
  | JBool b => Some (if b then 1 else 0)
  | _ => None
  end.

Definition is_dict (v : json) : bool :=
  match v with JObj _ => true | _ => false end.

End Json.

(* ===================================================================== *)
(** ** Issue records and the two parsers *)
(* ===================================================================== *)

Module Issue.
Import Json Datetime.

(** The dataclass [JiraTask] with the field types it declares. *)
Record JiraTask : Type := mk_task {
  key : string;
  summary : string;
  status : string;
  assignee : option string;
  priority : string;
  created : datetime;
  updated : datetime;
  project : string;
  issue_type : string;
  story_points : option Z;
  components : list string;
  labels : list string;
  description : string
}.

(** A [JiraTask] instance as [_parse_issue] builds it.  Python does not
    check the declared types, so every field taken from the response
    holds whatever JSON value was found there; only the two timestamps
    are always [datetime]s. [JNull] is Python's [None]. *)
Record JiraTaskObj : Type := mk_obj {
  o_key : json;
  o_summary : json;
  o_status : json;
  o_assignee : json;
  o_priority : json;
  o_created : datetime;
  o_updated : datetime;
  o_project : json;
  o_issue_type : json;
  o_story_points : json;
  o_components : list json;
  o_labels : json;
  o_description : json
}.

Definition as_str (v : json) : option string :=
  match v with JStr s => Some s | _ => None end.

Fixpoint all_str (l : list json) : option (list string) :=
  match l with
  | [] => Some []
  | x :: l' =>
      match as_str x, all_str l' with
      | Some s, Some ss => Some (s :: ss)
      | _, _ => None
      end
  end.

#[local] Notation "x <- e ;; k" :=
  (match e with Some x => k | None => None end)
    (at level 61, e at next level, right associativity).

(** The instance seen through the declared field types, when its fields
    have them. *)
Definition declared (o : JiraTaskObj) : option JiraTask :=
  k <- as_str (o_key o) ;;
  su <- as_str (o_summary o) ;;
  st <- as_str (o_status o) ;;
  a <- match o_assignee o with
       | JNull => Some None
       | JStr s => Some (Some s)
       | _ => None
       end ;;
  p <- as_str (o_priority o) ;;
  pr <- as_str (o_project o) ;;
  it <- as_str (o_issue_type o) ;;
  sp <- match o_story_points o with
        | JNull => Some None
        | JNum n => Some (Some n)
        | _ => None
        end ;;
  cs <- all_str (o_components o) ;;
  ls <- match o_labels o with JArr l => all_str l | _ => None end ;;
  d <- as_str (o_description o) ;;
  Some (mk_task k su st a p (o_created o) (o_updated o) pr it sp cs ls d).

(** What a call of a parser can do. *)
Inductive parse_outcome : Type :=
| Emitted (t : JiraTaskObj)   (* a task object is returned *)
| ReturnedNone                (* the error is logged, [None] is returned *)
| Escaped.                    (* an exception leaves the parser *)

Section Parsers.

(** [datetime.fromisoformat]; [None] = [ValueError]. *)
Variable fromisoformat : string -> option datetime.

(** [datetime.fromisoformat(v.replace('Z', '+00:00'))]:
    [AttributeError] unless [v] is a string. *)
Definition raw_timestamp (v : json) : option datetime :=
  match v with
  | JStr s => fromisoformat (PyStr.replace_char "Z" "+00:00" s)
  | _ => None
  end.

(** [[comp['name'] for comp in comps]] *)
Fixpoint component_names (comps : list json) : option (list json) :=
  match comps with
  | [] => Some []
  | comp :: rest =>
      n <- subscript comp "name" ;;
      ns <- component_names rest ;;
      Some (n :: ns)
  end.

(** The [try] block of [_parse_issue]; [None] = an exception is
    raised inside it. *)
Definition parse_issue_body (issue : json) : option JiraTaskObj :=
  fields <- subscript issue "fields" ;;
  a <- get fields "assignee" JNull ;;
  assignee <- (if truthy a then
                 a' <- subscript fields "assignee" ;;
                 get a' "displayName" (JStr "Unknown")
               else Some JNull) ;;
  comps <- get fields "components" (JArr []) ;;
  comps <- iter comps ;;
  components <- component_names comps ;;
  labels <- get fields "labels" (JArr []) ;;
  story_points <- get fields "customfield_10016" JNull ;;
  k <- subscript issue "key" ;;
  su <- subscript fields "summary" ;;
  st <- subscript fields "status" ;;
  st <- subscript st "name" ;;
  p <- subscript fields "priority" ;;
  p <- subscript p "name" ;;
  c <- subscript fields "created" ;;
  c <- raw_timestamp c ;;
  u <- subscript fields "updated" ;;
  u <- raw_timestamp u ;;
  pr <- subscript fields "project" ;;
  pr <- subscript pr "key" ;;
  it <- subscript fields "issuetype" ;;
  it <- subscript it "name" ;;
  d <- get fields "description" JNull ;;
  description <- (if truthy d then
                    d0 <- get fields "description" (JObj []) ;;
                    d1 <- get d0 "content" (JArr [JObj []]) ;;
                    d2 <- first d1 ;;
                    d3 <- get d2 "content" (JArr [JObj []]) ;;
                    d4 <- first d3 ;;
                    get d4 "text" (JStr "")
                  else Some (JStr "")) ;;
  Some (mk_obj k su st assignee p c u pr it story_points components
               labels description).

(** [JiraClient._parse_issue].  The [except] handler formats
    [issue.get('key', 'unknown')] into the log line, so on a record
    that is not a dict the handler itself raises. *)
Definition _parse_issue (issue : json) : parse_outcome :=
  match parse_issue_body issue with
  | Some t => Emitted t
  | None =>
      match get issue "key" (JStr "unknown") with
      | Some _ => ReturnedNone
      | None => Escaped
      end
  end.

(** What [issue.fields.created] of the library binding can be: a
    [datetime] object, or anything else, seen through [str()]. *)
Inductive timestamp_field : Type :=
| DtObject (d : datetime)
| DtText (s : string).

(** The nested [parse_datetime] of [_parse_jira_library_issue];
    [now] is the reading of [datetime.now()]; [None] = [ValueError]. *)
Definition parse_datetime (now : Z) (dt_str : timestamp_field)
  : option datetime :=
  match dt_str with
  | DtObject d =>
      Some (match tzinfo d with
            | Some _ => replace_tzinfo_none d
            | None => d
            end)
  | DtText s =>
      if PyStr.has_char "T" s then
        let s' :=
          if PyStr.endswith_char "Z" s
          then PyStr.replace_char "Z" "+00:00" s
          else if PyStr.has_char "+" (PyStr.last_chars 6 s)
                  || PyStr.has_char "-" (PyStr.last_chars 6 s)
          then s
          else (s ++ "+00:00")%string in
        d <- fromisoformat s' ;;
        Some (replace_tzinfo_none d)
      else Some (of_clock now)
  end.

(** The [for issue in issues] loop of [_execute_search]: every truthy
    result is appended; an exception that escapes the parser ends the
    loop with what was appended so far ([true] in the result). *)
Fixpoint parse_page (issues : list json) (tasks : list JiraTaskObj)
  : list JiraTaskObj * bool :=
  match issues with
  | [] => (tasks, false)
  | issue :: rest =>
      match _parse_issue issue with
      | Emitted t => parse_page rest (tasks ++ [t])
      | ReturnedNone => parse_page rest tasks
      | Escaped => (tasks, true)
      end
  end.

(** The task objects a page contributes: those of the records whose
    parse succeeded, in the order of the page. *)
Definition emitted (issues : list json) : list JiraTaskObj :=
  flat_map (fun issue => match _parse_issue issue with
                         | Emitted t => [t]
                         | _ => []
                         end) issues.

(** The number of records of a page whose parse failed. *)
Definition failures (issues : list json) : nat :=
  List.length (filter (fun issue => match _parse_issue issue with
                                    | ReturnedNone => true
                                    | _ => false
                                    end) issues).

(** The mandatory fields of a raw record: key, title, status name and
    priority name, when all four can be extracted. *)
Definition mandatory_fields (issue : json)
  : option (json * json * json * json) :=
  fields <- subscript issue "fields" ;;
  k <- subscript issue "key" ;;
  su <- subscript fields "summary" ;;
  st <- subscript fields "status" ;;
  st <- subscript st "name" ;;
  p <- subscript fields "priority" ;;
  p <- subscript p "name" ;;
  Some (k, su, st, p).

End Parsers.

(** A raw record as the search endpoint returns it, with the given key
    and timestamps. *)
Definition raw_issue (k created_s updated_s : string) : json :=
  JObj [ ("key", JStr k);
         ("fields",
          JObj [ ("summary", JStr "Fix login");
                 ("status", JObj [("name", JStr "Done")]);
                 ("priority", JObj [("name", JStr "High")]);
                 ("created", JStr created_s);
                 ("updated", JStr updated_s);
                 ("project", JObj [("key", JStr "PROJ")]);
                 ("issuetype", JObj [("name", JStr "Task")]) ]) ].

(** A record without a summary. *)
Definition raw_issue_no_summary : json :=
  JObj [ ("key", JStr "PROJ-2");
         ("fields",
          JObj [ ("status", JObj [("name", JStr "Done")]);
                 ("priority", JObj [("name", JStr "High")]);
                 ("created", JStr "2024-01-15T10:30:00");
                 ("updated", JStr "2024-01-15T10:30:00");
                 ("project", JObj [("key", JStr "PROJ")]);
                 ("issuetype", JObj [("name", JStr "Task")]) ]) ].

End Issue.

(* ===================================================================== *)
(** ** JiraClient: connection test and paginated search *)
(* ===================================================================== *)

Module Client.
Import Json Datetime Issue.

(** A value of the [params] dict of a request. *)
Inductive param : Type :=
| PStr (s : string)
| PInt (n : Z).

(** The arguments of one [requests.get] call. *)
Record request : Type := mk_request {
  req_url : string;
  req_headers : list (string * string);
  req_auth : option (string * string);
  req_params : list (string * param);
  req_timeout : Z
}.

Inductive request_exception : Type :=
| ConnectTimeout
| ReadTimeout
| SSLError
| ConnectionError
| OtherException.

(** What [requests.get] does: it raises, or it returns a response with
    a status code and a body; [None] as body = [response.json()]
    raises. *)
Inductive http_result : Type :=
| Raised (e : request_exception)
| Response (status_code : Z) (body : option json).

(** The attributes of a [JiraClient] instance.  [auth] and
    [encoded_credentials] are assigned together by [_setup_basic_auth]
    and nowhere else, so [encoded_credentials] is derived from [auth];
    [None] in [successful_auth_method] = the attribute is not set. *)
Record JiraClient : Type := mk_client {
  base_url : string;
  username : option string;
  api_token : option string;
  oauth_config : list (string * string);
  auth : option (string * string);
  oauth_token : option string;
  headers : list (string * string);
  api_version : option Z;
  api_endpoint : option string;
  jira_instance : bool;
  successful_auth_method : option string
}.

(** Truth value of an optional string: [None] and [""] are false. *)
Definition truthy_str (s : option string) : bool :=
  match s with
  | Some s' => negb (String.eqb s' "")
  | None => false
  end.

(** [d[k] = v] on a dict kept in insertion order. *)
Fixpoint dict_set (k v : string) (d : list (string * string))
  : list (string * string) :=
  match d with
  | [] => [(k, v)]
  | (k', v') :: d' =>
      if String.eqb k k' then (k, v) :: d' else (k', v') :: dict_set k v d'
  end.

Fixpoint dict_lookup (k : string) (d : list (string * string))
  : option string :=
  match d with
  | [] => None
  | (k', v) :: d' => if String.eqb k k' then Some v else dict_lookup k d'
  end.

(** [s.rstrip('/')] *)
Fixpoint rstrip_slash (s : string) : string :=
  match s with
  | EmptyString => EmptyString
  | String c s' =>
      match rstrip_slash s' with
      | EmptyString => if Ascii.eqb c "/" then EmptyString
                       else String c EmptyString
      | r => String c r
      end
  end.

Definition default_headers : list (string * string) :=
  [ ("Accept", "application/json");
    ("Content-Type", "application/json");
    ("User-Agent", "JIRA-Status-Automation/1.0") ].

(** [JiraClient.__init__]; [None] = [ValueError]. *)
Definition init (url : string) (user token : option string)
  (oauth : list (string * string)) : option JiraClient :=
  let base := rstrip_slash url in
  match oauth with
  | _ :: _ =>
      match dict_lookup "consumer_key" oauth,
            dict_lookup "consumer_secret" oauth with
      | Some _, Some _ =>
          Some (mk_client base user token oauth None
                  (dict_lookup "access_token" oauth)
                  default_headers None None false None)
      | _, _ => None
      end
  | [] =>
      match user, token with
      | Some u, Some t =>
          if truthy_str user && truthy_str token then
            Some (mk_client base user token [] (Some (u, t)) None
                    default_headers None None false None)
          else None
      | _, _ => None
      end
  end.

Definition set_session (c : JiraClient) (version : Z) (endpoint : string)
  (method : string) (instance : bool) (hdrs : list (string * string))
  : JiraClient :=
  mk_client (base_url c) (username c) (api_token c) (oauth_config c)
    (auth c) (oauth_token c) hdrs (Some version) (Some endpoint)
    instance (Some method).

(** One entry of [test_methods]. *)
Record candidate : Type := mk_candidate {
  cand_name : string;
  cand_url : string;
  cand_headers : list (string * string);
  cand_auth_method : string
}.

(** What the connection test tried, in order. *)
Inductive probe : Type :=
| ProbeToken                 (* JIRA(server, token_auth) and myself() *)
| ProbeOAuth                 (* _test_oauth_connection, no network *)
| ProbeGet (r : request).    (* one requests.get of the candidate loop *)

Section Connection.

(** [base64.b64encode(...).decode()] *)
Variable b64encode : string -> string.

(** The tracker as seen through the jira binding: the result of
    [JIRA(server=..., token_auth=...).myself()], [None] when the
    import, the constructor or the call raises. *)
Variable token_identity : string -> string -> option json.

(** The tracker as seen through [requests.get]. *)
Variable transport : request -> http_result.

Definition encoded_credentials (c : JiraClient) : string :=
  match auth c with
  | Some (u, t) => b64encode (u ++ ":" ++ t)%string
  | None => EmptyString
  end.

(** [_test_token_auth]: the log line reads [myself['displayName']]
    and [myself['emailAddress']] before the session is stored, so a
    missing one fails the check. *)
Definition _test_token_auth (c : JiraClient) : bool * JiraClient :=
  match api_token c with
  | None => (false, c)
  | Some tok =>
      match token_identity (base_url c) tok with
      | Some myself =>
          match subscript myself "displayName",
                subscript myself "emailAddress" with
          | Some _, Some _ =>
              (true,
               set_session c 2 (base_url c ++ "/rest/api/2")%string
                 "token_auth" true (headers c))
          | _, _ => (false, c)
          end
      | None => (false, c)
      end
  end.

(** [_test_oauth_connection]: not implemented, always [False]. *)
Definition _test_oauth_connection (c : JiraClient) : bool := false.

Definition test_methods (c : JiraClient) : list candidate :=
  let authz := ("Basic " ++ encoded_credentials c)%string in
  [ mk_candidate "Basic Auth + API v3"
      (base_url c ++ "/rest/api/3/myself")%string (headers c) "basic";
    mk_candidate "Basic Auth + API v2"
      (base_url c ++ "/rest/api/2/myself")%string (headers c) "basic";
    mk_candidate "Authorization Header + API v3"
      (base_url c ++ "/rest/api/3/myself")%string
      (dict_set "Authorization" authz (headers c)) "header";
    mk_candidate "Authorization Header + API v2"
      (base_url c ++ "/rest/api/2/myself")%string
      (dict_set "Authorization" authz (headers c)) "header" ].

Definition probe_request (c : JiraClient) (m : candidate) : request :=
  mk_request (cand_url m) (cand_headers m)
    (if String.eqb (cand_auth_method m) "basic" then auth c else None)
    [] 15.

(** The identity request of candidate [m] returns HTTP 200. *)
Definition answers_200 (c : JiraClient) (m : candidate) : Prop :=
  exists body, transport (probe_request c m) = Response 200 body.

(** The state stored when candidate [m] answered 200. *)
Definition record_success (c : JiraClient) (m : candidate) : JiraClient :=
  let v := if PyStr.contains "api/3" (cand_url m) then 3 else 2 in
  let endpoint :=
    if PyStr.contains "api/3" (cand_url m)
    then (base_url c ++ "/rest/api/3")%string
    else (base_url c ++ "/rest/api/2")%string in
  set_session c v endpoint (cand_auth_method m) (jira_instance c)
    (if String.eqb (cand_auth_method m) "header"
     then dict_set "Authorization"
            ("Basic " ++ encoded_credentials c)%string (headers c)
     else headers c).

(** The [for method in test_methods] loop: the first 200 returns
    [True]; every other status and every exception moves on. *)
Fixpoint probe_loop (c : JiraClient) (methods : list candidate)
  (trace : list probe) : bool * JiraClient * list probe :=
  match methods with
  | [] => (false, c, trace)
  | m :: rest =>
      let r := probe_request c m in
      match transport r with
      | Response code _ =>
          if code =? 200
          then (true, record_success c m, trace ++ [ProbeGet r])
          else probe_loop c rest (trace ++ [ProbeGet r])
      | Raised _ => probe_loop c rest (trace ++ [ProbeGet r])
      end
  end.

(** [JiraClient.test_connection]: the result, the client afterwards
    and the probes made. *)
Definition test_connection (c : JiraClient)
  : bool * JiraClient * list probe :=
  let after_token :=
    if truthy_str (api_token c)
    then (let '(ok, c') := _test_token_auth c in (ok, c', [ProbeToken]))
    else (false, c, []) in
  let '(ok, c1, trace1) := after_token in
  if ok then (true, c1, trace1)
  else
    let try_oauth :=
      match oauth_config c1 with
      | _ :: _ => truthy_str (oauth_token c1)
      | [] => false
      end in
    let trace2 := if try_oauth then trace1 ++ [ProbeOAuth] else trace1 in
    if try_oauth && _test_oauth_connection c1 then (true, c1, trace2)
    else
      match auth c1 with
      | None => (false, c1, trace2)
      | Some _ => probe_loop c1 (test_methods c1) trace2
      end.

End Connection.

Section Search.

Variable fromisoformat : string -> option datetime.
Variable transport : request -> http_result.

Definition max_results : Z := 50.

Definition search_fields : string :=
  "key,summary,status,assignee,priority,created,updated,issuetype,project,description,components,labels,customfield_10016".

(** The request of one iteration of the [while True] loop. *)
Definition search_request (c : JiraClient) (endpoint jql : string)
  (start_at : Z) : request :=
  mk_request (endpoint ++ "/search")%string (headers c)
    (match successful_auth_method c with
     | Some m => if String.eqb m "basic" then auth c else None
     | None => None
     end)
    [ ("jql", PStr jql); ("startAt", PInt start_at);
      ("maxResults", PInt max_results); ("fields", PStr search_fields) ]
    30.

(** One iteration: the tasks and the requests so far, and the next
    offset when the loop goes on ([None] = [break]). *)
Definition search_step (c : JiraClient) (endpoint jql : string)
  (start_at : Z) (tasks : list JiraTaskObj)
  : list JiraTaskObj * option Z :=
  match transport (search_request c endpoint jql start_at) with
  | Raised _ => (tasks, None)
  | Response code body =>
      if negb (code =? 200) then (tasks, None)
      else
        match body with
        | None => (tasks, None)
        | Some data =>
            match get data "issues" (JArr []),
                  get data "total" (JNum 0) with
            | Some issues, Some total =>
                match iter issues with
                | None => (tasks, None)
                | Some items =>
                    let '(tasks', escaped) :=
                      parse_page fromisoformat items tasks in
                    if escaped then (tasks', None)
                    else
                      match as_number total with
                      | None => (tasks', None)
                      | Some n =>
                          if n <=? start_at + max_results
                          then (tasks', None)
                          else (tasks', Some (start_at + max_results))
                      end
                end
            | _, _ => (tasks, None)
            end
        end
  end.

(** The [while True] loop, with the number of iterations bounded by
    [fuel]; [None] = the bound was reached before a [break]. The
    second component lists the requests issued, in order. *)
Fixpoint search_loop (fuel : nat) (c : JiraClient)
  (endpoint jql : string) (start_at : Z) (tasks : list JiraTaskObj)
  (sent : list request)
  : option (list JiraTaskObj * list request) :=
  match fuel with
  | O => None
  | S fuel' =>
      let sent' := sent ++ [search_request c endpoint jql start_at] in
      match search_step c endpoint jql start_at tasks with
      | (tasks', None) => Some (tasks', sent')
      | (tasks', Some next) =>
          search_loop fuel' c endpoint jql next tasks' sent'
      end
  end.

(** [JiraClient._execute_search] *)
Definition _execute_search (fuel : nat) (c : JiraClient)
  (jql project : string)
  : option (list JiraTaskObj * list request) :=
  if truthy_str (api_endpoint c) then
    match api_endpoint c with
    | Some endpoint => search_loop fuel c endpoint jql 0 [] []
    | None => Some ([], [])
    end
  else Some ([], []).

(** [n] successive offsets from [o], one page apart. *)
Fixpoint offsets_from (n : nat) (o : Z) : list Z :=
  match n with
  | O => []
  | S n' => o :: offsets_from n' (o + max_results)
  end.

(** The number of pages for a reported total: one page at least, then
    one more per started block of [max_results] records. *)
Definition page_count (total : Z) : nat :=
  Z.to_nat (Z.max 1 ((total + max_results - 1) / max_results)).

Definition page_offsets (total : Z) : list Z :=
  offsets_from (page_count total) 0.

(** A search endpoint that answers every page request of the query
    with status 200, the records [page o] for offset [o], and the
    same total. *)
Definition serves (c : JiraClient) (endpoint jql : string)
  (page : Z -> list json) (total : Z) : Prop :=
  forall o : Z,
    exists data : json,
      transport (search_request c endpoint jql o)
      = Response 200 (Some data)
      /\ get data "issues" (JArr []) = Some (JArr (page o))
      /\ get data "total" (JNum 0) = Some (JNum total).

End Search.

(** A fake search endpoint: 50 records per page while any are left, and
    the reported total. *)
Definition fake_page (total o : Z) : list json :=
  repeat (Issue.raw_issue "PROJ-1" "2024-01-15T10:30:00"
            "2024-01-15T10:30:00")
         (Z.to_nat (Z.min max_results (total - o))).

Definition start_of (r : request) : Z :=
  match r with
  | mk_request _ _ _ [_; (_, PInt o); _; _] _ => o
  | _ => 0
  end.

Definition fake_search (total : Z) (r : request) : http_result :=
  Response 200
    (Some (JObj [ ("startAt", JNum (start_of r));
                  ("maxResults", JNum max_results);
                  ("total", JNum total);
                  ("issues", JArr (fake_page total (start_of r))) ])).

(** A search endpoint that has one page, [issues], and reports its
    length as the total. *)
Definition one_page_search (issues : list json) (r : request)
  : http_result :=
  Response 200
    (Some (JObj [ ("total", JNum (Z.of_nat (List.length issues)));
                  ("issues", JArr issues) ])).

(** A tracker reached through a base URL whose path contains the text
    [api/3], where only version 2 of the API answers, and where the
    jira binding cannot log in. *)
Definition proxied_client : option JiraClient :=
  init "https://tracker.example/api/3" (Some "user") (Some "token") [].

Definition v2_only (r : request) : http_result :=
  if String.eqb (req_url r)
       "https://tracker.example/api/3/rest/api/2/myself"
  then Response 200 None
  else Response 404 None.

Definition no_token_login (server token : string) : option json := None.

(** The API version a candidate of [test_methods] addresses. *)
Definition candidate_version (base : string) (m : candidate) : Z :=
  if String.eqb (cand_url m) (base ++ "/rest/api/3/myself")%string
  then 3 else 2.

(** A client right after construction with a username and a token, and
    the same client once version 2 answered basic authentication. *)
Definition fresh_client : option JiraClient :=
  init "https://jira.example.com/" (Some "user") (Some "token") [].

Definition connected_client : JiraClient :=
  mk_client "https://jira.example.com" (Some "user") (Some "token") []
    (Some ("user", "token")) None default_headers (Some 2)
    (Some "https://jira.example.com/rest/api/2") false (Some "basic").

End Client.

(* ===================================================================== *)
(** ** StatusSummarizer: aggregation *)
(* ===================================================================== *)

Module Summarizer.
Import Datetime Issue.

(** The instance state set by [StatusSummarizer.__init__]: the groups
    in the order of the dict literal. *)
Record StatusSummarizer : Type := mk_summarizer {
  status_groups : list (string * list string)
}.

Definition init : StatusSummarizer :=
  mk_summarizer
    [ ("completed", ["Done"; "Closed"; "Resolved"; "Complete"]);
      ("in_progress",
       ["In Progress"; "In Development"; "In Review"; "Testing"]);
      ("blocked", ["Blocked"; "Waiting"; "On Hold"]);
      ("todo", ["To Do"; "Open"; "New"; "Backlog"]) ].

Fixpoint categorize (groups : list (string * list string))
  (status : string) : string :=
  match groups with
  | [] => "other"
  | (group, statuses) :: rest =>
      if existsb (String.eqb status) statuses then group
      else categorize rest status
  end.

(** [StatusSummarizer._categorize_status] *)
Definition _categorize_status (self : StatusSummarizer) (status : string)
  : string :=
  categorize (status_groups self) status.

(** A histogram: a dict from label to count, in insertion order. *)
Definition histogram : Type := list (string * nat).

(** [h[k] = h.get(k, 0) + 1] *)
Fixpoint incr (k : string) (h : histogram) : histogram :=
  match h with
  | [] => [(k, 1%nat)]
  | (k', n) :: h' =>
      if String.eqb k k' then (k', S n) :: h' else (k', n) :: incr k h'
  end.

(** [sum(h.values())] *)
Definition total (h : histogram) : nat :=
  fold_right (fun kv acc => (snd kv + acc)%nat) 0%nat h.

(** [h.get(k, 0)] *)
Fixpoint count (k : string) (h : histogram) : nat :=
  match h with
  | [] => 0%nat
  | (k', n) :: h' => if String.eqb k k' then n else count k h'
  end.

(** The summary dict. *)
Record Summary : Type := mk_summary {
  total_tasks : nat;
  by_status : histogram;
  by_project : histogram;
  by_assignee : histogram;
  by_priority : histogram;
  recent_updates : list JiraTask;
  story_points_total : Z;
  story_points_completed : Z;
  this_week : list JiraTask;
  last_week : list JiraTask
}.

(** What a call of [summarize_tasks] can do. *)
Inductive summarize_result : Type :=
| ErrorDict (message : string)   (* the dict {"error": message} *)
| SummaryDict (s : Summary)
| RaisedTypeError.               (* naive and aware datetimes compared *)

(** [task.assignee or 'Unassigned'] *)
Definition assignee_label (t : JiraTask) : string :=
  match assignee t with
  | Some a => if String.eqb a "" then "Unassigned" else a
  | None => "Unassigned"
  end.

(** The body of [for task in tasks]; [None] = the comparison of
    [task.updated] with the naive boundary raises. *)
Definition add_task (self : StatusSummarizer)
  (week_ago two_weeks_ago : datetime) (s : Summary) (task : JiraTask)
  : option Summary :=
  let status_group := _categorize_status self (status task) in
  let sp_total :=
    match story_points task with
    | Some p => if p =? 0 then story_points_total s
                else story_points_total s + p
    | None => story_points_total s
    end in
  let sp_completed :=
    match story_points task with
    | Some p => if negb (p =? 0) && String.eqb status_group "completed"
                then story_points_completed s + p
                else story_points_completed s
    | None => story_points_completed s
    end in
  let s' := fun tw lw =>
    mk_summary (total_tasks s)
      (incr status_group (by_status s))
      (incr (project task) (by_project s))
      (incr (assignee_label task) (by_assignee s))
      (incr (priority task) (by_priority s))
      (recent_updates s) sp_total sp_completed tw lw in
  match ge (updated task) week_ago with
  | None => None
  | Some true => Some (s' (this_week s ++ [task]) (last_week s))
  | Some false =>
      match ge (updated task) two_weeks_ago with
      | None => None
      | Some true => Some (s' (this_week s) (last_week s ++ [task]))
      | Some false => Some (s' (this_week s) (last_week s))
      end
  end.

Fixpoint add_tasks (self : StatusSummarizer)
  (week_ago two_weeks_ago : datetime) (s : Summary) (tasks : list JiraTask)
  : option Summary :=
  match tasks with
  | [] => Some s
  | task :: rest =>
      match add_task self week_ago two_weeks_ago s task with
      | Some s' => add_tasks self week_ago two_weeks_ago s' rest
      | None => None
      end
  end.

(** [l.sort(key=lambda x: x.updated, reverse=True)]: a stable sort, so
    tasks with equal keys keep their order; its result does not depend
    on the sorting algorithm.  Only naive timestamps reach the two
    buckets, so the keys compare by their wall-clock value. *)
Fixpoint insert_desc (x : JiraTask) (l : list JiraTask) : list JiraTask :=
  match l with
  | [] => [x]
  | y :: l' =>
      if wall (updated y) <=? wall (updated x) then x :: y :: l'
      else y :: insert_desc x l'
  end.

Fixpoint sort_desc (l : list JiraTask) : list JiraTask :=
  match l with
  | [] => []
  | x :: l' => insert_desc x (sort_desc l')
  end.

(** [StatusSummarizer.summarize_tasks]; [now] is the reading of
    [datetime.now()] taken inside the call. *)
Definition summarize_tasks (self : StatusSummarizer) (now : Z)
  (tasks : list JiraTask) : summarize_result :=
  match tasks with
  | [] => ErrorDict "No tasks found"
  | _ :: _ =>
      let summary :=
        mk_summary (List.length tasks) [] [] [] [] [] 0 0 [] [] in
      let week_ago := minus_days (of_clock now) 7 in
      let two_weeks_ago := minus_days (of_clock now) 14 in
      match add_tasks self week_ago two_weeks_ago summary tasks with
      | None => RaisedTypeError
      | Some s =>
          SummaryDict
            (mk_summary (total_tasks s) (by_status s) (by_project s)
               (by_assignee s) (by_priority s) (recent_updates s)
               (story_points_total s) (story_points_completed s)
               (sort_desc (this_week s)) (sort_desc (last_week s)))
      end
  end.

(** The two windows of the recency split, on naive timestamps. *)
Definition in_this_week (now : Z) (t : JiraTask) : bool :=
  now - 7 * day_us <=? wall (updated t).

Definition in_last_week (now : Z) (t : JiraTask) : bool :=
  (now - 14 * day_us <=? wall (updated t))
  && (wall (updated t) <? now - 7 * day_us).

(** Most recent first. *)
Definition updated_ge (a b : JiraTask) : Prop :=
  wall (updated b) <= wall (updated a).

(** A task last updated at the naive time [u]. *)
Definition task_updated (k st : string) (u : Z) : JiraTask :=
  mk_task k "Fix login" st None "High" (of_clock u) (of_clock u) "PROJ"
    "Task" None [] [] "".

End Summarizer.

(* ===================================================================== *)
(** ** ConfigManager: dotted lookup in the configuration *)
(* ===================================================================== *)

Module ConfigManager.
Import Json.

(** The [for k in keys] loop of [ConfigManager.get]:
    [value = value.get(k, default)], and [default] is returned as soon as
    the value is [None]; [None] here = [AttributeError], raised by [.get]
    on a value that is not a dict. *)
Fixpoint get_loop (value : json) (keys : list string) (default : json)
  : option json :=
  match keys with
  | [] => Some value
  | k :: rest =>
      match Json.get value k default with
      | None => None
      | Some JNull => Some default
      | Some v => get_loop v rest default
      end
  end.

(** [ConfigManager.get(key, default)] on the loaded configuration. *)
Definition get (config : json) (key : string) (default : json)
  : option json :=
  get_loop config (PyStr.split "." key) default.

(** The value found by subscripting along [keys]. *)
Fixpoint descend (v : json) (keys : list string) : option json :=
  match keys with
  | [] => Some v
  | k :: rest =>
      match subscript v k with
      | Some x => descend x rest
      | None => None
      end
  end.

(** The configuration written when no file exists. *)
Definition default_config : json :=
  JObj [ ("jira",
          JObj [ ("base_url", JStr "https://your-domain.atlassian.net");
                 ("username", JStr "your-email@company.com");
                 ("api_token", JStr "your-api-token") ]);
         ("projects", JArr [JStr "PROJ1"; JStr "PROJ2"]);
         ("days_back", JNum 14);
         ("output_dir", JStr "./reports");
         ("schedule",
          JObj [ ("enabled", JBool false);
                 ("day_of_week", JNum 1);
                 ("hour", JNum 9) ]) ].

End ConfigManager.

(* ===================================================================== *)
(** ** The summary in closed form *)
(* ===================================================================== *)

Module Tally.
Import Datetime Issue Summarizer.

(** The points an issue adds to a sum: its estimate, nothing without
    one. *)
Definition points (t : JiraTask) : Z :=
  match story_points t with
  | Some p => p
  | None => 0
  end.

Definition sum_points (tasks : list JiraTask) : Z :=
  fold_right (fun t acc => points t + acc) 0 tasks.

(** Counting a sequence of labels into a histogram, one after the
    other. *)
Definition tally (ls : list string) (h : histogram) : histogram :=
  fold_left (fun acc l => incr l acc) ls h.

(** The labels of a histogram, in insertion order. *)
Definition labels (h : histogram) : list string := map fst h.

(** The five status groups. *)
Definition buckets : list string :=
  ["completed"; "in_progress"; "blocked"; "todo"; "other"].

Definition is_completed (self : StatusSummarizer) (t : JiraTask) : bool :=
  String.eqb (_categorize_status self (status t)) "completed".

(** Updated before the window of the last two weeks. *)
Definition older (now : Z) (t : JiraTask) : bool :=
  wall (updated t) <? now - 14 * day_us.

Definition updated_at (u : Z) (t : JiraTask) : bool :=
  wall (updated t) =? u.

(** The summary of a non-empty list of tasks with naive timestamps. *)
Definition closed_form (self : StatusSummarizer) (now : Z)
  (tasks : list JiraTask) : Summary :=
  mk_summary (List.length tasks)
    (tally (map (fun t => _categorize_status self (status t)) tasks) [])
    (tally (map project tasks) [])
    (tally (map assignee_label tasks) [])
    (tally (map priority tasks) [])
    []
    (sum_points tasks)
    (sum_points (filter (is_completed self) tasks))
    (sort_desc (filter (in_this_week now) tasks))
    (sort_desc (filter (in_last_week now) tasks)).

(** A task with an estimate and a naive update time. *)
Definition estimated_task (k st : string) (p : Z) (u : Z) : JiraTask :=
  mk_task k "Fix login" st (Some "Ada") "High" (of_clock u) (of_clock u)
    "PROJ" "Task" (Some p) [] [] "".

End Tally.

(* ===================================================================== *)
(** ** Vocabulary for the properties of the client *)
(* ===================================================================== *)

Module ClientSpec.
Import Json Client.

(** A run of [n] slashes. *)
Fixpoint slashes (n : nat) : string :=
  match n with
  | O => EmptyString
  | S n' => String "/" (slashes n')
  end.

(** The probe is an HTTP request. *)
Definition is_get (p : probe) : bool :=
  match p with
  | ProbeGet _ => true
  | _ => false
  end.

(** The API root for a version. *)
Definition api_root (base : string) (version : Z) : string :=
  if version =? 3 then (base ++ "/rest/api/3")%string
  else (base ++ "/rest/api/2")%string.

(** The probes made before the candidate loop when the token check does
    not succeed: the token check itself when a token is set, and the
    OAuth check when OAuth settings and an access token are set. *)
Definition pre_probes (c : JiraClient) : list probe :=
  (if truthy_str (api_token c) then [ProbeToken] else [])
  ++ (match oauth_config c with
      | _ :: _ => if truthy_str (oauth_token c) then [ProbeOAuth] else []
      | [] => []
      end).

(** A tracker that answers every request with 404. *)
Definition always_404 (r : request) : http_result := Response 404 None.

(** A tracker whose identity endpoints answer 200 to an explicit
    [Authorization] header only. *)
Definition header_only (r : request) : http_result :=
  match dict_lookup "Authorization" (req_headers r) with
  | Some _ => Response 200 None
  | None => Response 401 None
  end.

(** A search endpoint whose reported total is always 100 past the offset
    asked for, with empty pages. *)
Definition growing_search (r : request) : http_result :=
  Response 200
    (Some (JObj [ ("total", JNum (start_of r + 100)); ("issues", JArr []) ])).

(** A client built with OAuth settings and, beside them, a username and
    a token. *)
Definition oauth_client : option JiraClient :=
  init "https://jira.example.com" (Some "user") (Some "token")
    [("consumer_key", "ck"); ("consumer_secret", "cs");
     ("access_token", "at")].

End ClientSpec.

(* ===================================================================== *)
(** ** The library path: issues of the jira binding *)
(* ===================================================================== *)

Module Library.
Import Datetime Issue.

(** The values the binding hands out: rich objects with attributes,
    lists, strings, numbers, [datetime]s and [None]. *)
Inductive pyobj : Type :=
| PNone
| PStr (s : string)
| PInt (n : Z)
| PDatetime (d : datetime)
| PList (items : list pyobj)
| PObj (attrs : list (string * pyobj)).

Fixpoint attr_lookup (name : string) (l : list (string * pyobj))
  : option pyobj :=
  match l with
  | [] => None
  | (k, v) :: l' => if String.eqb name k then Some v else attr_lookup name l'
  end.

(** [getattr(x, name)] for the names the parser reads ([fields], [key],
    [summary], [name], [displayName], ...): found among the attributes of
    an object; none of them is an attribute of a string, a number, a
    list, a [datetime] or [None]. [None] = [AttributeError], and
    [hasattr] is false. *)
Definition getattr (x : pyobj) (name : string) : option pyobj :=
  match x with
  | PObj attrs => attr_lookup name attrs
  | _ => None
  end.

(** Python truth value; an object of the binding is true. *)
Definition truthy (x : pyobj) : bool :=
  match x with
  | PNone => false
  | PStr s => negb (String.eqb s "")
  | PInt n => negb (n =? 0)
  | PDatetime _ => true
  | PList l => match l with [] => false | _ => true end
  | PObj _ => true
  end.

Fixpoint chars (s : string) : list pyobj :=
  match s with
  | EmptyString => []
  | String c s' => PStr (String c EmptyString) :: chars s'
  end.

(** The items [for x in v] visits; [TypeError] on what is not
    iterable. *)
Definition iter (x : pyobj) : option (list pyobj) :=
  match x with
  | PList l => Some l
  | PStr s => Some (chars s)
  | _ => None
  end.

(** A [JiraTask] instance as [_parse_jira_library_issue] builds it. The
    description is always a string and the timestamps [datetime]s; the
    other fields hold what the binding returned. *)
Record LibTaskObj : Type := mk_lib {
  l_key : pyobj;
  l_summary : pyobj;
  l_status : pyobj;
  l_assignee : pyobj;
  l_priority : pyobj;
  l_created : datetime;
  l_updated : datetime;
  l_project : pyobj;
  l_issue_type : pyobj;
  l_story_points : pyobj;
  l_components : list pyobj;
  l_labels : pyobj;
  l_description : string
}.

#[local] Notation "x <- e ;; k" :=
  (match e with Some x => k | None => None end)
    (at level 61, e at next level, right associativity).

Section LibraryParser.

Variable fromisoformat : string -> option datetime.

(** [str(x)] for a value that is not a string. *)
Variable repr : pyobj -> string.

Definition py_str (x : pyobj) : string :=
  match x with
  | PStr s => s
  | _ => repr x
  end.

(** The argument of [parse_datetime]: a [datetime] has [strftime], every
    other value goes through [str()]. *)
Definition timestamp_of (x : pyobj) : timestamp_field :=
  match x with
  | PDatetime d => DtObject d
  | _ => DtText (py_str x)
  end.

(** [[comp.name for comp in comps]] *)
Fixpoint component_names (comps : list pyobj) : option (list pyobj) :=
  match comps with
  | [] => Some []
  | comp :: rest =>
      n <- getattr comp "name" ;;
      ns <- component_names rest ;;
      Some (n :: ns)
  end.

(** [JiraClient._parse_jira_library_issue]; [None] = an exception was
    caught and [None] returned. The handler reads the key with
    [getattr(issue, 'key', 'unknown')], which cannot raise. *)
Definition _parse_jira_library_issue (now : Z) (issue : pyobj)
  : option LibTaskObj :=
  fields <- getattr issue "fields" ;;
  assignee <- match getattr fields "assignee" with
              | Some a => if truthy a then getattr a "displayName"
                          else Some PNone
              | None => Some PNone
              end ;;
  components <- match getattr fields "components" with
                | Some cs => items <- iter cs ;; component_names items
                | None => Some []
                end ;;
  let labels := match getattr fields "labels" with
                | Some l => l
                | None => PList []
                end in
  let story_points := match getattr fields "customfield_10016" with
                      | Some v => v
                      | None => PNone
                      end in
  let description := match getattr fields "description" with
                     | Some d => if truthy d
                                 then substring 0 500 (py_str d)
                                 else EmptyString
                     | None => EmptyString
                     end in
  k <- getattr issue "key" ;;
  su <- getattr fields "summary" ;;
  st <- getattr fields "status" ;;
  st <- getattr st "name" ;;
  p <- getattr fields "priority" ;;
  p <- getattr p "name" ;;
  c <- getattr fields "created" ;;
  c <- parse_datetime fromisoformat now (timestamp_of c) ;;
  u <- getattr fields "updated" ;;
  u <- parse_datetime fromisoformat now (timestamp_of u) ;;
  pr <- getattr fields "project" ;;
  pr <- getattr pr "key" ;;
  it <- getattr fields "issuetype" ;;
  it <- getattr it "name" ;;
  Some (mk_lib k su st assignee p c u pr it story_points components labels
               description).

(** The tasks of one result list: the parser's non-[None] results. *)
Definition parse_all (now : Z) (issues : list pyobj) : list LibTaskObj :=
  flat_map (fun issue => match _parse_jira_library_issue now issue with
                         | Some t => [t]
                         | None => []
                         end) issues.

End LibraryParser.

(** An issue object of the binding. *)
Definition lib_issue (k created_v updated_v description_v : string)
  : pyobj :=
  PObj [ ("key", PStr k);
         ("fields",
          PObj [ ("summary", PStr "Fix login");
                 ("status", PObj [("name", PStr "Done")]);
                 ("priority", PObj [("name", PStr "High")]);
                 ("assignee", PNone);
                 ("created", PStr created_v);
                 ("updated", PStr updated_v);
                 ("project", PObj [("key", PStr "PROJ")]);
                 ("issuetype", PObj [("name", PStr "Task")]);
                 ("description", PStr description_v) ]) ].

Definition no_repr (x : pyobj) : string := "<object>".

End Library.

(* ===================================================================== *)
(** ** fetch_tasks: the two retrieval paths *)
(* ===================================================================== *)

Module Fetch.
Import Datetime Issue Client Library.

Definition dquote : string := String (ascii_of_nat 34) EmptyString.

(** The JQL of one project:
    [project = "<project>" AND updated >= "<since>" ORDER BY updated DESC] *)
Definition project_jql (project since_date : string) : string :=
  ("project = " ++ dquote ++ project ++ dquote ++ " AND updated >= "
   ++ dquote ++ since_date ++ dquote ++ " ORDER BY updated DESC")%string.

(** What a call of [fetch_tasks] does: it returns tasks, by the path
    taken (for the HTTP path the requests sent are listed too), or the
    computation of the start date raises [OverflowError]. *)
Inductive fetched : Type :=
| FromLibrary (tasks : list LibTaskObj)
| FromHttp (tasks : list JiraTaskObj) (sent : list request)
| RaisedOverflowError.

(** [timedelta(days=n)] exists for at most 999999999 days either way. *)
Definition timedelta_days_ok (n : Z) : bool :=
  (-999999999 <=? n) && (n <=? 999999999).

(** The last microsecond of [datetime.max], 9999-12-31T23:59:59.999999. *)
Definition max_wall : Z := 3652059 * day_us - 1.

(** [datetime.now() - timedelta(days=days_back)] can be computed: the
    look-back is a valid [timedelta] and the date stays within years 1
    to 9999. *)
Definition since_in_range (now days_back : Z) : bool :=
  timedelta_days_ok days_back
  && (0 <=? now - days_back * day_us)
  && (now - days_back * day_us <=? max_wall).

Section FetchTasks.

Variable fromisoformat : string -> option datetime.
Variable repr : pyobj -> string.

(** [d.strftime('%Y-%m-%d')] *)
Variable strftime_ymd : datetime -> string.

(** [jira_instance.search_issues(jql_str=jql, maxResults=1000, ...)];
    [None] = the call raises. *)
Variable search_issues : string -> option (list pyobj).

Variable transport : request -> http_result.

(** [JiraClient._fetch_tasks_with_jira_library]: a project whose search
    raises is logged and skipped. *)
Fixpoint _fetch_tasks_with_jira_library (now : Z) (projects : list string)
  (since_date : string) : list LibTaskObj :=
  match projects with
  | [] => []
  | project :: rest =>
      match search_issues (project_jql project since_date) with
      | Some issues => parse_all fromisoformat repr now issues
      | None => []
      end ++ _fetch_tasks_with_jira_library now rest since_date
  end.

(** The [for project in projects] loop of the HTTP path; [None] = a
    search did not return within [fuel] iterations. *)
Fixpoint fetch_http (fuel : nat) (c : JiraClient) (since_date : string)
  (projects : list string) (tasks : list JiraTaskObj) (sent : list request)
  : option (list JiraTaskObj * list request) :=
  match projects with
  | [] => Some (tasks, sent)
  | project :: rest =>
      match _execute_search fromisoformat transport fuel c
              (project_jql project since_date) project with
      | None => None
      | Some (found, requests) =>
          fetch_http fuel c since_date rest (tasks ++ found)
            (sent ++ requests)
      end
  end.

(** [JiraClient.fetch_tasks]; [now] is the reading of [datetime.now()].
    The start date is computed first, before either path is chosen, and
    that subtraction raises [OverflowError] out of range. [None] = a
    search did not return within [fuel] iterations. *)
Definition fetch_tasks (fuel : nat) (c : JiraClient) (now : Z)
  (projects : list string) (days_back : Z) : option fetched :=
  if negb (since_in_range now days_back) then Some RaisedOverflowError
  else
    let since_date := strftime_ymd (minus_days (of_clock now) days_back) in
    if jira_instance c
    then Some (FromLibrary
                 (_fetch_tasks_with_jira_library now projects since_date))
    else
      match fetch_http fuel c since_date projects [] [] with
      | Some (tasks, sent) => Some (FromHttp tasks sent)
      | None => None
      end.

End FetchTasks.

(** A formatter for the examples: every date reads [2024-01-01]. *)
Definition fixed_date (d : datetime) : string := "2024-01-01".

(** A search endpoint that knows project PROJ only: one page with one
    record for its JQL, status 400 for any other query. *)
Definition proj_only (r : request) : http_result :=
  match r with
  | mk_request _ _ _ (("jql", Client.PStr q) :: _) _ =>
      if String.eqb q (project_jql "PROJ" "2024-01-01")
      then one_page_search
             [raw_issue "PROJ-1" "2024-01-15T10:30:00" "2024-01-15T10:30:00"]
             r
      else Response 400 None
  | _ => Response 400 None
  end.

End Fetch.

(* ===================================================================== *)
(** ** A tracker seen through the jira binding, for the examples *)
(* ===================================================================== *)

Module LibraryFake.
Import Json Library.



End LibraryFake.

(* ===================================================================== *)
(** ** A search endpoint with a record that is not a dict *)
(* ===================================================================== *)

Module SearchFake.
Import Json Datetime Issue Client.

(** A complete record with key [k]. *)
Definition good_record (k : string) : json :=
  raw_issue k "2024-01-15T10:30:00" "2024-01-15T10:30:00".

(** The task a complete record with key [k] stands for, written out field
    by field: no assignee, no components, no labels, no estimate, empty
    description, both timestamps 2024-01-15 10:30:00 without offset. *)
Definition expected_task (k : string) : JiraTaskObj :=
  mk_obj (JStr k) (JStr "Fix login") (JStr "Done") JNull (JStr "High")
    (mk_datetime 63840911400000000 None)
    (mk_datetime 63840911400000000 None)
    (JStr "PROJ") (JStr "Task") JNull [] (JArr []) (JStr "").

(** The pages of an endpoint that reports a total of 120: the first page
    holds a JSON [null] between two complete records (the page is cut
    short here; its length plays no part), the two later pages one
    complete record each. *)
Definition null_record_page (o : Z) : list json :=
  if o =? 0 then [good_record "PROJ-1"; JNull; good_record "PROJ-2"]
  else if o =? 50 then [good_record "PROJ-3"]
  else [good_record "PROJ-4"].

Definition null_record_search (r : request) : http_result :=
  Response 200
    (Some (JObj [ ("startAt", JNum (start_of r));
                  ("maxResults", JNum max_results);
                  ("total", JNum 120);
                  ("issues", JArr (null_record_page (start_of r))) ])).

(** The same endpoint with the [null] record replaced by a record that
    lacks its summary. *)
Definition malformed_dict_page (o : Z) : list json :=
  if o =? 0
  then [good_record "PROJ-1"; raw_issue_no_summary; good_record "PROJ-2"]
  else if o =? 50 then [good_record "PROJ-3"]
  else [good_record "PROJ-4"].

Definition malformed_dict_search (r : request) : http_result :=
  Response 200
    (Some (JObj [ ("startAt", JNum (start_of r));
                  ("maxResults", JNum max_results);
                  ("total", JNum 120);
                  ("issues", JArr (malformed_dict_page (start_of r))) ])).

End SearchFake.

(* ===================================================================== *)
(** ** The part of a summary the clock has no say in *)
(* ===================================================================== *)

Module ClockView.
Import Datetime Issue Summarizer.

(** A result with its two recency lists emptied. *)
Definition without_timeline (r : summarize_result) : summarize_result :=
  match r with
  | SummaryDict s =>
      SummaryDict
        (mk_summary (total_tasks s) (by_status s) (by_project s)
           (by_assignee s) (by_priority s) (recent_updates s)
           (story_points_total s) (story_points_completed s) [] [])
  | _ => r
  end.

(** The task falls into the same window at both clock readings. *)
Definition same_windows (now1 now2 : Z) (t : JiraTask) : Prop :=
  in_this_week now1 t = in_this_week now2 t
  /\ in_last_week now1 t = in_last_week now2 t.

End ClockView.

(* ===================================================================== *)
(** * Properties *)
(* ===================================================================== *)

(** ** FieldExtractor *)

Section FieldExtractorFacts.
Import FieldExtractor.

Variable type_attr : value -> string -> option value.

Lemma walk_follow_some (attrs : list string) :
  forall (current default v : value),
    follow type_attr current attrs = Some v ->
    walk type_attr current attrs default = v.
Proof.
  induction attrs as [|a attrs IH]; simpl; intros current default v H.
  - congruence.
  - destruct (py_getattr type_attr current a) as [next|]; [|discriminate].
    now apply IH.
Qed.

Lemma walk_follow_none (attrs : list string) :
  forall (current default : value),
    follow type_attr current attrs = None ->
    walk type_attr current attrs default = default.
Proof.
  induction attrs as [|a attrs IH]; simpl; intros current default H.
  - discriminate.
  - destruct (py_getattr type_attr current a) as [next|]; [|reflexivity].
    now apply IH.
Qed.

(** The walk stops with the default at the first attribute that the
    value reached so far does not expose. *)
Lemma walk_first_missing (pre : list string) :
  forall (current default v : value) (a : string) (post : list string),
    follow type_attr current pre = Some v ->
    py_getattr type_attr v a = None ->
    walk type_attr current (pre ++ a :: post) default = default.
Proof.
  induction pre as [|p pre IH]; simpl; intros current default v a post Hf Hg.
  - injection Hf as ->. now rewrite Hg.
  - destruct (py_getattr type_attr current p) as [next|]; [|discriminate].
    now apply IH with (v := v).
Qed.

Lemma split_nonempty (sep : ascii) (s : string) : PyStr.split sep s <> [].
Proof.
  destruct s as [|c s]; simpl; [discriminate|].
  destruct (Ascii.eqb c sep); [discriminate|].
  destruct (PyStr.split sep s); discriminate.
Qed.

End FieldExtractorFacts.

(** C1, as the specification states it, fails on the code: the entries
    of a mapping are not attributes, so the nested dict of the example
    yields the default, not 7. *)
Lemma safe_get_attr_dict_counterexample :
  FieldExtractor.safe_get_attr FieldExtractor.dict_type_attr
    FieldExtractor.nested_dict "a.b.c" (FieldExtractor.VStr "X")
  = FieldExtractor.VStr "X"
  /\ FieldExtractor.safe_get_attr FieldExtractor.dict_type_attr
       FieldExtractor.nested_dict "a.b.c" (FieldExtractor.VStr "X")
     <> FieldExtractor.VInt 7.
Proof. split; [reflexivity | discriminate]. Qed.

(** C1 (amended): [safe_get_attr] follows the dotted path by attribute
    lookup only.  It returns the value reached when every attribute is
    exposed, and the default as soon as one is not; on a mapping the keys
    are never consulted, so a path whose first name is not an attribute of
    the dict type yields the default whatever the entries are.  In
    particular [get({}, "a.b.c", "X")] and
    [get({"a":{"b":{"c":7}}}, "a.b.c", "X")] are both ["X"], while the
    attribute-bearing object of the same shape yields 7. *)
Theorem safe_get_attr_attributes_only :
  forall (type_attr : FieldExtractor.value -> string ->
                      option FieldExtractor.value)
         (obj default : FieldExtractor.value) (path : string),
    (forall v,
        FieldExtractor.follow type_attr obj (PyStr.split "." path) = Some v ->
        FieldExtractor.safe_get_attr type_attr obj path default = v)
    /\ (forall pre a post v,
           PyStr.split "." path = pre ++ a :: post ->
           FieldExtractor.follow type_attr obj pre = Some v ->
           FieldExtractor.py_getattr type_attr v a = None ->
           FieldExtractor.safe_get_attr type_attr obj path default = default)
    /\ (forall entries a rest,
           obj = FieldExtractor.VDict entries ->
           PyStr.split "." path = a :: rest ->
           type_attr obj a = None ->
           FieldExtractor.safe_get_attr type_attr obj path default = default)
    /\ FieldExtractor.safe_get_attr type_attr FieldExtractor.nested_obj
         "a.b.c" (FieldExtractor.VStr "X") = FieldExtractor.VInt 7.
Proof.
  intros type_attr obj default path. unfold FieldExtractor.safe_get_attr.
  repeat split.
  - intros v H. now apply walk_follow_some.
  - intros pre a post v Hs Hf Hg. rewrite Hs.
    now apply walk_first_missing with (v := v).
  - intros entries a rest -> Hs Hn. rewrite Hs. simpl. now rewrite Hn.
Qed.

Lemma safe_get_attr_attributes_only_witness :
  FieldExtractor.safe_get_attr FieldExtractor.dict_type_attr
    (FieldExtractor.VDict []) "a.b.c" (FieldExtractor.VStr "X")
  = FieldExtractor.VStr "X".
Proof.
  apply (proj1 (proj2 (proj2
           (safe_get_attr_attributes_only FieldExtractor.dict_type_attr
              (FieldExtractor.VDict []) (FieldExtractor.VStr "X") "a.b.c")))
         [] "a" ["b"; "c"]); reflexivity.
Defined.

(** ** Aggregation of the empty list *)

(** C2, as the specification states it, fails on the code: the empty
    list does not yield a summary at all. *)
Lemma summarize_empty_counterexample :
  ~ exists s : Summarizer.Summary,
      Summarizer.summarize_tasks Summarizer.init 0 [] = Summarizer.SummaryDict s
      /\ Summarizer.total_tasks s = 0%nat.
Proof. intros [s [H _]]. discriminate H. Qed.

(** C2 (amended): aggregating the empty list never raises; the guard at
    the head of [summarize_tasks] returns the error dict
    [{"error": "No tasks found"}], which has no count and no histogram. *)
Theorem summarize_empty_is_error_dict :
  forall (self : Summarizer.StatusSummarizer) (now : Z),
    Summarizer.summarize_tasks self now []
    = Summarizer.ErrorDict "No tasks found".
Proof. reflexivity. Qed.

(** ** The paginated search *)

Section SearchFacts.
Import Json Datetime Issue Client.

Variable fromisoformat : string -> option datetime.
Variable transport : request -> http_result.

(** A dict record never makes the parser's handler raise. *)
Lemma parse_issue_dict (issue : json) :
  is_dict issue = true ->
  _parse_issue fromisoformat issue <> Escaped.
Proof.
  destruct issue; try discriminate. intros _.
  unfold _parse_issue.
  destruct (parse_issue_body fromisoformat (JObj members)); [discriminate|].
  simpl. destruct (lookup "key" members); discriminate.
Qed.

Lemma parse_page_dicts (issues : list json) :
  Forall (fun i => is_dict i = true) issues ->
  forall tasks,
    parse_page fromisoformat issues tasks
    = (tasks ++ emitted fromisoformat issues, false).
Proof.
  induction 1 as [|issue issues Hd _ IH]; intros tasks; simpl.
  - now rewrite app_nil_r.
  - pose proof (parse_issue_dict issue Hd) as Hne.
    destruct (_parse_issue fromisoformat issue) as [t| |].
    + rewrite IH. now rewrite <- app_assoc.
    + apply IH.
    + contradiction.
Qed.

Variables (c : JiraClient) (endpoint jql : string).
Variables (page : Z -> list json) (total : Z).
Hypothesis served : serves transport c endpoint jql page total.
Hypothesis dicts : forall o, Forall (fun i => is_dict i = true) (page o).

Lemma search_step_served (o : Z) (tasks : list JiraTaskObj) :
  search_step fromisoformat transport c endpoint jql o tasks
  = (tasks ++ emitted fromisoformat (page o),
     if o + max_results <? total then Some (o + max_results) else None).
Proof.
  unfold search_step.
  destruct (served o) as [data [Ht [Hi Hn]]].
  rewrite Ht. simpl. rewrite Hi, Hn. simpl.
  rewrite (parse_page_dicts _ (dicts o)).
  destruct (Z.leb_spec total (o + max_results));
    destruct (Z.ltb_spec (o + max_results) total); try lia; reflexivity.
Qed.

(** [m] continuations and then a break: the loop visits [S m] offsets. *)
Lemma search_loop_run (m : nat) :
  forall (o : Z) (tasks : list JiraTaskObj) (sent : list request)
         (fuel : nat),
    (S m <= fuel)%nat ->
    (m = O \/ o + max_results * Z.of_nat m < total) ->
    total <= o + max_results * Z.of_nat (S m) ->
    search_loop fromisoformat transport fuel c endpoint jql o tasks sent
    = Some (tasks ++ flat_map (fun o' => emitted fromisoformat (page o'))
                              (offsets_from (S m) o),
            sent ++ map (search_request c endpoint jql)
                        (offsets_from (S m) o)).
Proof.
  unfold max_results.
  induction m as [|m IH]; intros o tasks sent fuel Hfuel Hcont Hstop;
    (destruct fuel as [|fuel]; [lia|]).
  - cbn [search_loop]. rewrite search_step_served. unfold max_results.
    destruct (Z.ltb_spec (o + 50) total); [lia|].
    simpl. now rewrite app_nil_r.
  - cbn [search_loop]. rewrite search_step_served. unfold max_results.
    destruct (Z.ltb_spec (o + 50) total); [|lia].
    rewrite IH by lia.
    cbn [offsets_from flat_map map]. unfold max_results.
    now rewrite <- !app_assoc.
Qed.

Lemma page_count_bounds :
  exists m : nat,
    page_count total = S m
    /\ (m = O \/ 0 + max_results * Z.of_nat m < total)
    /\ total <= 0 + max_results * Z.of_nat (S m).
Proof.
  assert (Hn : Z.of_nat (page_count total)
               = Z.max 1 ((total + 50 - 1) / 50)).
  { unfold page_count, max_results. rewrite Z2Nat.id; lia. }
  pose proof (Z.div_mod (total + 50 - 1) 50 ltac:(lia)) as Hdm.
  pose proof (Z.mod_pos_bound (total + 50 - 1) 50 ltac:(lia)) as Hmod.
  exists (pred (page_count total)). unfold max_results.
  split; [lia|]. split.
  - destruct (pred (page_count total)) eqn:E; [now left | right; lia].
  - lia.
Qed.

End SearchFacts.

(** Pagination when every record is a dict: against a search endpoint
    that answers every page of the query with status 200, dict records
    and the same total, [_execute_search] requests pages of 50 from
    offset 0, goes on exactly while [offset + 50 < total], and returns
    the concatenation, page after page, of the task objects of the
    records whose parse succeeded; for a total of 120 the offsets are 0,
    50 and 100. *)
Theorem execute_search_pagination :
  forall (fromisoformat : string -> option Datetime.datetime)
         (transport : Client.request -> Client.http_result)
         (c : Client.JiraClient) (endpoint jql project : string)
         (page : Z -> list Json.json) (total : Z) (fuel : nat),
    Client.api_endpoint c = Some endpoint ->
    endpoint <> "" ->
    Client.serves transport c endpoint jql page total ->
    (forall o, Forall (fun i => Json.is_dict i = true) (page o)) ->
    (Client.page_count total <= fuel)%nat ->
    (forall o tasks,
        snd (Client.search_step fromisoformat transport c endpoint jql o tasks)
        = if o + 50 <? total then Some (o + 50) else None)
    /\ Client._execute_search fromisoformat transport fuel c jql project
       = Some (flat_map (fun o => Issue.emitted fromisoformat (page o))
                        (Client.page_offsets total),
               map (Client.search_request c endpoint jql)
                   (Client.page_offsets total))
    /\ Forall (fun o => In ("startAt", Client.PInt o)
                           (Client.req_params
                              (Client.search_request c endpoint jql o))
                     /\ In ("maxResults", Client.PInt 50)
                           (Client.req_params
                              (Client.search_request c endpoint jql o)))
              (Client.page_offsets total)
    /\ Client.page_offsets 120 = [0; 50; 100].
Proof.
  intros fromisoformat transport c endpoint jql project page total fuel
         Hep Hne Hserved Hdicts Hfuel.
  split; [|split; [|split]].
  - intros o tasks.
    now rewrite (search_step_served fromisoformat transport c endpoint jql
                   page total Hserved Hdicts).
  - unfold Client._execute_search. rewrite Hep. simpl.
    destruct (String.eqb_spec endpoint ""); [contradiction|]. simpl.
    destruct (page_count_bounds total) as [m [Hs [Hcont Hstop]]].
    unfold Client.page_offsets. rewrite Hs.
    rewrite (search_loop_run fromisoformat transport c endpoint jql page
               total Hserved Hdicts m);
      [reflexivity | lia | exact Hcont | exact Hstop].
  - apply Forall_forall. intros o _. simpl. split; [right; left | right; right; left]; reflexivity.
  - reflexivity.
Qed.

Lemma execute_search_pagination_witness :
  Client._execute_search Datetime.fromisoformat (Client.fake_search 120) 3
    Client.connected_client "project = PROJ" "PROJ"
  = Some (flat_map (fun o => Issue.emitted Datetime.fromisoformat
                               (Client.fake_page 120 o))
                   (Client.page_offsets 120),
          map (Client.search_request Client.connected_client
                 "https://jira.example.com/rest/api/2" "project = PROJ")
              (Client.page_offsets 120)).
Proof.
  apply (execute_search_pagination Datetime.fromisoformat
           (Client.fake_search 120) Client.connected_client
           "https://jira.example.com/rest/api/2" "project = PROJ" "PROJ"
           (Client.fake_page 120) 120 3).
  - reflexivity.
  - discriminate.
  - intros o. eexists. split; [reflexivity|]. split; reflexivity.
  - intros o. unfold Client.fake_page. apply Forall_forall.
    intros i Hi. apply repeat_spec in Hi. subst i. reflexivity.
  - vm_compute. lia.
Defined.

(** C3 (the code at the failing input): against an endpoint that
    reports a total of 120 and whose first page holds a JSON [null]
    between two complete records, [_execute_search] sends the request for
    offset 0 only and returns the one task parsed before the [null]: the
    handler of [_parse_issue] calls [issue.get] on the record, raises,
    and the loop of [_execute_search] breaks.  The claim has three
    requests, at offsets 0, 50 and 100, and every well-formed record in
    the result; this is what the code does when the record between the
    two is a dict that fails to parse. *)
Theorem null_record_aborts_search :
  forall fuel : nat,
    Client._execute_search Datetime.fromisoformat
      SearchFake.null_record_search (S fuel) Client.connected_client
      "project = PROJ" "PROJ"
    = Some ([SearchFake.expected_task "PROJ-1"],
            [Client.search_request Client.connected_client
               "https://jira.example.com/rest/api/2" "project = PROJ" 0])
    /\ Client._execute_search Datetime.fromisoformat
         SearchFake.malformed_dict_search (S (S (S fuel)))
         Client.connected_client "project = PROJ" "PROJ"
       = Some ([ SearchFake.expected_task "PROJ-1";
                 SearchFake.expected_task "PROJ-2";
                 SearchFake.expected_task "PROJ-3";
                 SearchFake.expected_task "PROJ-4" ],
               map (Client.search_request Client.connected_client
                      "https://jira.example.com/rest/api/2"
                      "project = PROJ") [0; 50; 100]).
Proof.
  intros fuel. split.
  - reflexivity.
  - reflexivity.
Qed.

(** C10: while no API endpoint has been established ([api_endpoint] is
    still unset), [_execute_search] returns the empty list at once and
    issues no request, whatever the query and the project. *)
Theorem execute_search_without_endpoint :
  forall (fromisoformat : string -> option Datetime.datetime)
         (transport : Client.request -> Client.http_result)
         (fuel : nat) (c : Client.JiraClient) (jql project : string),
    Client.api_endpoint c = None ->
    Client._execute_search fromisoformat transport fuel c jql project
    = Some ([], []).
Proof.
  intros fromisoformat transport fuel c jql project H.
  unfold Client._execute_search. now rewrite H.
Qed.

Lemma execute_search_without_endpoint_witness :
  exists c : Client.JiraClient,
    Client.fresh_client = Some c
    /\ Client._execute_search Datetime.fromisoformat (Client.fake_search 120)
         0 c "project = PROJ" "PROJ" = Some ([], []).
Proof.
  eexists. split; [reflexivity|].
  apply execute_search_without_endpoint. reflexivity.
Defined.

(** ** Records that fail to parse *)

Section ParseFacts.
Import Json Datetime Issue.

Variable fromisoformat : string -> option datetime.

(** A task object is built only from a record whose mandatory fields
    were all extracted, and it carries them. *)
Lemma parse_issue_body_mandatory (issue : json) (t : JiraTaskObj) :
  parse_issue_body fromisoformat issue = Some t ->
  mandatory_fields issue
  = Some (o_key t, o_summary t, o_status t, o_priority t).
Proof.
  unfold parse_issue_body, mandatory_fields. intros H.
  repeat match type of H with
         | context [match ?e with _ => _ end] =>
             destruct e eqn:?; try discriminate
         end.
  injection H as <-. simpl.
  repeat match goal with
         | E : _ = Some _ |- _ => rewrite E
         end.
  reflexivity.
Qed.

Lemma parse_issue_missing_mandatory (issue : json) :
  is_dict issue = true ->
  mandatory_fields issue = None ->
  _parse_issue fromisoformat issue = ReturnedNone.
Proof.
  intros Hd Hm. unfold _parse_issue.
  destruct (parse_issue_body fromisoformat issue) as [t|] eqn:E.
  - apply parse_issue_body_mandatory in E. congruence.
  - destruct issue; try discriminate. simpl.
    now destruct (lookup "key" members).
Qed.

Lemma emitted_app (l1 l2 : list json) :
  emitted fromisoformat (l1 ++ l2)
  = emitted fromisoformat l1 ++ emitted fromisoformat l2.
Proof. unfold emitted. apply flat_map_app. Qed.

Lemma emitted_origin (issues : list json) (t : JiraTaskObj) :
  In t (emitted fromisoformat issues) ->
  exists issue,
    In issue issues /\ _parse_issue fromisoformat issue = Emitted t.
Proof.
  unfold emitted. intros H. apply in_flat_map in H.
  destruct H as [issue [Hin Ht]]. exists issue. split; [exact Hin|].
  destruct (_parse_issue fromisoformat issue); simpl in Ht;
    try contradiction.
  destruct Ht as [-> | []]. reflexivity.
Qed.

End ParseFacts.

(** C8, as the specification states it, fails on the code: no count of
    parse failures is kept.  A page with a malformed record and the page
    without it give the same result, to the page loop and to the caller
    of [_execute_search], although the numbers of failures differ. *)
Lemma parse_failure_count_counterexample :
  let good := Issue.raw_issue "PROJ-1" "2024-01-15T10:30:00"
                "2024-01-15T10:30:00" in
  let bad := Issue.raw_issue_no_summary in
  Issue.failures Datetime.fromisoformat [good; bad] = 1%nat
  /\ Issue.failures Datetime.fromisoformat [good] = 0%nat
  /\ Issue.parse_page Datetime.fromisoformat [good; bad] []
     = Issue.parse_page Datetime.fromisoformat [good] []
  /\ option_map fst
       (Client._execute_search Datetime.fromisoformat
          (Client.one_page_search [good; bad]) 1 Client.connected_client
          "project = PROJ" "PROJ")
     = option_map fst
         (Client._execute_search Datetime.fromisoformat
            (Client.one_page_search [good]) 1 Client.connected_client
            "project = PROJ" "PROJ").
Proof. vm_compute. repeat split. Qed.

(** C8 (amended): every dict record of a page is parsed on its own.  A
    record whose parse fails, in particular one whose mandatory fields
    (key, title, status name, priority name) cannot be extracted, is
    dropped: it does not end the page loop, the task objects of the other
    records are returned in page order, and every task object returned
    carries the mandatory fields of the record it came from.  No count of
    the failures is returned. *)
Theorem parse_page_drops_malformed :
  forall (fromisoformat : string -> option Datetime.datetime)
         (issues : list Json.json) (tasks : list Issue.JiraTaskObj),
    Forall (fun i => Json.is_dict i = true) issues ->
    Issue.parse_page fromisoformat issues tasks
    = (tasks ++ Issue.emitted fromisoformat issues, false)
    /\ (forall issue,
           In issue issues ->
           Issue.mandatory_fields issue = None ->
           Issue._parse_issue fromisoformat issue = Issue.ReturnedNone)
    /\ (forall before issue after,
           issues = before ++ issue :: after ->
           Issue._parse_issue fromisoformat issue = Issue.ReturnedNone ->
           Issue.emitted fromisoformat issues
           = Issue.emitted fromisoformat before
             ++ Issue.emitted fromisoformat after)
    /\ (forall t,
           In t (Issue.emitted fromisoformat issues) ->
           exists issue,
             In issue issues
             /\ Issue._parse_issue fromisoformat issue = Issue.Emitted t
             /\ Issue.mandatory_fields issue
                = Some (Issue.o_key t, Issue.o_summary t, Issue.o_status t,
                        Issue.o_priority t)).
Proof.
  intros fromisoformat issues tasks Hd. split; [|split; [|split]].
  - now apply parse_page_dicts.
  - intros issue Hin Hm. apply parse_issue_missing_mandatory; [|exact Hm].
    rewrite Forall_forall in Hd. now apply Hd.
  - intros before issue after -> Hn.
    rewrite emitted_app. f_equal.
    change (issue :: after) with ([issue] ++ after).
    rewrite emitted_app. unfold Issue.emitted at 1. simpl. now rewrite Hn.
  - intros t Ht. destruct (emitted_origin fromisoformat issues t Ht)
      as [issue [Hin Hp]].
    exists issue. split; [exact Hin|]. split; [exact Hp|].
    apply parse_issue_body_mandatory with (fromisoformat := fromisoformat).
    unfold Issue._parse_issue in Hp.
    destruct (Issue.parse_issue_body fromisoformat issue) as [t'|].
    + now injection Hp as ->.
    + destruct (Json.get issue "key" (Json.JStr "unknown")); discriminate.
Qed.

Lemma parse_page_drops_malformed_witness :
  Issue.parse_page Datetime.fromisoformat
    [Issue.raw_issue_no_summary;
     Issue.raw_issue "PROJ-1" "2024-01-15T10:30:00" "2024-01-15T10:30:00"] []
  = ([] ++ Issue.emitted Datetime.fromisoformat
             [Issue.raw_issue_no_summary;
              Issue.raw_issue "PROJ-1" "2024-01-15T10:30:00"
                "2024-01-15T10:30:00"], false).
Proof.
  apply (parse_page_drops_malformed Datetime.fromisoformat
           [Issue.raw_issue_no_summary;
            Issue.raw_issue "PROJ-1" "2024-01-15T10:30:00"
              "2024-01-15T10:30:00"] []).
  repeat constructor.
Defined.

(** ** Timestamps of the two retrieval paths *)

(** The library path always ends with [replace(tzinfo=None)] or with
    [datetime.now()]: its timestamps are naive. *)
Lemma parse_datetime_naive
  (fromisoformat : string -> option Datetime.datetime) (now : Z)
  (x : Issue.timestamp_field) (d : Datetime.datetime) :
  Issue.parse_datetime fromisoformat now x = Some d ->
  Datetime.is_naive d = true.
Proof.
  destruct x as [d0 | s]; simpl.
  - intros H. injection H as <-.
    unfold Datetime.is_naive. destruct (Datetime.tzinfo d0) eqn:E; simpl;
      [reflexivity | now rewrite E].
  - destruct (PyStr.has_char "T" s).
    + match goal with
      | |- context [fromisoformat ?a] => destruct (fromisoformat a)
      end; [|discriminate].
      intros H. now injection H as <-.
    + intros H. now injection H as <-.
Qed.

(** C7 (the code at the failing input): for the timestamp
    ["2024-01-15T10:30:00Z"] the raw-JSON path builds a task whose
    [created] and [updated] are aware (offset 0), the library path turns
    the same string into a naive value, and the raw path itself yields a
    naive value when the string has no offset.  The aware task makes
    [summarize_tasks] raise, since it compares [updated] with the naive
    [datetime.now() - timedelta(days=7)]. *)
Theorem raw_path_keeps_utc_offset :
  (exists t task,
      Issue._parse_issue Datetime.fromisoformat
        (Issue.raw_issue "PROJ-1" "2024-01-15T10:30:00Z"
           "2024-01-15T10:30:00Z") = Issue.Emitted t
      /\ Datetime.tzinfo (Issue.o_created t) = Some 0
      /\ Datetime.tzinfo (Issue.o_updated t) = Some 0
      /\ Issue.declared t = Some task
      /\ forall now,
           Summarizer.summarize_tasks Summarizer.init now [task]
           = Summarizer.RaisedTypeError)
  /\ (forall now,
         exists d,
           Issue.parse_datetime Datetime.fromisoformat now
             (Issue.DtText "2024-01-15T10:30:00Z") = Some d
           /\ Datetime.tzinfo d = None)
  /\ (exists t,
         Issue._parse_issue Datetime.fromisoformat
           (Issue.raw_issue "PROJ-1" "2024-01-15T10:30:00"
              "2024-01-15T10:30:00") = Issue.Emitted t
         /\ Datetime.tzinfo (Issue.o_created t) = None
         /\ Datetime.tzinfo (Issue.o_updated t) = None).
Proof.
  split; [|split].
  - eexists. eexists. split; [vm_compute; reflexivity|].
    split; [reflexivity|]. split; [reflexivity|].
    split; [vm_compute; reflexivity|].
    intros now. reflexivity.
  - intros now. eexists. split; [vm_compute; reflexivity | reflexivity].
  - eexists. split; [vm_compute; reflexivity|]. split; reflexivity.
Qed.

(** ** Aggregation *)

Section SummarizerFacts.
Import Datetime Issue Summarizer.

Lemma total_incr (k : string) (h : histogram) :
  total (incr k h) = S (total h).
Proof.
  induction h as [|[k' n] h IH]; simpl; [reflexivity|].
  destruct (String.eqb k k'); simpl; [reflexivity|].
  rewrite IH. lia.
Qed.

Lemma count_incr (l k : string) (h : histogram) :
  count l (incr k h)
  = if String.eqb l k then S (count l h) else count l h.
Proof.
  induction h as [|[k' n] h IH]; simpl.
  - now destruct (String.eqb l k).
  - destruct (String.eqb_spec k k') as [->|Hkk']; simpl.
    + now destruct (String.eqb l k').
    + destruct (String.eqb_spec l k') as [->|Hlk'].
      * destruct (String.eqb_spec k' k); congruence.
      * exact IH.
Qed.

(** *** The stable descending sort *)

Lemma insert_desc_perm (x : JiraTask) (l : list JiraTask) :
  Permutation (insert_desc x l) (x :: l).
Proof.
  induction l as [|y l IH]; simpl; [reflexivity|].
  destruct (wall (updated y) <=? wall (updated x)); [reflexivity|].
  rewrite IH. apply perm_swap.
Qed.

Lemma sort_desc_perm (l : list JiraTask) : Permutation (sort_desc l) l.
Proof.
  induction l as [|x l IH]; simpl; [reflexivity|].
  rewrite insert_desc_perm. now constructor.
Qed.

Lemma insert_desc_hd (a x : JiraTask) (l : list JiraTask) :
  updated_ge a x -> HdRel updated_ge a l ->
  HdRel updated_ge a (insert_desc x l).
Proof.
  intros Hax Hal. destruct l as [|y l]; simpl; [now constructor|].
  destruct (wall (updated y) <=? wall (updated x)); constructor;
    [exact Hax | now inversion Hal].
Qed.

Lemma insert_desc_sorted (x : JiraTask) (l : list JiraTask) :
  Sorted updated_ge l -> Sorted updated_ge (insert_desc x l).
Proof.
  induction 1 as [|y l Hs IH Hhd]; simpl.
  - repeat constructor.
  - destruct (Z.leb_spec (wall (updated y)) (wall (updated x))).
    + constructor; [now constructor | now constructor].
    + constructor; [exact IH|].
      apply insert_desc_hd; [unfold updated_ge; lia | exact Hhd].
Qed.

Lemma sort_desc_sorted (l : list JiraTask) : Sorted updated_ge (sort_desc l).
Proof.
  induction l as [|x l IH]; simpl; [constructor|].
  now apply insert_desc_sorted.
Qed.

Lemma sort_desc_in (l : list JiraTask) (t : JiraTask) :
  In t (sort_desc l) <-> In t l.
Proof.
  split; apply Permutation_in;
    [apply sort_desc_perm | symmetry; apply sort_desc_perm].
Qed.

(** *** The loop over the tasks *)

Variable self : StatusSummarizer.
Variable now : Z.

Let week_ago := minus_days (of_clock now) 7.
Let two_weeks_ago := minus_days (of_clock now) 14.

(** What one naive task adds to the summary. *)
Lemma add_task_naive (s : Summary) (t : JiraTask) :
  is_naive (updated t) = true ->
  exists s',
    add_task self week_ago two_weeks_ago s t = Some s'
    /\ total_tasks s' = total_tasks s
    /\ by_status s' = incr (_categorize_status self (status t)) (by_status s)
    /\ by_project s' = incr (project t) (by_project s)
    /\ by_assignee s' = incr (assignee_label t) (by_assignee s)
    /\ by_priority s' = incr (priority t) (by_priority s)
    /\ this_week s'
       = this_week s ++ (if in_this_week now t then [t] else [])
    /\ last_week s'
       = last_week s ++ (if in_last_week now t then [t] else []).
Proof.
  intros Hn. unfold is_naive in Hn.
  destruct (tzinfo (updated t)) eqn:Etz; [discriminate|].
  unfold add_task, ge, in_this_week, in_last_week, week_ago,
    two_weeks_ago, minus_days, of_clock.
  cbn [wall tzinfo]. rewrite Etz.
  destruct (Z.leb_spec (now - 7 * day_us) (wall (updated t)));
    destruct (Z.leb_spec (now - 14 * day_us) (wall (updated t)));
    destruct (Z.ltb_spec (wall (updated t)) (now - 7 * day_us));
    try (unfold day_us in *; lia);
    cbn [andb]; eexists; (split; [reflexivity|]);
    cbn [total_tasks by_status by_project by_assignee by_priority
         this_week last_week];
    rewrite ?app_nil_r; repeat split; reflexivity.
Qed.

Lemma add_tasks_naive (tasks : list JiraTask) :
  Forall (fun t => is_naive (updated t) = true) tasks ->
  forall s : Summary,
  exists s',
    add_tasks self week_ago two_weeks_ago s tasks = Some s'
    /\ total_tasks s' = total_tasks s
    /\ total (by_status s') = (total (by_status s) + List.length tasks)%nat
    /\ total (by_project s') = (total (by_project s) + List.length tasks)%nat
    /\ total (by_assignee s') = (total (by_assignee s) + List.length tasks)%nat
    /\ total (by_priority s') = (total (by_priority s) + List.length tasks)%nat
    /\ (forall l,
           count l (by_assignee s')
           = (count l (by_assignee s)
              + List.length (filter (fun t => String.eqb l (assignee_label t))
                               tasks))%nat)
    /\ this_week s' = this_week s ++ filter (in_this_week now) tasks
    /\ last_week s' = last_week s ++ filter (in_last_week now) tasks.
Proof.
  induction 1 as [|t tasks Ht _ IH]; intros s; simpl.
  - exists s. rewrite !app_nil_r, !Nat.add_0_r.
    repeat split; try reflexivity. intros l. lia.
  - destruct (add_task_naive s t Ht)
      as [s1 [E [H0 [H1 [H2 [H3 [H4 [H5 H6]]]]]]]].
    rewrite E.
    destruct (IH s1) as [s' [E' [G0 [G1 [G2 [G3 [G4 [G5 [G6 G7]]]]]]]]].
    exists s'. split; [exact E'|].
    rewrite G0, G1, G2, G3, G4, G6, G7, H0, H1, H2, H3, H4, H5, H6.
    rewrite !total_incr, <- !app_assoc.
    repeat split; try lia.
    + intros l. rewrite G5, H3, count_incr.
      destruct (String.eqb l (assignee_label t)); simpl; lia.
    + now destruct (in_this_week now t).
    + now destruct (in_last_week now t).
Qed.

(** A non-empty list of tasks with naive timestamps is summarized. *)
Lemma summarize_tasks_naive (tasks : list JiraTask) :
  tasks <> [] ->
  Forall (fun t => is_naive (updated t) = true) tasks ->
  exists s,
    summarize_tasks self now tasks = SummaryDict s
    /\ total_tasks s = List.length tasks
    /\ total (by_status s) = List.length tasks
    /\ total (by_project s) = List.length tasks
    /\ total (by_assignee s) = List.length tasks
    /\ total (by_priority s) = List.length tasks
    /\ (forall l,
           count l (by_assignee s)
           = List.length (filter (fun t => String.eqb l (assignee_label t))
                            tasks))
    /\ this_week s = sort_desc (filter (in_this_week now) tasks)
    /\ last_week s = sort_desc (filter (in_last_week now) tasks).
Proof.
  intros Hne Hnaive.
  destruct (add_tasks_naive tasks Hnaive
              (mk_summary (List.length tasks) [] [] [] [] [] 0 0 [] []))
    as [s' [E [G0 [G1 [G2 [G3 [G4 [G5 [G6 G7]]]]]]]]].
  unfold summarize_tasks. destruct tasks as [|t0 tasks0]; [congruence|].
  fold week_ago two_weeks_ago. rewrite E.
  eexists. split; [reflexivity|]. simpl in *.
  rewrite G1, G2, G3, G4, G6, G7.
  repeat split; try reflexivity; try assumption.
Qed.

End SummarizerFacts.

(** C4, as the specification states it, fails on the code: the tests are
    [updated >= now - 7 days] and then [updated >= now - 14 days], so a
    task updated exactly seven days before the reference time is in
    "this week" and not in "last week", and a task updated exactly
    fourteen days before it is in "last week". *)
Lemma recency_boundary_counterexample :
  let now := 100 * Datetime.day_us in
  let t7 := Summarizer.task_updated "PROJ-1" "Done"
              (now - 7 * Datetime.day_us) in
  let t14 := Summarizer.task_updated "PROJ-2" "Open"
               (now - 14 * Datetime.day_us) in
  exists s,
    Summarizer.summarize_tasks Summarizer.init now [t7; t14]
    = Summarizer.SummaryDict s
    /\ Summarizer.this_week s = [t7]
    /\ Summarizer.last_week s = [t14].
Proof. eexists. split; [vm_compute; reflexivity|]. split; reflexivity. Qed.

(** C4 (amended): for a non-empty list of tasks with naive timestamps and
    every reference time, "this week" holds exactly the tasks with
    [updated >= now - 7 days] (so a task updated exactly seven days
    before, or exactly at, the reference time is in it), "last week"
    exactly those with [now - 14 days <= updated < now - 7 days], a task
    updated more than 14 days before is in neither while the count and the
    histograms still cover every task, and both lists are sorted by
    [updated], most recent first. *)
Theorem summarize_recency_split :
  forall (self : Summarizer.StatusSummarizer) (now : Z)
         (tasks : list Issue.JiraTask),
    tasks <> [] ->
    Forall (fun t => Datetime.is_naive (Issue.updated t) = true) tasks ->
    exists s,
      Summarizer.summarize_tasks self now tasks = Summarizer.SummaryDict s
      /\ (forall t,
             In t (Summarizer.this_week s)
             <-> In t tasks
                 /\ now - 7 * Datetime.day_us
                    <= Datetime.wall (Issue.updated t))
      /\ (forall t,
             In t (Summarizer.last_week s)
             <-> In t tasks
                 /\ now - 14 * Datetime.day_us
                    <= Datetime.wall (Issue.updated t)
                    < now - 7 * Datetime.day_us)
      /\ Permutation (Summarizer.this_week s)
           (filter (Summarizer.in_this_week now) tasks)
      /\ Permutation (Summarizer.last_week s)
           (filter (Summarizer.in_last_week now) tasks)
      /\ Sorted Summarizer.updated_ge (Summarizer.this_week s)
      /\ Sorted Summarizer.updated_ge (Summarizer.last_week s)
      /\ Summarizer.total_tasks s = List.length tasks
      /\ Summarizer.total (Summarizer.by_status s) = List.length tasks
      /\ Summarizer.total (Summarizer.by_project s) = List.length tasks
      /\ Summarizer.total (Summarizer.by_priority s) = List.length tasks.
Proof.
  intros self now tasks Hne Hnaive.
  destruct (summarize_tasks_naive self now tasks Hne Hnaive)
    as [s [E [H0 [H1 [H2 [H3 [H4 [H5 [H6 H7]]]]]]]]].
  exists s. split; [exact E|]. rewrite H6, H7.
  split; [|split; [|split; [|split; [|split; [|split]]]]].
  - intros t. rewrite sort_desc_in, filter_In.
    unfold Summarizer.in_this_week. rewrite Z.leb_le. tauto.
  - intros t. rewrite sort_desc_in, filter_In.
    unfold Summarizer.in_last_week.
    rewrite andb_true_iff, Z.leb_le, Z.ltb_lt. tauto.
  - apply sort_desc_perm.
  - apply sort_desc_perm.
  - apply sort_desc_sorted.
  - apply sort_desc_sorted.
  - repeat split; assumption.
Qed.

Lemma summarize_recency_split_witness :
  let now := 100 * Datetime.day_us in
  let tasks :=
    [ Summarizer.task_updated "PROJ-3" "Blocked" (now - 10 * Datetime.day_us);
      Summarizer.task_updated "PROJ-2" "In Progress" (now - Datetime.day_us);
      Summarizer.task_updated "PROJ-1" "Done" now;
      Summarizer.task_updated "PROJ-4" "Open" (now - 20 * Datetime.day_us) ] in
  exists s,
    Summarizer.summarize_tasks Summarizer.init now tasks
    = Summarizer.SummaryDict s
    /\ Sorted Summarizer.updated_ge (Summarizer.this_week s)
    /\ Summarizer.total_tasks s = 4%nat.
Proof.
  intros now tasks.
  destruct (summarize_recency_split Summarizer.init now tasks)
    as [s [E [_ [_ [_ [_ [Hs [_ [Hn _]]]]]]]]].
  - discriminate.
  - repeat constructor.
  - exists s. split; [exact E|]. split; [exact Hs | exact Hn].
Defined.

(** C5, as the specification states it, fails on the code at the empty
    list: there is no summary, hence no histogram whose values could sum
    to the number of issues. *)
Lemma histogram_totals_counterexample :
  ~ exists s : Summarizer.Summary,
      Summarizer.summarize_tasks Summarizer.init 0 [] = Summarizer.SummaryDict s
      /\ Summarizer.total (Summarizer.by_status s) = List.length (@nil Issue.JiraTask)
      /\ Summarizer.total (Summarizer.by_assignee s) = List.length (@nil Issue.JiraTask).
Proof. intros [s [H _]]. discriminate H. Qed.

(** C5 (amended): for every non-empty list of tasks with naive
    timestamps, the values of the by-status histogram sum to the number
    of tasks, and so do those of the by-assignee histogram; each label of
    the latter counts the tasks carrying it, a task without assignee
    ([None] or the empty string) being counted under ["Unassigned"]. *)
Theorem summarize_histogram_totals :
  forall (self : Summarizer.StatusSummarizer) (now : Z)
         (tasks : list Issue.JiraTask),
    tasks <> [] ->
    Forall (fun t => Datetime.is_naive (Issue.updated t) = true) tasks ->
    exists s,
      Summarizer.summarize_tasks self now tasks = Summarizer.SummaryDict s
      /\ Summarizer.total (Summarizer.by_status s) = List.length tasks
      /\ Summarizer.total (Summarizer.by_assignee s) = List.length tasks
      /\ (forall l,
             Summarizer.count l (Summarizer.by_assignee s)
             = List.length
                 (filter (fun t => String.eqb l (Summarizer.assignee_label t))
                         tasks))
      /\ (forall t,
             Issue.assignee t = None \/ Issue.assignee t = Some "" ->
             Summarizer.assignee_label t = "Unassigned").
Proof.
  intros self now tasks Hne Hnaive.
  destruct (summarize_tasks_naive self now tasks Hne Hnaive)
    as [s [E [H0 [H1 [H2 [H3 [H4 [H5 [H6 H7]]]]]]]]].
  exists s. repeat split; try assumption.
  intros t [H | H]; unfold Summarizer.assignee_label; now rewrite H.
Qed.

Lemma summarize_histogram_totals_witness :
  let tasks :=
    [ Summarizer.task_updated "PROJ-1" "Done" 50;
      Summarizer.task_updated "PROJ-2" "Open" 60 ] in
  exists s,
    Summarizer.summarize_tasks Summarizer.init 100 tasks
    = Summarizer.SummaryDict s
    /\ Summarizer.total (Summarizer.by_status s) = 2%nat
    /\ Summarizer.count "Unassigned" (Summarizer.by_assignee s) = 2%nat.
Proof.
  intros tasks.
  destruct (summarize_histogram_totals Summarizer.init 100 tasks)
    as [s [E [Hs [_ [Hc _]]]]].
  - discriminate.
  - repeat constructor.
  - exists s. split; [exact E|]. split; [exact Hs|].
    rewrite Hc. reflexivity.
Defined.

(** ** The connection test *)

Section ConnectionFacts.
Import Json Client.

Variable b64encode : string -> string.
Variable token_identity : string -> string -> option json.
Variable transport : request -> http_result.

(** When the token check succeeds nothing else is probed, and version 2
    is recorded. *)
Lemma token_check_short_circuits (c c' : JiraClient) :
  truthy_str (api_token c) = true ->
  _test_token_auth token_identity c = (true, c') ->
  test_connection b64encode token_identity transport c
  = (true, c', [ProbeToken])
  /\ api_version c' = Some 2
  /\ api_endpoint c' = Some (base_url c ++ "/rest/api/2")%string.
Proof.
  intros Htok Hauth. unfold test_connection. rewrite Htok, Hauth.
  split; [reflexivity|].
  unfold _test_token_auth in Hauth.
  destruct (api_token c); [|discriminate].
  destruct (token_identity (base_url c) s); [|discriminate].
  destruct (subscript j "displayName"); [|discriminate].
  destruct (subscript j "emailAddress"); [|discriminate].
  injection Hauth as <-. split; reflexivity.
Qed.

(** The candidate loop stops at the first candidate that answers 200:
    the candidates before it were probed, those after it never are. *)
Lemma probe_loop_stops_at_first_200 (c : JiraClient)
  (before : list candidate) :
  forall (m : candidate) (after : list candidate) (trace : list probe),
    Forall (fun m' => ~ answers_200 transport c m') before ->
    answers_200 transport c m ->
    probe_loop b64encode transport c (before ++ m :: after) trace
    = (true, record_success b64encode c m,
       trace ++ map (fun m' => ProbeGet (probe_request c m'))
                    (before ++ [m])).
Proof.
  induction before as [|m0 before IH]; intros m after trace Hb [body Hm];
    simpl.
  - rewrite Hm. reflexivity.
  - inversion Hb as [|? ? Hm0 Hb']; subst.
    assert (Hnext :
      probe_loop b64encode transport c (before ++ m :: after)
        (trace ++ [ProbeGet (probe_request c m0)])
      = (true, record_success b64encode c m,
         trace ++ ProbeGet (probe_request c m0)
           :: map (fun m' => ProbeGet (probe_request c m'))
                  (before ++ [m]))).
    { rewrite IH; [|exact Hb' | now exists body].
      now rewrite <- app_assoc. }
    destruct (transport (probe_request c m0)) as [e | code body0] eqn:E;
      [exact Hnext|].
    destruct (Z.eqb_spec code 200) as [-> | _]; [|exact Hnext].
    exfalso. apply Hm0. now exists body0.
Qed.

End ConnectionFacts.

(** The text [api/3] is in the URL of every version-3 candidate, and in
    the URL of a version-2 candidate exactly when it is in the base URL. *)
Lemma startswith_api3_app (s : string) :
  PyStr.startswith "api/3" (s ++ "/rest/api/2/myself")
  = PyStr.startswith "api/3" s.
Proof.
  destruct s as [|c1 [|c2 [|c3 [|c4 [|c5 s]]]]];
    cbn [PyStr.startswith String.append];
    repeat match goal with
           | |- context [Ascii.eqb ?a ?b] =>
               let E := fresh "E" in
               destruct (Ascii.eqb a b) eqn:E; cbn [andb];
               try (vm_compute in E; discriminate E)
           end;
    reflexivity.
Qed.

Lemma contains_api3_v2 (base : string) :
  PyStr.contains "api/3" (base ++ "/rest/api/2/myself")
  = PyStr.contains "api/3" base.
Proof.
  induction base as [|c base IH].
  - reflexivity.
  - change (String c base ++ "/rest/api/2/myself")%string
      with (String c (base ++ "/rest/api/2/myself")).
    cbn [PyStr.contains]. rewrite IH.
    change (String c (base ++ "/rest/api/2/myself"))
      with (String c base ++ "/rest/api/2/myself")%string.
    now rewrite startswith_api3_app.
Qed.

Lemma contains_api3_v3 (base : string) :
  PyStr.contains "api/3" (base ++ "/rest/api/3/myself") = true.
Proof.
  induction base as [|c base IH].
  - reflexivity.
  - change (String c base ++ "/rest/api/3/myself")%string
      with (String c (base ++ "/rest/api/3/myself")).
    cbn [PyStr.contains]. rewrite IH. apply orb_true_r.
Qed.

(** C6 (the code at the failing input): with the base URL
    [https://tracker.example/api/3] and a tracker where only the
    version-2 identity endpoint answers 200, the loop probes the
    version-3 candidate, then the version-2 candidate with basic
    authentication, and halts there without probing the two header
    candidates; but the version it records is 3, with the version-3
    endpoint root, because the version is read off the text of the URL. *)
Theorem version_read_from_url_text :
  forall b64encode : string -> string,
  exists c c' m3 m2 m3h m2h,
    Client.proxied_client = Some c
    /\ Client.test_methods b64encode c = [m3; m2; m3h; m2h]
    /\ Client.test_connection b64encode Client.no_token_login
         Client.v2_only c
       = (true, c',
          [ Client.ProbeToken;
            Client.ProbeGet (Client.probe_request c m3);
            Client.ProbeGet (Client.probe_request c m2) ])
    /\ Client.candidate_version (Client.base_url c) m2 = 2
    /\ Client.successful_auth_method c' = Some "basic"
    /\ Client.api_version c' = Some 3
    /\ Client.api_endpoint c'
       = Some "https://tracker.example/api/3/rest/api/3".
Proof.
  intros b64encode. do 6 eexists.
  split; [reflexivity|]. split; [reflexivity|].
  split; [reflexivity|]. repeat split.
Qed.

(* ===================================================================== *)
(** * Further properties of the code *)
(* ===================================================================== *)

(** ** ConfigManager.get *)

Lemma split_without_separator (sep : ascii) (s : string) :
  PyStr.has_char sep s = false -> PyStr.split sep s = [s].
Proof.
  induction s as [|c s IH]; simpl; [reflexivity|].
  destruct (Ascii.eqb c sep); simpl; [discriminate|].
  intros H. now rewrite (IH H).
Qed.

(** X1: when subscripting the configuration along the dotted key reaches
    a value that is not null, [get] returns that value, whatever the
    default. *)
Theorem config_get_found :
  forall (config default v : Json.json) (key : string),
    ConfigManager.descend config (PyStr.split "." key) = Some v ->
    v <> Json.JNull ->
    ConfigManager.get config key default = Some v.
Proof.
  intros config default v key. unfold ConfigManager.get.
  pose proof (split_nonempty "." key) as Hne.
  revert config Hne.
  induction (PyStr.split "." key) as [|k rest IH]; intros config Hne Hd Hv;
    [congruence|].
  simpl in Hd. simpl.
  destruct config; try discriminate. simpl in *.
  destruct (Json.lookup k members) as [x|]; [|discriminate].
  destruct rest as [|k' rest'].
  - simpl in Hd. injection Hd as ->. simpl. now destruct v.
  - destruct x; try discriminate.
    apply IH; [discriminate | exact Hd | exact Hv].
Qed.

Lemma config_get_found_witness :
  ConfigManager.get ConfigManager.default_config "schedule.hour"
    (Json.JNum 0) = Some (Json.JNum 9).
Proof.
  apply config_get_found; [reflexivity | discriminate].
Defined.

(** X2: for a key without a dot, [get] on a dict configuration never
    raises: it returns the stored value, and the default when the key is
    missing or its value is null. *)
Theorem config_get_single_key :
  forall (members : list (string * Json.json)) (key : string)
         (default : Json.json),
    PyStr.has_char "." key = false ->
    ConfigManager.get (Json.JObj members) key default
    = Some (match Json.lookup key members with
            | Some Json.JNull | None => default
            | Some v => v
            end).
Proof.
  intros members key default H. unfold ConfigManager.get.
  rewrite (split_without_separator _ _ H). simpl.
  destruct (Json.lookup key members) as [v|].
  - now destruct v.
  - now destruct default.
Qed.

Lemma config_get_single_key_witness :
  ConfigManager.get ConfigManager.default_config "projects" (Json.JArr [])
  = Some (Json.JArr [Json.JStr "PROJ1"; Json.JStr "PROJ2"]).
Proof.
  exact (config_get_single_key
           (match ConfigManager.default_config with
            | Json.JObj members => members
            | _ => []
            end) "projects" (Json.JArr []) eq_refl).
Defined.

(** X3: when a key of the path is missing, the loop goes on inside the
    default: [get] then returns what the rest of the path finds in the
    default itself, and so raises [AttributeError] when keys remain and
    the default is a string, a number, a boolean or a list. *)
Theorem config_get_missing_key_continues_in_default :
  forall (members : list (string * Json.json)) (k : string)
         (rest : list string) (default : Json.json),
    Json.lookup k members = None ->
    ConfigManager.get_loop (Json.JObj members) (k :: rest) default
    = (match default with
       | Json.JNull => Some default
       | _ => ConfigManager.get_loop default rest default
       end)
    /\ (rest <> [] -> default <> Json.JNull ->
        Json.is_dict default = false ->
        ConfigManager.get_loop (Json.JObj members) (k :: rest) default
        = None).
Proof.
  intros members k rest default H. simpl. rewrite H. split.
  - now destruct default.
  - intros Hr Hn Hd. destruct rest as [|k' rest']; [congruence|].
    destruct default; simpl in *; congruence.
Qed.

Lemma config_get_missing_key_continues_in_default_witness :
  ConfigManager.get ConfigManager.default_config "report.hour" (Json.JNum 9)
  = None.
Proof.
  apply (config_get_missing_key_continues_in_default
           (match ConfigManager.default_config with
            | Json.JObj members => members
            | _ => []
            end) "report" ["hour"] (Json.JNum 9));
    [reflexivity | discriminate | discriminate | reflexivity].
Defined.

(** ** The summary in closed form *)

Section TallyFacts.
Import Datetime Issue Summarizer Tally.

Lemma count_tally (l : string) (ls : list string) :
  forall h : histogram,
    count l (tally ls h)
    = (count l h + List.length (filter (String.eqb l) ls))%nat.
Proof.
  unfold tally. induction ls as [|k ls IH]; intros h; simpl; [lia|].
  rewrite IH, count_incr. destruct (String.eqb l k); simpl; lia.
Qed.

Lemma labels_incr (k : string) (h : histogram) :
  labels (incr k h)
  = if existsb (String.eqb k) (labels h) then labels h else labels h ++ [k].
Proof.
  unfold labels. induction h as [|[k' n] h IH]; simpl; [reflexivity|].
  destruct (String.eqb k k'); simpl; [reflexivity|].
  rewrite IH. now destruct (existsb (String.eqb k) (map fst h)).
Qed.

Lemma existsb_eqb_in (k : string) (l : list string) :
  existsb (String.eqb k) l = true <-> In k l.
Proof.
  rewrite existsb_exists. split.
  - intros [x [Hin Hx]]. apply String.eqb_eq in Hx. now subst.
  - intros H. exists k. split; [exact H | apply String.eqb_refl].
Qed.

Lemma in_labels_incr (l k : string) (h : histogram) :
  In l (labels (incr k h)) <-> In l (labels h) \/ l = k.
Proof.
  rewrite labels_incr.
  destruct (existsb (String.eqb k) (labels h)) eqn:E.
  - apply existsb_eqb_in in E. split; [tauto|].
    intros [H | ->]; assumption.
  - rewrite in_app_iff. simpl. intuition congruence.
Qed.

Lemma nodup_labels_incr (k : string) (h : histogram) :
  NoDup (labels h) -> NoDup (labels (incr k h)).
Proof.
  intros H. rewrite labels_incr.
  destruct (existsb (String.eqb k) (labels h)) eqn:E; [exact H|].
  apply NoDup_app; [exact H | repeat constructor; intros [] |].
  intros x Hx [<- | []].
  apply existsb_eqb_in in Hx. congruence.
Qed.

Lemma positive_incr (k : string) (h : histogram) :
  Forall (fun kv => (1 <= snd kv)%nat) h ->
  Forall (fun kv => (1 <= snd kv)%nat) (incr k h).
Proof.
  induction 1 as [|[k' n] h Hn Hh IH]; simpl.
  - repeat constructor.
  - destruct (String.eqb k k'); constructor; simpl in *; try lia; auto.
Qed.

Lemma tally_invariants (ls : list string) :
  forall h : histogram,
    NoDup (labels h) ->
    Forall (fun kv => (1 <= snd kv)%nat) h ->
    NoDup (labels (tally ls h))
    /\ Forall (fun kv => (1 <= snd kv)%nat) (tally ls h)
    /\ (forall l, In l (labels (tally ls h)) <-> In l (labels h) \/ In l ls).
Proof.
  unfold tally. induction ls as [|k ls IH]; intros h Hn Hp; simpl.
  - split; [exact Hn|]. split; [exact Hp|]. intros l. tauto.
  - destruct (IH (incr k h) (nodup_labels_incr k h Hn) (positive_incr k h Hp))
      as [H1 [H2 H3]].
    split; [exact H1|]. split; [exact H2|].
    intros l. rewrite H3, in_labels_incr. split.
    + intros [[H | ->] | H]; auto.
    + intros [H | [<- | H]]; auto.
Qed.

Variable self : StatusSummarizer.
Variable now : Z.

Lemma add_task_closed (s : Summary) (t : JiraTask) :
  is_naive (updated t) = true ->
  add_task self (minus_days (of_clock now) 7) (minus_days (of_clock now) 14)
    s t
  = Some (mk_summary (total_tasks s)
            (incr (_categorize_status self (status t)) (by_status s))
            (incr (project t) (by_project s))
            (incr (assignee_label t) (by_assignee s))
            (incr (priority t) (by_priority s))
            (recent_updates s)
            (story_points_total s + points t)
            (story_points_completed s
             + (if is_completed self t then points t else 0))
            (this_week s ++ (if in_this_week now t then [t] else []))
            (last_week s ++ (if in_last_week now t then [t] else []))).
Proof.
  intros Hn. unfold is_naive in Hn.
  destruct (tzinfo (updated t)) eqn:Etz; [discriminate|].
  assert (Ht : (match story_points t with
                | Some p => if p =? 0 then story_points_total s
                            else story_points_total s + p
                | None => story_points_total s
                end) = story_points_total s + points t).
  { unfold points. destruct (story_points t) as [p|]; [|lia].
    destruct (Z.eqb_spec p 0); lia. }
  assert (Hc : (match story_points t with
                | Some p =>
                    if negb (p =? 0)
                       && String.eqb (_categorize_status self (status t))
                            "completed"
                    then story_points_completed s + p
                    else story_points_completed s
                | None => story_points_completed s
                end)
               = story_points_completed s
                 + (if is_completed self t then points t else 0)).
  { unfold points, is_completed. destruct (story_points t) as [p|].
    - destruct (Z.eqb_spec p 0);
        destruct (String.eqb (_categorize_status self (status t))
                    "completed"); simpl; lia.
    - destruct (String.eqb (_categorize_status self (status t))
                  "completed"); lia. }
  unfold add_task, ge, in_this_week, in_last_week, minus_days, of_clock.
  cbn [wall tzinfo]. rewrite Etz, Ht, Hc.
  destruct (Z.leb_spec (now - 7 * day_us) (wall (updated t)));
    destruct (Z.leb_spec (now - 14 * day_us) (wall (updated t)));
    destruct (Z.ltb_spec (wall (updated t)) (now - 7 * day_us));
    try (unfold day_us in *; lia);
    cbn [andb]; rewrite ?app_nil_r; reflexivity.
Qed.

Lemma add_tasks_closed (tasks : list JiraTask) :
  Forall (fun t => is_naive (updated t) = true) tasks ->
  forall s : Summary,
    add_tasks self (minus_days (of_clock now) 7)
      (minus_days (of_clock now) 14) s tasks
    = Some (mk_summary (total_tasks s)
              (tally (map (fun t => _categorize_status self (status t))
                          tasks) (by_status s))
              (tally (map project tasks) (by_project s))
              (tally (map assignee_label tasks) (by_assignee s))
              (tally (map priority tasks) (by_priority s))
              (recent_updates s)
              (story_points_total s + sum_points tasks)
              (story_points_completed s
               + sum_points (filter (is_completed self) tasks))
              (this_week s ++ filter (in_this_week now) tasks)
              (last_week s ++ filter (in_last_week now) tasks)).
Proof.
  induction 1 as [|t tasks Ht _ IH]; intros s.
  - simpl. rewrite !Z.add_0_r, !app_nil_r. now destruct s.
  - cbn [add_tasks]. rewrite (add_task_closed s t Ht), IH.
    cbn [total_tasks by_status by_project by_assignee by_priority
         recent_updates story_points_total story_points_completed
         this_week last_week map filter sum_points fold_right tally
         fold_left].
    rewrite <- !app_assoc. f_equal. f_equal.
    + fold (sum_points tasks). lia.
    + destruct (is_completed self t); cbn [sum_points fold_right];
        fold (sum_points (filter (is_completed self) tasks)); lia.
    + now destruct (in_this_week now t).
    + now destruct (in_last_week now t).
Qed.

(** A non-empty list of tasks with naive timestamps is summarized into
    its closed form. *)
Lemma summarize_tasks_closed (tasks : list JiraTask) :
  tasks <> [] ->
  Forall (fun t => is_naive (updated t) = true) tasks ->
  summarize_tasks self now tasks = SummaryDict (closed_form self now tasks).
Proof.
  intros Hne Hn. unfold summarize_tasks.
  destruct tasks as [|t0 tasks0]; [congruence|].
  rewrite (add_tasks_closed _ Hn). reflexivity.
Qed.

End TallyFacts.

(** ** Status groups *)

(** X4: [_categorize_status] with the table of [StatusSummarizer()] puts
    every status name into exactly one of the five groups: a name listed
    in the table goes to the group that lists it, and every other name,
    including a listed name in another letter case, goes to ["other"]. *)
Theorem categorize_status_groups :
  forall status : string,
    In (Summarizer._categorize_status Summarizer.init status) Tally.buckets
    /\ (forall group statuses,
           In (group, statuses)
              (Summarizer.status_groups Summarizer.init) ->
           In status statuses ->
           Summarizer._categorize_status Summarizer.init status = group)
    /\ ((forall group statuses,
            In (group, statuses)
               (Summarizer.status_groups Summarizer.init) ->
            ~ In status statuses) ->
        Summarizer._categorize_status Summarizer.init status = "other").
Proof.
  intros status. split; [|split].
  - unfold Summarizer._categorize_status, Summarizer.init.
    cbn [Summarizer.categorize Summarizer.status_groups].
    repeat match goal with
           | |- context [if existsb ?f ?l then _ else _] =>
               destruct (existsb f l)
           end; simpl; tauto.
  - intros group statuses Hg Hs. simpl in Hg.
    destruct Hg as [Hg | [Hg | [Hg | [Hg | []]]]];
      injection Hg as <- <-; simpl in Hs;
      repeat (destruct Hs as [<- | Hs]; [reflexivity|]); contradiction.
  - intros H. unfold Summarizer._categorize_status, Summarizer.init.
    cbn [Summarizer.categorize Summarizer.status_groups].
    repeat match goal with
           | |- context [if existsb ?f ?l then _ else _] =>
               let E := fresh "E" in
               destruct (existsb f l) eqn:E;
               [ apply existsb_eqb_in in E; exfalso;
                 eapply H; [|exact E]; simpl; tauto |]
           end.
    reflexivity.
Qed.

Lemma categorize_status_groups_witness :
  Summarizer._categorize_status Summarizer.init "In Review" = "in_progress"
  /\ Summarizer._categorize_status Summarizer.init "done" = "other".
Proof.
  split.
  - apply (proj1 (proj2 (categorize_status_groups "In Review")))
      with (statuses := ["In Progress"; "In Development"; "In Review";
                         "Testing"]); simpl; tauto.
  - apply (proj2 (proj2 (categorize_status_groups "done"))).
    intros group statuses Hg Hs. simpl in Hg.
    destruct Hg as [Hg | [Hg | [Hg | [Hg | []]]]];
      injection Hg as <- <-; simpl in Hs;
      repeat (destruct Hs as [Hs | Hs]; [discriminate Hs|]); contradiction.
Defined.

(** ** More on the summary *)

Lemma filter_map_length (f : Issue.JiraTask -> string) (l : string)
  (tasks : list Issue.JiraTask) :
  List.length (filter (String.eqb l) (map f tasks))
  = List.length (filter (fun t => String.eqb l (f t)) tasks).
Proof.
  induction tasks as [|t tasks IH]; simpl; [reflexivity|].
  destruct (String.eqb l (f t)); simpl; now rewrite IH.
Qed.

(** X5: in the summary of a non-empty list of tasks with naive
    timestamps, each of the four histograms has every label once, with a
    count of at least one, and its labels are exactly the labels carried
    by the tasks (status group, project, assignee label, priority). *)
Theorem summary_histograms_well_formed :
  forall (self : Summarizer.StatusSummarizer) (now : Z)
         (tasks : list Issue.JiraTask),
    tasks <> [] ->
    Forall (fun t => Datetime.is_naive (Issue.updated t) = true) tasks ->
    exists s,
      Summarizer.summarize_tasks self now tasks = Summarizer.SummaryDict s
      /\ Forall (fun h => NoDup (Tally.labels h)
                          /\ Forall (fun kv => (1 <= snd kv)%nat) h)
           [ Summarizer.by_status s; Summarizer.by_project s;
             Summarizer.by_assignee s; Summarizer.by_priority s ]
      /\ (forall l,
             In l (Tally.labels (Summarizer.by_status s))
             <-> exists t, In t tasks
                           /\ Summarizer._categorize_status self
                                (Issue.status t) = l)
      /\ (forall l,
             In l (Tally.labels (Summarizer.by_project s))
             <-> exists t, In t tasks /\ Issue.project t = l)
      /\ (forall l,
             In l (Tally.labels (Summarizer.by_assignee s))
             <-> exists t, In t tasks /\ Summarizer.assignee_label t = l)
      /\ (forall l,
             In l (Tally.labels (Summarizer.by_priority s))
             <-> exists t, In t tasks /\ Issue.priority t = l).
Proof.
  intros self now tasks Hne Hn.
  exists (Tally.closed_form self now tasks).
  split; [now apply summarize_tasks_closed|].
  assert (T : forall ls,
             NoDup (Tally.labels (Tally.tally ls []))
             /\ Forall (fun kv => (1 <= snd kv)%nat) (Tally.tally ls [])
             /\ (forall l, In l (Tally.labels (Tally.tally ls []))
                           <-> In l ls)).
  { intros ls.
    destruct (tally_invariants ls [] (NoDup_nil _) (Forall_nil _))
      as [H1 [H2 H3]].
    split; [exact H1|]. split; [exact H2|].
    intros l. rewrite H3. simpl. tauto. }
  cbn [Tally.closed_form Summarizer.by_status Summarizer.by_project
       Summarizer.by_assignee Summarizer.by_priority].
  split; [repeat constructor; apply T|].
  assert (T3 : forall ls l,
             In l (Tally.labels (Tally.tally ls [])) <-> In l ls)
    by (intros ls; apply T).
  split; [|split; [|split]]; intros l; rewrite T3, in_map_iff;
    (split; intros [t [H1 H2]]; exists t; tauto).
Qed.

Lemma summary_histograms_well_formed_witness :
  let tasks :=
    [ Summarizer.task_updated "PROJ-1" "Done" 50;
      Summarizer.task_updated "PROJ-2" "Open" 60;
      Summarizer.task_updated "PROJ-3" "Closed" 70 ] in
  exists s,
    Summarizer.summarize_tasks Summarizer.init 100 tasks
    = Summarizer.SummaryDict s
    /\ NoDup (Tally.labels (Summarizer.by_status s)).
Proof.
  intros tasks.
  destruct (summary_histograms_well_formed Summarizer.init 100 tasks)
    as [s [E [H _]]].
  - discriminate.
  - repeat constructor.
  - exists s. split; [exact E|]. inversion H as [|? ? [Hd _] _]. exact Hd.
Defined.

(** X6: in the summary of a non-empty list of tasks with naive
    timestamps, the count of a status group, of a project and of a
    priority is the number of tasks of that group, project and priority
    (zero for a label no task carries). *)
Theorem summary_counts_per_label :
  forall (self : Summarizer.StatusSummarizer) (now : Z)
         (tasks : list Issue.JiraTask),
    tasks <> [] ->
    Forall (fun t => Datetime.is_naive (Issue.updated t) = true) tasks ->
    exists s,
      Summarizer.summarize_tasks self now tasks = Summarizer.SummaryDict s
      /\ (forall l,
             Summarizer.count l (Summarizer.by_status s)
             = List.length
                 (filter (fun t => String.eqb l
                            (Summarizer._categorize_status self
                               (Issue.status t))) tasks))
      /\ (forall l,
             Summarizer.count l (Summarizer.by_project s)
             = List.length
                 (filter (fun t => String.eqb l (Issue.project t)) tasks))
      /\ (forall l,
             Summarizer.count l (Summarizer.by_priority s)
             = List.length
                 (filter (fun t => String.eqb l (Issue.priority t)) tasks)).
Proof.
  intros self now tasks Hne Hn.
  exists (Tally.closed_form self now tasks).
  split; [now apply summarize_tasks_closed|].
  cbn [Tally.closed_form Summarizer.by_status Summarizer.by_project
       Summarizer.by_priority].
  repeat split; intros l; rewrite count_tally, filter_map_length;
    reflexivity.
Qed.

Lemma summary_counts_per_label_witness :
  let tasks :=
    [ Summarizer.task_updated "PROJ-1" "Done" 50;
      Summarizer.task_updated "PROJ-2" "Open" 60;
      Summarizer.task_updated "PROJ-3" "Closed" 70 ] in
  exists s,
    Summarizer.summarize_tasks Summarizer.init 100 tasks
    = Summarizer.SummaryDict s
    /\ Summarizer.count "completed" (Summarizer.by_status s) = 2%nat
    /\ Summarizer.count "blocked" (Summarizer.by_status s) = 0%nat.
Proof.
  intros tasks.
  destruct (summary_counts_per_label Summarizer.init 100 tasks)
    as [s [E [H _]]].
  - discriminate.
  - repeat constructor.
  - exists s. split; [exact E|]. rewrite !H. split; reflexivity.
Defined.

Lemma sum_points_nonneg (tasks : list Issue.JiraTask) :
  Forall (fun t => 0 <= Tally.points t) tasks -> 0 <= Tally.sum_points tasks.
Proof.
  induction 1 as [|t tasks Ht _ IH]; simpl; lia.
Qed.

Lemma sum_points_filter_le (f : Issue.JiraTask -> bool)
  (tasks : list Issue.JiraTask) :
  Forall (fun t => 0 <= Tally.points t) tasks ->
  0 <= Tally.sum_points (filter f tasks) <= Tally.sum_points tasks.
Proof.
  induction 1 as [|t tasks Ht _ IH]; simpl; [lia|].
  destruct (f t); simpl; lia.
Qed.

(** X7: in the summary of a non-empty list of tasks with naive
    timestamps, the story-point total is the sum of the estimates of all
    tasks and the completed figure the sum over the tasks whose status
    group is ["completed"], a task without estimate adding nothing; when
    no estimate is negative the completed figure lies between 0 and the
    total. *)
Theorem summary_story_points :
  forall (self : Summarizer.StatusSummarizer) (now : Z)
         (tasks : list Issue.JiraTask),
    tasks <> [] ->
    Forall (fun t => Datetime.is_naive (Issue.updated t) = true) tasks ->
    exists s,
      Summarizer.summarize_tasks self now tasks = Summarizer.SummaryDict s
      /\ Summarizer.story_points_total s = Tally.sum_points tasks
      /\ Summarizer.story_points_completed s
         = Tally.sum_points (filter (Tally.is_completed self) tasks)
      /\ (Forall (fun t => 0 <= Tally.points t) tasks ->
          0 <= Summarizer.story_points_completed s
            <= Summarizer.story_points_total s).
Proof.
  intros self now tasks Hne Hn.
  exists (Tally.closed_form self now tasks).
  split; [now apply summarize_tasks_closed|].
  cbn [Tally.closed_form Summarizer.story_points_total
       Summarizer.story_points_completed].
  split; [reflexivity|]. split; [reflexivity|].
  apply sum_points_filter_le.
Qed.

Lemma summary_story_points_witness :
  let tasks :=
    [ Tally.estimated_task "PROJ-1" "Done" 5 50;
      Tally.estimated_task "PROJ-2" "Open" 3 60;
      Summarizer.task_updated "PROJ-3" "Closed" 70 ] in
  exists s,
    Summarizer.summarize_tasks Summarizer.init 100 tasks
    = Summarizer.SummaryDict s
    /\ Summarizer.story_points_total s = 8
    /\ Summarizer.story_points_completed s = 5.
Proof.
  intros tasks.
  destruct (summary_story_points Summarizer.init 100 tasks)
    as [s [E [Ht [Hc _]]]].
  - discriminate.
  - repeat constructor.
  - exists s. split; [exact E|]. rewrite Ht, Hc. split; reflexivity.
Defined.

Lemma sort_desc_length (l : list Issue.JiraTask) :
  List.length (Summarizer.sort_desc l) = List.length l.
Proof. apply Permutation_length, sort_desc_perm. Qed.

Lemma recency_partition_length (now : Z) (tasks : list Issue.JiraTask) :
  (List.length (filter (Summarizer.in_this_week now) tasks)
   + List.length (filter (Summarizer.in_last_week now) tasks)
   + List.length (filter (Tally.older now) tasks))%nat
  = List.length tasks.
Proof.
  induction tasks as [|t tasks IH]; simpl; [reflexivity|].
  unfold Summarizer.in_this_week, Summarizer.in_last_week, Tally.older
    in *.
  destruct (Z.leb_spec (now - 7 * Datetime.day_us)
              (Datetime.wall (Issue.updated t)));
    destruct (Z.leb_spec (now - 14 * Datetime.day_us)
                (Datetime.wall (Issue.updated t)));
    destruct (Z.ltb_spec (Datetime.wall (Issue.updated t))
                (now - 7 * Datetime.day_us));
    destruct (Z.ltb_spec (Datetime.wall (Issue.updated t))
                (now - 14 * Datetime.day_us));
    try (unfold Datetime.day_us in *; lia); cbn [andb List.length]; lia.
Qed.

(** X8: in the summary of a non-empty list of tasks with naive
    timestamps, no task is in both recency lists, and the two lists
    together with the tasks updated more than 14 days before the
    reference time account for every task exactly once. *)
Theorem summary_timeline_partition :
  forall (self : Summarizer.StatusSummarizer) (now : Z)
         (tasks : list Issue.JiraTask),
    tasks <> [] ->
    Forall (fun t => Datetime.is_naive (Issue.updated t) = true) tasks ->
    exists s,
      Summarizer.summarize_tasks self now tasks = Summarizer.SummaryDict s
      /\ (forall t, ~ (In t (Summarizer.this_week s)
                       /\ In t (Summarizer.last_week s)))
      /\ (List.length (Summarizer.this_week s)
          + List.length (Summarizer.last_week s)
          + List.length (filter (Tally.older now) tasks))%nat
         = Summarizer.total_tasks s
      /\ Summarizer.total_tasks s = List.length tasks.
Proof.
  intros self now tasks Hne Hn.
  exists (Tally.closed_form self now tasks).
  split; [now apply summarize_tasks_closed|].
  cbn [Tally.closed_form Summarizer.this_week Summarizer.last_week
       Summarizer.total_tasks].
  split; [|split; [|reflexivity]].
  - intros t [H1 H2].
    apply sort_desc_in, filter_In in H1. apply sort_desc_in, filter_In in H2.
    destruct H1 as [_ H1]. destruct H2 as [_ H2].
    unfold Summarizer.in_this_week, Summarizer.in_last_week in *.
    apply andb_true_iff in H2. destruct H2 as [_ H2].
    apply Z.leb_le in H1. apply Z.ltb_lt in H2. lia.
  - rewrite !sort_desc_length. apply recency_partition_length.
Qed.

Lemma summary_timeline_partition_witness :
  let now := 100 * Datetime.day_us in
  let tasks :=
    [ Summarizer.task_updated "PROJ-1" "Done" now;
      Summarizer.task_updated "PROJ-2" "Open" (now - 10 * Datetime.day_us);
      Summarizer.task_updated "PROJ-3" "Closed"
        (now - 30 * Datetime.day_us) ] in
  exists s,
    Summarizer.summarize_tasks Summarizer.init now tasks
    = Summarizer.SummaryDict s
    /\ (List.length (Summarizer.this_week s)
        + List.length (Summarizer.last_week s) + 1)%nat
       = Summarizer.total_tasks s.
Proof.
  intros now tasks.
  destruct (summary_timeline_partition Summarizer.init now tasks)
    as [s [E [_ [H _]]]].
  - discriminate.
  - repeat constructor.
  - exists s. split; [exact E|]. exact H.
Defined.

Lemma filter_insert_desc (u : Z) (x : Issue.JiraTask)
  (l : list Issue.JiraTask) :
  filter (Tally.updated_at u) (Summarizer.insert_desc x l)
  = filter (Tally.updated_at u) (x :: l).
Proof.
  induction l as [|y l IH]; [reflexivity|].
  cbn [Summarizer.insert_desc].
  destruct (Z.leb_spec (Datetime.wall (Issue.updated y))
              (Datetime.wall (Issue.updated x))) as [Hle | Hgt];
    [reflexivity|].
  cbn [filter] in *. rewrite IH. unfold Tally.updated_at.
  destruct (Z.eqb_spec (Datetime.wall (Issue.updated x)) u);
    destruct (Z.eqb_spec (Datetime.wall (Issue.updated y)) u);
    try reflexivity; lia.
Qed.

Lemma filter_sort_desc (u : Z) (l : list Issue.JiraTask) :
  filter (Tally.updated_at u) (Summarizer.sort_desc l)
  = filter (Tally.updated_at u) l.
Proof.
  induction l as [|x l IH]; [reflexivity|].
  cbn [Summarizer.sort_desc]. rewrite filter_insert_desc.
  cbn [filter]. now rewrite IH.
Qed.

(** X9: the sort of the two recency lists is stable: the tasks of a list
    that share one update time appear in it in the order they have in the
    input. *)
Theorem summary_timeline_stable :
  forall (self : Summarizer.StatusSummarizer) (now : Z)
         (tasks : list Issue.JiraTask),
    tasks <> [] ->
    Forall (fun t => Datetime.is_naive (Issue.updated t) = true) tasks ->
    exists s,
      Summarizer.summarize_tasks self now tasks = Summarizer.SummaryDict s
      /\ (forall u,
             filter (Tally.updated_at u) (Summarizer.this_week s)
             = filter (Tally.updated_at u)
                 (filter (Summarizer.in_this_week now) tasks))
      /\ (forall u,
             filter (Tally.updated_at u) (Summarizer.last_week s)
             = filter (Tally.updated_at u)
                 (filter (Summarizer.in_last_week now) tasks)).
Proof.
  intros self now tasks Hne Hn.
  exists (Tally.closed_form self now tasks).
  split; [now apply summarize_tasks_closed|].
  split; intros u; apply filter_sort_desc.
Qed.

Lemma summary_timeline_stable_witness :
  let tasks :=
    [ Summarizer.task_updated "PROJ-1" "Done" 90;
      Summarizer.task_updated "PROJ-2" "Open" 95;
      Summarizer.task_updated "PROJ-3" "Closed" 90 ] in
  exists s,
    Summarizer.summarize_tasks Summarizer.init 100 tasks
    = Summarizer.SummaryDict s
    /\ filter (Tally.updated_at 90) (Summarizer.this_week s)
       = [ Summarizer.task_updated "PROJ-1" "Done" 90;
           Summarizer.task_updated "PROJ-3" "Closed" 90 ].
Proof.
  intros tasks.
  destruct (summary_timeline_stable Summarizer.init 100 tasks)
    as [s [E [H _]]].
  - discriminate.
  - repeat constructor.
  - exists s. split; [exact E|]. rewrite H. reflexivity.
Defined.

Lemma add_tasks_aware (self : Summarizer.StatusSummarizer) (now : Z)
  (tasks : list Issue.JiraTask) :
  Exists (fun t => Datetime.is_naive (Issue.updated t) = false) tasks ->
  forall s : Summarizer.Summary,
    Summarizer.add_tasks self
      (Datetime.minus_days (Datetime.of_clock now) 7)
      (Datetime.minus_days (Datetime.of_clock now) 14) s tasks = None.
Proof.
  induction tasks as [|t tasks IH]; intros He s; [inversion He|].
  cbn [Summarizer.add_tasks].
  destruct (Datetime.is_naive (Issue.updated t)) eqn:En.
  - rewrite (add_task_closed self now s t En). apply IH.
    inversion He; subst; [congruence | assumption].
  - unfold Datetime.is_naive in En. unfold Summarizer.add_task, Datetime.ge.
    destruct (Datetime.tzinfo (Issue.updated t)); [reflexivity|discriminate].
Qed.

(** X10: [summarize_tasks] raises [TypeError] on every list that holds a
    task whose [updated] timestamp is timezone-aware, wherever the task
    stands in the list: no summary is produced for the other tasks. *)
Theorem summarize_raises_on_aware_timestamp :
  forall (self : Summarizer.StatusSummarizer) (now : Z)
         (tasks : list Issue.JiraTask),
    Exists (fun t => Datetime.is_naive (Issue.updated t) = false) tasks ->
    Summarizer.summarize_tasks self now tasks = Summarizer.RaisedTypeError.
Proof.
  intros self now tasks He. unfold Summarizer.summarize_tasks.
  destruct tasks as [|t0 tasks0]; [inversion He|].
  now rewrite (add_tasks_aware self now _ He).
Qed.

Lemma summarize_raises_on_aware_timestamp_witness :
  Summarizer.summarize_tasks Summarizer.init 100
    [ Summarizer.task_updated "PROJ-1" "Done" 90;
      Issue.mk_task "PROJ-2" "Fix login" "Open" None "High"
        (Datetime.mk_datetime 95 (Some 0)) (Datetime.mk_datetime 95 (Some 0))
        "PROJ" "Task" None [] [] "" ]
  = Summarizer.RaisedTypeError.
Proof.
  apply summarize_raises_on_aware_timestamp.
  apply Exists_cons_tl. apply Exists_cons_hd. reflexivity.
Defined.

(** ** Construction of the client *)

Lemma rstrip_slash_no_trailing (s : string) :
  PyStr.endswith_char "/" (Client.rstrip_slash s) = false.
Proof.
  induction s as [|c s IH]; [reflexivity|].
  cbn [Client.rstrip_slash].
  destruct (Client.rstrip_slash s) as [|a r] eqn:E.
  - destruct (Ascii.eqb c "/") eqn:Ec; simpl; [reflexivity | exact Ec].
  - exact IH.
Qed.

Lemma rstrip_slash_decompose (s : string) :
  exists n, s = (Client.rstrip_slash s ++ ClientSpec.slashes n)%string.
Proof.
  induction s as [|c s [n IH]]; [now exists O|].
  cbn [Client.rstrip_slash].
  destruct (Client.rstrip_slash s) as [|a r] eqn:E.
  - simpl in IH. destruct (Ascii.eqb_spec c "/") as [-> | Hc].
    + exists (S n). simpl. now rewrite <- IH.
    + exists n. simpl. now rewrite <- IH.
  - exists n. simpl. simpl in IH. now rewrite <- IH.
Qed.

(** X11: [JiraClient(...)] raises [ValueError] exactly when, with OAuth
    settings, the consumer key or the consumer secret is missing, and,
    without OAuth settings, the username or the token is missing or
    empty. *)
Theorem client_init_raises_iff :
  forall (url : string) (user token : option string)
         (oauth : list (string * string)),
    Client.init url user token oauth = None
    <-> match oauth with
        | [] => Client.truthy_str user && Client.truthy_str token = false
        | _ :: _ =>
            Client.dict_lookup "consumer_key" oauth = None
            \/ Client.dict_lookup "consumer_secret" oauth = None
        end.
Proof.
  intros url user token oauth. unfold Client.init.
  destruct oauth as [|kv oauth].
  - destruct user as [u|], token as [t|]; simpl;
      try (split; [reflexivity | reflexivity]).
    + destruct (negb (String.eqb u "") && negb (String.eqb t ""));
        split; congruence.
    + rewrite andb_false_r. split; reflexivity.
  - destruct (Client.dict_lookup "consumer_key" (kv :: oauth));
      destruct (Client.dict_lookup "consumer_secret" (kv :: oauth));
      split; try tauto; try discriminate;
      intros [H | H]; discriminate H.
Qed.

(** X12: a client that was built has a base URL without trailing slash,
    which is the URL given up to its trailing slashes, the three default
    headers, and no API version or endpoint yet. *)
Theorem client_init_state :
  forall (url : string) (user token : option string)
         (oauth : list (string * string)) (c : Client.JiraClient),
    Client.init url user token oauth = Some c ->
    PyStr.endswith_char "/" (Client.base_url c) = false
    /\ (exists n, url = (Client.base_url c ++ ClientSpec.slashes n)%string)
    /\ Client.headers c = Client.default_headers
    /\ Client.api_version c = None
    /\ Client.api_endpoint c = None
    /\ Client.successful_auth_method c = None
    /\ (oauth = [] -> exists u t,
          user = Some u /\ token = Some t /\ Client.auth c = Some (u, t))
    /\ (oauth <> [] -> Client.auth c = None).
Proof.
  intros url user token oauth c. unfold Client.init.
  destruct oauth as [|kv oauth].
  - destruct user as [u|], token as [t|]; try discriminate.
    destruct (Client.truthy_str (Some u) && Client.truthy_str (Some t));
      [|discriminate].
    intros H. injection H as <-. simpl.
    repeat split; try reflexivity.
    + apply rstrip_slash_no_trailing.
    + apply rstrip_slash_decompose.
    + intros _. now exists u, t.
    + congruence.
  - destruct (Client.dict_lookup "consumer_key" (kv :: oauth));
      [|discriminate].
    destruct (Client.dict_lookup "consumer_secret" (kv :: oauth));
      [|discriminate].
    intros H. injection H as <-. simpl.
    repeat split; try reflexivity.
    + apply rstrip_slash_no_trailing.
    + apply rstrip_slash_decompose.
    + discriminate.
Qed.

Lemma client_init_state_witness :
  exists c, Client.fresh_client = Some c
            /\ Client.base_url c = "https://jira.example.com"
            /\ PyStr.endswith_char "/" (Client.base_url c) = false.
Proof.
  eexists. split; [reflexivity|]. split; [reflexivity|].
  apply (client_init_state "https://jira.example.com/" (Some "user")
           (Some "token") []). reflexivity.
Defined.

(** ** More on the connection test *)

Section ConnectionMore.
Import Json Client ClientSpec.

Variable b64encode : string -> string.
Variable token_identity : string -> string -> option json.
Variable transport : request -> http_result.

Lemma token_auth_false_same (c c' : JiraClient) :
  _test_token_auth token_identity c = (false, c') -> c' = c.
Proof.
  unfold _test_token_auth.
  destruct (api_token c); [|congruence].
  destruct (token_identity (base_url c) s); [|congruence].
  destruct (subscript j "displayName"); [|congruence].
  destruct (subscript j "emailAddress"); congruence.
Qed.

Lemma token_auth_true_state (c c' : JiraClient) :
  _test_token_auth token_identity c = (true, c') ->
  c' = set_session c 2 (base_url c ++ "/rest/api/2")%string "token_auth"
         true (headers c).
Proof.
  unfold _test_token_auth.
  destruct (api_token c); [|congruence].
  destruct (token_identity (base_url c) s); [|congruence].
  destruct (subscript j "displayName"); [|congruence].
  destruct (subscript j "emailAddress"); congruence.
Qed.

(** The connection test, case by case. *)
Lemma test_connection_cases (c : JiraClient) :
  test_connection b64encode token_identity transport c
  = if truthy_str (api_token c)
       && fst (_test_token_auth token_identity c)
    then (true, snd (_test_token_auth token_identity c), [ProbeToken])
    else match auth c with
         | None => (false, c, pre_probes c)
         | Some _ =>
             probe_loop b64encode transport c (test_methods b64encode c)
               (pre_probes c)
         end.
Proof.
  unfold test_connection, pre_probes, _test_oauth_connection.
  destruct (truthy_str (api_token c)); cbn [andb].
  - destruct (_test_token_auth token_identity c) as [ok c1] eqn:E.
    destruct ok; cbn [fst snd]; [reflexivity|].
    apply token_auth_false_same in E. subst c1.
    rewrite andb_false_r.
    destruct (oauth_config c); [|destruct (truthy_str (oauth_token c))];
      reflexivity.
  - rewrite andb_false_r.
    destruct (oauth_config c); [|destruct (truthy_str (oauth_token c))];
      reflexivity.
Qed.

Lemma probe_loop_false (c : JiraClient) (methods : list candidate) :
  forall (trace : list probe) (c' : JiraClient) (trace' : list probe),
    probe_loop b64encode transport c methods trace = (false, c', trace') ->
    c' = c
    /\ trace' = trace ++ map (fun m => ProbeGet (probe_request c m)) methods
    /\ Forall (fun m => ~ answers_200 transport c m) methods.
Proof.
  induction methods as [|m methods IH]; intros trace c' trace' H;
    cbn [probe_loop] in H.
  - injection H as <- <-. now rewrite app_nil_r.
  - assert (Hn : probe_loop b64encode transport c methods
                   (trace ++ [ProbeGet (probe_request c m)])
                 = (false, c', trace')
                 /\ ~ answers_200 transport c m).
    { unfold answers_200.
      destruct (transport (probe_request c m)) as [e | code body] eqn:E.
      - split; [exact H|]. intros [b Hb]. discriminate.
      - destruct (Z.eqb_spec code 200) as [-> | Hc]; [discriminate|].
        split; [exact H|]. intros [b Hb]. congruence. }
    destruct Hn as [Hl Hm]. destruct (IH _ _ _ Hl) as [-> [-> Hf]].
    split; [reflexivity|]. split; [now rewrite <- app_assoc|].
    now constructor.
Qed.

Lemma probe_loop_true (c : JiraClient) (methods : list candidate) :
  forall (trace : list probe) (c' : JiraClient) (trace' : list probe),
    probe_loop b64encode transport c methods trace = (true, c', trace') ->
    exists before m after,
      methods = before ++ m :: after
      /\ Forall (fun m' => ~ answers_200 transport c m') before
      /\ answers_200 transport c m
      /\ c' = record_success b64encode c m
      /\ trace' = trace ++ map (fun m' => ProbeGet (probe_request c m'))
                              (before ++ [m]).
Proof.
  induction methods as [|m methods IH]; intros trace c' trace' H;
    cbn [probe_loop] in H; [discriminate|].
  assert (Hcases :
    (answers_200 transport c m
     /\ (true, record_success b64encode c m,
         trace ++ [ProbeGet (probe_request c m)]) = (true, c', trace'))
    \/ (~ answers_200 transport c m
        /\ probe_loop b64encode transport c methods
             (trace ++ [ProbeGet (probe_request c m)])
           = (true, c', trace'))).
  { unfold answers_200.
    destruct (transport (probe_request c m)) as [e | code body] eqn:E.
    - right. split; [|exact H]. intros [b Hb]. discriminate.
    - destruct (Z.eqb_spec code 200) as [-> | Hc].
      + left. split; [now exists body | exact H].
      + right. split; [|exact H]. intros [b Hb]. congruence. }
  destruct Hcases as [[Hm Heq] | [Hm Hl]].
  - injection Heq as <- <-. exists [], m, methods. repeat split; auto.
  - destruct (IH _ _ _ Hl) as [before [m' [after [-> [Hb [Hm' [-> ->]]]]]]].
    exists (m :: before), m', after. repeat split; auto.
    simpl. now rewrite <- app_assoc.
Qed.

Lemma pre_probes_no_get (c : JiraClient) :
  Forall (fun p => is_get p = false) (pre_probes c).
Proof.
  unfold pre_probes. apply Forall_app. split.
  - destruct (truthy_str (api_token c)); repeat constructor.
  - destruct (oauth_config c); [constructor|].
    destruct (truthy_str (oauth_token c)); repeat constructor.
Qed.

End ConnectionMore.

(** X13: a client without basic credentials, as every client built with
    OAuth settings is, never sends an identity request over HTTP:
    [test_connection] makes only the token check and the OAuth check, and
    returns [True] only when the token check succeeded. *)
Theorem no_basic_credentials_no_http :
  forall (b64encode : string -> string)
         (token_identity : string -> string -> option Json.json)
         (transport : Client.request -> Client.http_result)
         (c c' : Client.JiraClient) (ok : bool) (trace : list Client.probe),
    Client.auth c = None ->
    Client.test_connection b64encode token_identity transport c
    = (ok, c', trace) ->
    Forall (fun p => ClientSpec.is_get p = false) trace
    /\ (ok = true ->
        Client._test_token_auth token_identity c = (true, c')).
Proof.
  intros b64encode token_identity transport c c' ok trace Ha H.
  rewrite test_connection_cases, Ha in H.
  destruct (Client.truthy_str (Client.api_token c)
            && fst (Client._test_token_auth token_identity c)) eqn:E.
  - injection H as <- <- <-. split; [repeat constructor|]. intros _.
    apply andb_true_iff in E. destruct E as [_ E].
    destruct (Client._test_token_auth token_identity c) as [ok1 c1].
    simpl in *. now subst.
  - injection H as <- <- <-. split; [apply pre_probes_no_get|].
    discriminate.
Qed.

Lemma no_basic_credentials_no_http_witness :
  exists c,
    ClientSpec.oauth_client = Some c
    /\ Client.test_connection (fun s => s) Client.no_token_login
         ClientSpec.header_only c
       = (false, c, [Client.ProbeToken; Client.ProbeOAuth])
    /\ Forall (fun p => ClientSpec.is_get p = false)
         [Client.ProbeToken; Client.ProbeOAuth].
Proof.
  eexists. split; [reflexivity|]. split; [reflexivity|].
  pose (c := match ClientSpec.oauth_client with
             | Some c => c
             | None => Client.connected_client
             end).
  refine (proj1 (no_basic_credentials_no_http (fun s => s)
                   Client.no_token_login ClientSpec.header_only
                   c c false [Client.ProbeToken; Client.ProbeOAuth] _ _));
    reflexivity.
Defined.

(** X14: when [test_connection] returns [False] the client is left as it
    was (no version, endpoint or header is stored), and if the client has
    basic credentials all four candidates were probed, in the order
    v3/basic, v2/basic, v3/header, v2/header, none answering 200. *)
Theorem failed_connection_test_changes_nothing :
  forall (b64encode : string -> string)
         (token_identity : string -> string -> option Json.json)
         (transport : Client.request -> Client.http_result)
         (c c' : Client.JiraClient) (trace : list Client.probe),
    Client.test_connection b64encode token_identity transport c
    = (false, c', trace) ->
    c' = c
    /\ (Client.auth c <> None ->
        trace = ClientSpec.pre_probes c
                ++ map (fun m => Client.ProbeGet (Client.probe_request c m))
                       (Client.test_methods b64encode c)
        /\ Forall (fun m => ~ Client.answers_200 transport c m)
             (Client.test_methods b64encode c)).
Proof.
  intros b64encode token_identity transport c c' trace H.
  rewrite test_connection_cases in H.
  destruct (Client.truthy_str (Client.api_token c)
            && fst (Client._test_token_auth token_identity c));
    [discriminate|].
  destruct (Client.auth c) as [cred|].
  - apply probe_loop_false in H. destruct H as [-> [-> Hf]].
    split; [reflexivity|]. intros _. split; [reflexivity | exact Hf].
  - injection H as <- <-. split; [reflexivity|]. congruence.
Qed.

Lemma failed_connection_test_changes_nothing_witness :
  exists c,
    Client.fresh_client = Some c
    /\ fst (Client.test_connection (fun s => s) Client.no_token_login
              ClientSpec.always_404 c) = (false, c).
Proof.
  eexists. split; [reflexivity|].
  match goal with
  | |- fst ?r = _ =>
      destruct r as [[ok c1] tr] eqn:E
  end.
  assert (Hok : ok = false) by (vm_compute in E; congruence). subst ok.
  apply failed_connection_test_changes_nothing in E.
  destruct E as [-> _]. reflexivity.
Defined.

(** X15: when [test_connection] returns [True] the client keeps its base
    URL and credentials and holds an API version, 2 or 3, together with
    the endpoint root of that version under the base URL; the endpoint is
    not empty, so a later search does not stop at its first test. *)
Theorem successful_connection_test_session :
  forall (b64encode : string -> string)
         (token_identity : string -> string -> option Json.json)
         (transport : Client.request -> Client.http_result)
         (c c' : Client.JiraClient) (trace : list Client.probe),
    Client.test_connection b64encode token_identity transport c
    = (true, c', trace) ->
    Client.base_url c' = Client.base_url c
    /\ Client.auth c' = Client.auth c
    /\ (exists v,
           (v = 2 \/ v = 3)
           /\ Client.api_version c' = Some v
           /\ Client.api_endpoint c'
              = Some (ClientSpec.api_root (Client.base_url c) v))
    /\ Client.truthy_str (Client.api_endpoint c') = true
    /\ (exists m, Client.successful_auth_method c' = Some m
                  /\ In m ["token_auth"; "basic"; "header"]).
Proof.
  intros b64encode token_identity transport c c' trace H.
  assert (Hne : forall s suffix a,
             Client.truthy_str (Some (s ++ String a suffix)%string) = true).
  { intros s suffix a. simpl. now destruct s. }
  rewrite test_connection_cases in H.
  destruct (Client.truthy_str (Client.api_token c)
            && fst (Client._test_token_auth token_identity c)) eqn:E.
  - injection H as <- <-.
    apply andb_true_iff in E. destruct E as [_ E].
    destruct (Client._test_token_auth token_identity c) as [ok c1] eqn:Et.
    simpl in E. subst ok. apply token_auth_true_state in Et. subst c1.
    simpl. split; [reflexivity|]. split; [reflexivity|].
    split; [exists 2; auto|]. split; [apply Hne|].
    exists "token_auth". simpl. auto.
  - destruct (Client.auth c) as [cred|] eqn:Ea; [|discriminate].
    apply probe_loop_true in H.
    destruct H as [before [m [after [Hm [_ [_ [-> _]]]]]]].
    assert (Hin : In m (Client.test_methods b64encode c))
      by (rewrite Hm; apply in_elt).
    unfold Client.record_success. simpl.
    split; [reflexivity|]. split; [exact Ea|].
    split; [|split].
    + destruct (PyStr.contains "api/3" (Client.cand_url m));
        [exists 3 | exists 2]; auto.
    + destruct (PyStr.contains "api/3" (Client.cand_url m)); apply Hne.
    + exists (Client.cand_auth_method m). split; [reflexivity|].
      simpl in Hin.
      destruct Hin as [<- | [<- | [<- | [<- | []]]]]; simpl; auto.
Qed.

Lemma successful_connection_test_session_witness :
  exists c c',
    Client.fresh_client = Some c
    /\ fst (Client.test_connection (fun s => s) Client.no_token_login
              ClientSpec.header_only c) = (true, c')
    /\ Client.base_url c' = Client.base_url c.
Proof.
  eexists. eexists. split; [reflexivity|]. split; [vm_compute; reflexivity|].
  eapply (successful_connection_test_session (fun s => s)
            Client.no_token_login ClientSpec.header_only).
  vm_compute. reflexivity.
Defined.

Lemma append_inj_l (p s1 s2 : string) :
  (p ++ s1)%string = (p ++ s2)%string -> s1 = s2.
Proof.
  induction p as [|c p IH]; simpl; intros H; [exact H|].
  injection H as H. now apply IH.
Qed.

Lemma dict_lookup_set (k v : string) (d : list (string * string)) :
  Client.dict_lookup k (Client.dict_set k v d) = Some v.
Proof.
  induction d as [|[k' v'] d IH]; simpl.
  - now rewrite String.eqb_refl.
  - destruct (String.eqb k k') eqn:E; simpl;
      [now rewrite String.eqb_refl | now rewrite E].
Qed.

(** X16: when the token check does not succeed and the client has basic
    credentials, the candidate loop stops at the first candidate, in the
    order of [test_methods], whose identity request returns 200: the
    candidates before it are the only others probed, [test_connection]
    returns [True], the transport of that candidate is recorded, and so
    is its API version provided the base URL does not contain the text
    [api/3]. *)
Theorem candidate_loop_stops_at_first_success :
  forall (b64encode : string -> string)
         (token_identity : string -> string -> option Json.json)
         (transport : Client.request -> Client.http_result)
         (c : Client.JiraClient)
         (before : list Client.candidate) (m : Client.candidate)
         (after : list Client.candidate),
    Client.truthy_str (Client.api_token c)
    && fst (Client._test_token_auth token_identity c) = false ->
    Client.auth c <> None ->
    Client.test_methods b64encode c = before ++ m :: after ->
    Forall (fun m' => ~ Client.answers_200 transport c m') before ->
    Client.answers_200 transport c m ->
    Client.test_connection b64encode token_identity transport c
    = (true, Client.record_success b64encode c m,
       ClientSpec.pre_probes c
       ++ map (fun m' => Client.ProbeGet (Client.probe_request c m'))
              (before ++ [m]))
    /\ Client.successful_auth_method (Client.record_success b64encode c m)
       = Some (Client.cand_auth_method m)
    /\ (PyStr.contains "api/3" (Client.base_url c) = false ->
        Client.api_version (Client.record_success b64encode c m)
        = Some (Client.candidate_version (Client.base_url c) m)).
Proof.
  intros b64encode token_identity transport c before m after
         Htok Hauth Hm Hb Hok.
  split; [|split].
  - rewrite test_connection_cases, Htok.
    destruct (Client.auth c); [|congruence].
    rewrite Hm. now apply probe_loop_stops_at_first_200.
  - reflexivity.
  - intros Hbase.
    assert (Hin : In m (Client.test_methods b64encode c))
      by (rewrite Hm; apply in_elt).
    assert (Hv2 : String.eqb (Client.base_url c ++ "/rest/api/2/myself")
                    (Client.base_url c ++ "/rest/api/3/myself") = false).
    { apply String.eqb_neq. intros H. apply append_inj_l in H.
      discriminate. }
    unfold Client.record_success, Client.candidate_version. simpl.
    simpl in Hin.
    destruct Hin as [<- | [<- | [<- | [<- | []]]]]; simpl;
      rewrite ?contains_api3_v3, ?contains_api3_v2, ?Hbase,
        ?String.eqb_refl, ?Hv2; reflexivity.
Qed.

Lemma candidate_loop_stops_at_first_success_witness :
  exists c m1 m2 m3 m4,
    Client.fresh_client = Some c
    /\ Client.test_methods (fun s => s) c = [m1; m2; m3; m4]
    /\ Client.test_connection (fun s => s) Client.no_token_login
         ClientSpec.header_only c
       = (true, Client.record_success (fun s => s) c m3,
          [ Client.ProbeToken;
            Client.ProbeGet (Client.probe_request c m1);
            Client.ProbeGet (Client.probe_request c m2);
            Client.ProbeGet (Client.probe_request c m3) ]).
Proof.
  do 5 eexists. split; [reflexivity|]. split; [reflexivity|].
  match goal with
  | |- Client.test_connection _ _ _ ?c = (_, Client.record_success _ _ ?m, _) =>
      match eval cbv in (Client.test_methods (fun s => s) c) with
      | [?a; ?b; _; ?d] =>
          apply (candidate_loop_stops_at_first_success (fun s => s)
                   Client.no_token_login ClientSpec.header_only c
                   [a; b] m [d])
      end
  end.
  - reflexivity.
  - discriminate.
  - reflexivity.
  - repeat constructor; intros [body H]; vm_compute in H; discriminate H.
  - exists None. reflexivity.
Defined.

(** X17: the search reuses the transport the connection test found: after
    a success with basic authentication every search request passes the
    credentials as [auth] and the headers are unchanged; after a success
    with the header, no [auth] is passed and the request carries the
    [Authorization: Basic ...] header of the encoded credentials. *)
Theorem search_uses_successful_transport :
  forall (b64encode : string -> string) (c : Client.JiraClient)
         (m : Client.candidate) (endpoint jql : string) (start_at : Z),
    let c' := Client.record_success b64encode c m in
    let r := Client.search_request c' endpoint jql start_at in
    (Client.cand_auth_method m = "basic" ->
     Client.req_auth r = Client.auth c
     /\ Client.req_headers r = Client.headers c)
    /\ (Client.cand_auth_method m = "header" ->
        Client.req_auth r = None
        /\ Client.dict_lookup "Authorization" (Client.req_headers r)
           = Some ("Basic " ++ Client.encoded_credentials b64encode c)%string).
Proof.
  intros b64encode c m endpoint jql start_at. simpl.
  split; intros H; rewrite H; simpl; split; try reflexivity.
  apply dict_lookup_set.
Qed.

Lemma search_uses_successful_transport_witness :
  Client.req_auth
    (Client.search_request
       (Client.record_success (fun s => s) Client.connected_client
          (Client.mk_candidate "Authorization Header + API v2"
             "https://jira.example.com/rest/api/2/myself" [] "header"))
       "https://jira.example.com/rest/api/2" "project = PROJ" 0) = None.
Proof.
  apply (search_uses_successful_transport (fun s => s)
           Client.connected_client
           (Client.mk_candidate "Authorization Header + API v2"
              "https://jira.example.com/rest/api/2/myself" [] "header")
           "https://jira.example.com/rest/api/2" "project = PROJ" 0).
  reflexivity.
Defined.

(** ** More on the paginated search *)

Section SearchMore.
Import Json Datetime Issue Client.

Variable fromisoformat : string -> option datetime.
Variable transport : request -> http_result.
Variables (c : JiraClient) (endpoint jql : string).

Lemma parse_page_extends (issues : list json) :
  forall tasks : list JiraTaskObj,
    exists more,
      fst (parse_page fromisoformat issues tasks) = tasks ++ more.
Proof.
  induction issues as [|issue issues IH]; intros tasks; simpl.
  - exists []. now rewrite app_nil_r.
  - destruct (_parse_issue fromisoformat issue) as [t| |].
    + destruct (IH (tasks ++ [t])) as [more H]. exists (t :: more).
      rewrite H. now rewrite <- app_assoc.
    + apply IH.
    + exists []. now rewrite app_nil_r.
Qed.

(** One iteration only adds tasks, and goes on, if at all, one page
    further. *)
Lemma search_step_shape (o : Z) (tasks : list JiraTaskObj) :
  (exists more,
      fst (search_step fromisoformat transport c endpoint jql o tasks)
      = tasks ++ more)
  /\ (snd (search_step fromisoformat transport c endpoint jql o tasks) = None
      \/ snd (search_step fromisoformat transport c endpoint jql o tasks)
         = Some (o + max_results)).
Proof.
  assert (Hsame : (exists more : list JiraTaskObj, tasks = tasks ++ more))
    by (exists []; now rewrite app_nil_r).
  unfold search_step.
  destruct (transport (search_request c endpoint jql o)) as [e | code body];
    [simpl; auto|].
  destruct (negb (code =? 200)); [simpl; auto|].
  destruct body as [data|]; [|simpl; auto].
  destruct (get data "issues" (JArr [])) as [issues|]; [|simpl; auto].
  destruct (get data "total" (JNum 0)) as [total|]; [|simpl; auto].
  destruct (iter issues) as [items|]; [|simpl; auto].
  destruct (parse_page_extends items tasks) as [more Hmore].
  destruct (parse_page fromisoformat items tasks) as [tasks' escaped].
  simpl in Hmore. subst tasks'.
  destruct escaped; [simpl; eauto|].
  destruct (as_number total) as [n|]; [|simpl; eauto].
  destruct (n <=? o + max_results); simpl; eauto.
Qed.

Lemma search_loop_shape (fuel : nat) :
  forall (o : Z) (tasks : list JiraTaskObj) (sent : list request)
         (tasks' : list JiraTaskObj) (sent' : list request),
    search_loop fromisoformat transport fuel c endpoint jql o tasks sent
    = Some (tasks', sent') ->
    exists n more,
      (1 <= n <= fuel)%nat
      /\ sent' = sent ++ map (search_request c endpoint jql)
                             (offsets_from n o)
      /\ tasks' = tasks ++ more.
Proof.
  induction fuel as [|fuel IH]; intros o tasks sent tasks' sent' H;
    [discriminate|].
  cbn [search_loop] in H.
  destruct (search_step_shape o tasks) as [[more Hmore] Hnext].
  destruct (search_step fromisoformat transport c endpoint jql o tasks)
    as [tasks1 next].
  simpl in Hmore, Hnext. subst tasks1.
  destruct Hnext as [-> | ->].
  - injection H as <- <-. exists 1%nat, more. repeat split; auto; lia.
  - apply IH in H. destruct H as [n [more' [Hn [-> ->]]]].
    exists (S n), (more ++ more'). split; [lia|]. split.
    + cbn [offsets_from map]. now rewrite <- app_assoc.
    + now rewrite app_assoc.
Qed.

End SearchMore.

(** X18: whatever the server answers, when [_execute_search] returns it
    has sent at least one request, and its requests are exactly those for
    the offsets 0, 50, 100, ... in this order, with no offset skipped or
    asked twice. *)
Theorem execute_search_requests_consecutive_pages :
  forall (fromisoformat : string -> option Datetime.datetime)
         (transport : Client.request -> Client.http_result)
         (fuel : nat) (c : Client.JiraClient)
         (endpoint jql project : string)
         (tasks : list Issue.JiraTaskObj) (sent : list Client.request),
    Client.api_endpoint c = Some endpoint ->
    endpoint <> "" ->
    Client._execute_search fromisoformat transport fuel c jql project
    = Some (tasks, sent) ->
    exists n,
      (1 <= n <= fuel)%nat
      /\ sent = map (Client.search_request c endpoint jql)
                    (Client.offsets_from n 0).
Proof.
  intros fromisoformat transport fuel c endpoint jql project tasks sent
         Hep Hne H.
  unfold Client._execute_search in H. rewrite Hep in H. simpl in H.
  destruct (String.eqb_spec endpoint "") as [He | _]; [contradiction|].
  simpl in H.
  apply search_loop_shape in H. destruct H as [k [more [Hk [-> _]]]].
  exists k. split; [exact Hk | reflexivity].
Qed.

Lemma execute_search_requests_consecutive_pages_witness :
  exists n,
    (1 <= n <= 10)%nat
    /\ map (Client.search_request Client.connected_client
              "https://jira.example.com/rest/api/2" "project = PROJ")
           [0; 50; 100]
       = map (Client.search_request Client.connected_client
                "https://jira.example.com/rest/api/2" "project = PROJ")
             (Client.offsets_from n 0).
Proof.
  apply (execute_search_requests_consecutive_pages Datetime.fromisoformat
           (Client.fake_search 120) 10 Client.connected_client
           "https://jira.example.com/rest/api/2" "project = PROJ" "PROJ"
           (flat_map (fun o => Issue.emitted Datetime.fromisoformat
                                 (Client.fake_page 120 o)) [0; 50; 100])).
  - reflexivity.
  - discriminate.
  - vm_compute. reflexivity.
Defined.

(** X19: when the first page request fails, by an exception of the
    transport or by a status other than 200, [_execute_search] returns
    the empty list after that single request: the scope is given up, no
    retry and no further page is attempted. *)
Theorem execute_search_first_page_failure :
  forall (fromisoformat : string -> option Datetime.datetime)
         (transport : Client.request -> Client.http_result)
         (fuel : nat) (c : Client.JiraClient)
         (endpoint jql project : string),
    Client.api_endpoint c = Some endpoint ->
    endpoint <> "" ->
    (forall body,
        transport (Client.search_request c endpoint jql 0)
        <> Client.Response 200 body) ->
    Client._execute_search fromisoformat transport (S fuel) c jql project
    = Some ([], [Client.search_request c endpoint jql 0]).
Proof.
  intros fromisoformat transport fuel c endpoint jql project Hep Hne Hfail.
  unfold Client._execute_search. rewrite Hep. simpl.
  destruct (String.eqb_spec endpoint ""); [contradiction|]. simpl.
  unfold Client.search_step.
  destruct (transport (Client.search_request c endpoint jql 0))
    as [e | code body] eqn:E; [reflexivity|].
  destruct (Z.eqb_spec code 200) as [-> | Hc]; [|reflexivity].
  exfalso. now apply (Hfail body).
Qed.

Lemma execute_search_first_page_failure_witness :
  Client._execute_search Datetime.fromisoformat ClientSpec.always_404 1
    Client.connected_client "project = PROJ" "PROJ"
  = Some ([], [Client.search_request Client.connected_client
                 "https://jira.example.com/rest/api/2" "project = PROJ" 0]).
Proof.
  apply execute_search_first_page_failure.
  - reflexivity.
  - discriminate.
  - intros body. discriminate.
Defined.

(** X20: the loop has no bound of its own on the number of pages: against
    a server that answers every page with status 200 and a total beyond
    the next offset, no number of iterations makes [_execute_search]
    return. *)
Theorem execute_search_unbounded_when_total_grows :
  forall (fromisoformat : string -> option Datetime.datetime)
         (transport : Client.request -> Client.http_result)
         (c : Client.JiraClient) (endpoint jql project : string),
    Client.api_endpoint c = Some endpoint ->
    endpoint <> "" ->
    (forall o,
        exists data issues total,
          transport (Client.search_request c endpoint jql o)
          = Client.Response 200 (Some data)
          /\ Json.get data "issues" (Json.JArr []) = Some (Json.JArr issues)
          /\ Forall (fun i => Json.is_dict i = true) issues
          /\ Json.get data "total" (Json.JNum 0) = Some (Json.JNum total)
          /\ o + 50 < total) ->
    forall fuel,
      Client._execute_search fromisoformat transport fuel c jql project
      = None.
Proof.
  intros fromisoformat transport c endpoint jql project Hep Hne Hgrow fuel.
  unfold Client._execute_search. rewrite Hep. simpl.
  destruct (String.eqb_spec endpoint "") as [He | _]; [contradiction|].
  simpl.
  assert (Hloop : forall o tasks sent,
             Client.search_loop fromisoformat transport fuel c endpoint jql
               o tasks sent = None).
  { induction fuel as [|fuel IH]; intros o tasks sent; [reflexivity|].
    cbn [Client.search_loop]. unfold Client.search_step.
    destruct (Hgrow o) as [data [issues [total [Ht [Hi [Hd [Hn Hlt]]]]]]].
    rewrite Ht. simpl. rewrite Hi, Hn. simpl.
    rewrite (parse_page_dicts fromisoformat issues Hd).
    unfold Client.max_results.
    destruct (Z.leb_spec total (o + 50)); [lia|].
    apply IH. }
  apply Hloop.
Qed.

Lemma execute_search_unbounded_when_total_grows_witness :
  Client._execute_search Datetime.fromisoformat ClientSpec.growing_search
    1000 Client.connected_client "project = PROJ" "PROJ" = None.
Proof.
  apply execute_search_unbounded_when_total_grows
    with (endpoint := "https://jira.example.com/rest/api/2").
  - reflexivity.
  - discriminate.
  - intros o. do 3 eexists.
    split; [reflexivity|]. split; [reflexivity|].
    split; [constructor|]. split; [reflexivity|]. simpl. lia.
Defined.

(** ** More on the raw-JSON parser *)

(** X21: a dict record whose description is a non-empty plain string, as
    version 2 of the API returns it, is never turned into a task:
    [_parse_issue] reads the description as a document object, fails, and
    returns [None], whatever the other fields are. *)
Theorem parse_issue_drops_string_description :
  forall (fromisoformat : string -> option Datetime.datetime)
         (members fields : list (string * Json.json)) (s : string),
    Json.lookup "fields" members = Some (Json.JObj fields) ->
    Json.lookup "description" fields = Some (Json.JStr s) ->
    s <> "" ->
    Issue._parse_issue fromisoformat (Json.JObj members)
    = Issue.ReturnedNone.
Proof.
  intros fromisoformat members fields s Hf Hd Hs.
  assert (Hbody : Issue.parse_issue_body fromisoformat (Json.JObj members)
                  = None).
  { unfold Issue.parse_issue_body. cbn [Json.subscript]. rewrite Hf.
    cbn [Json.get]. rewrite Hd. cbn [Json.truthy].
    destruct (String.eqb_spec s "") as [-> | _]; [congruence|].
    cbn [negb Json.get].
    repeat match goal with
           | |- context [match ?e with Some _ => _ | None => _ end] =>
               destruct e
           | |- context [if ?b then _ else _] => destruct b
           end; reflexivity. }
  unfold Issue._parse_issue. rewrite Hbody. simpl.
  now destruct (Json.lookup "key" members).
Qed.

Lemma parse_issue_drops_string_description_witness :
  Issue._parse_issue Datetime.fromisoformat
    (Json.JObj
       [ ("key", Json.JStr "PROJ-7");
         ("fields",
          Json.JObj
            [ ("summary", Json.JStr "Fix login");
              ("status", Json.JObj [("name", Json.JStr "Done")]);
              ("priority", Json.JObj [("name", Json.JStr "High")]);
              ("created", Json.JStr "2024-01-15T10:30:00");
              ("updated", Json.JStr "2024-01-15T10:30:00");
              ("project", Json.JObj [("key", Json.JStr "PROJ")]);
              ("issuetype", Json.JObj [("name", Json.JStr "Task")]);
              ("description", Json.JStr "Users cannot log in") ]) ])
  = Issue.ReturnedNone.
Proof.
  eapply parse_issue_drops_string_description;
    [reflexivity | reflexivity | discriminate].
Defined.

(** X22: a task comes out of the raw-JSON parser only when both
    timestamps of the record are strings that [fromisoformat] accepts
    once every [Z] is replaced by [+00:00], and its [created] and
    [updated] are exactly what [fromisoformat] returns for them, offset
    included. *)
Theorem parse_issue_timestamps :
  forall (fromisoformat : string -> option Datetime.datetime)
         (issue : Json.json) (t : Issue.JiraTaskObj),
    Issue._parse_issue fromisoformat issue = Issue.Emitted t ->
    exists fields created_s updated_s,
      Json.subscript issue "fields" = Some fields
      /\ Json.subscript fields "created" = Some (Json.JStr created_s)
      /\ Json.subscript fields "updated" = Some (Json.JStr updated_s)
      /\ fromisoformat (PyStr.replace_char "Z" "+00:00" created_s)
         = Some (Issue.o_created t)
      /\ fromisoformat (PyStr.replace_char "Z" "+00:00" updated_s)
         = Some (Issue.o_updated t).
Proof.
  intros fromisoformat issue t H. unfold Issue._parse_issue in H.
  destruct (Issue.parse_issue_body fromisoformat issue) as [t'|] eqn:E;
    [|destruct (Json.get issue "key" (Json.JStr "unknown")); discriminate].
  injection H as ->. unfold Issue.parse_issue_body in E.
  repeat match type of E with
         | context [match ?e with _ => _ end] =>
             destruct e eqn:?; try discriminate
         end.
  injection E as <-. simpl.
  repeat match goal with
         | H : Issue.raw_timestamp _ ?v = Some _ |- _ =>
             destruct v; try discriminate H; simpl in H
         end.
  eauto 10.
Qed.

Lemma parse_issue_timestamps_witness :
  exists t fields created_s updated_s,
    Issue._parse_issue Datetime.fromisoformat
      (Issue.raw_issue "PROJ-1" "2024-01-15T10:30:00Z" "2024-01-16") 
    = Issue.Emitted t
    /\ Json.subscript
         (Issue.raw_issue "PROJ-1" "2024-01-15T10:30:00Z" "2024-01-16")
         "fields" = Some fields
    /\ Json.subscript fields "created" = Some (Json.JStr created_s)
    /\ Json.subscript fields "updated" = Some (Json.JStr updated_s)
    /\ Datetime.fromisoformat (PyStr.replace_char "Z" "+00:00" created_s)
       = Some (Issue.o_created t)
    /\ Datetime.fromisoformat (PyStr.replace_char "Z" "+00:00" updated_s)
       = Some (Issue.o_updated t).
Proof.
  eexists.
  assert (E : Issue._parse_issue Datetime.fromisoformat
                (Issue.raw_issue "PROJ-1" "2024-01-15T10:30:00Z"
                   "2024-01-16") = Issue.Emitted _)
    by (vm_compute; reflexivity).
  destruct (parse_issue_timestamps _ _ _ E) as [f [cs [us H]]].
  exists f, cs, us. split; [exact E | exact H].
Defined.

(** ** The library path *)

Lemma substring_prefix_length (n : nat) :
  forall s : string, (String.length (substring 0 n s) <= n)%nat.
Proof.
  induction n as [|n IH]; intros s; destruct s as [|c s]; simpl; try lia.
  specialize (IH s). lia.
Qed.

(** X23: every task the library-path parser returns has timezone-naive
    [created] and [updated] timestamps and a description of at most 500
    characters, whatever the binding handed over. *)
Theorem library_parser_normalizes :
  forall (fromisoformat : string -> option Datetime.datetime)
         (repr : Library.pyobj -> string) (now : Z)
         (issue : Library.pyobj) (t : Library.LibTaskObj),
    Library._parse_jira_library_issue fromisoformat repr now issue = Some t ->
    Datetime.is_naive (Library.l_created t) = true
    /\ Datetime.is_naive (Library.l_updated t) = true
    /\ (String.length (Library.l_description t) <= 500)%nat.
Proof.
  intros fromisoformat repr now issue t H.
  unfold Library._parse_jira_library_issue in H.
  repeat match type of H with
         | context [match ?e with Some _ => _ | None => _ end] =>
             lazymatch e with
             | Library.getattr _ "description" => fail
             | Library.getattr _ "labels" => fail
             | Library.getattr _ "customfield_10016" => fail
             | _ => destruct e eqn:?; try discriminate
             end
         end.
  injection H as <-. cbn [Library.l_created Library.l_updated
                            Library.l_description].
  split; [|split].
  - eapply parse_datetime_naive; eassumption.
  - eapply parse_datetime_naive; eassumption.
  - destruct (Library.getattr _ "description") as [dv|]; [|simpl; lia].
    destruct (Library.truthy dv); [|simpl; lia].
    apply substring_prefix_length.
Qed.

Lemma library_parser_normalizes_witness :
  exists t,
    Library._parse_jira_library_issue Datetime.fromisoformat
      Library.no_repr 0
      (Library.lib_issue "PROJ-1" "2024-01-15T10:30:00.000+00:00"
         "2024-01-16T08:00:00Z" "Users cannot log in") = Some t
    /\ Datetime.is_naive (Library.l_created t) = true
    /\ Datetime.is_naive (Library.l_updated t) = true.
Proof.
  eexists.
  assert (E : Library._parse_jira_library_issue Datetime.fromisoformat
                Library.no_repr 0
                (Library.lib_issue "PROJ-1" "2024-01-15T10:30:00.000+00:00"
                   "2024-01-16T08:00:00Z" "Users cannot log in") = Some _)
    by (vm_compute; reflexivity).
  split; [exact E|].
  destruct (library_parser_normalizes _ _ _ _ _ E) as [Hc [Hu _]].
  split; [exact Hc | exact Hu].
Defined.

(** X24: in the library path a timestamp that is given as text without
    the letter [T], a date alone for instance, is not parsed: the task
    gets the current time in its place. *)
Theorem library_parser_date_only_becomes_now :
  forall (fromisoformat : string -> option Datetime.datetime)
         (repr : Library.pyobj -> string) (now : Z)
         (issue fields : Library.pyobj) (s : string)
         (t : Library.LibTaskObj),
    Library._parse_jira_library_issue fromisoformat repr now issue = Some t ->
    Library.getattr issue "fields" = Some fields ->
    Library.getattr fields "updated" = Some (Library.PStr s) ->
    PyStr.has_char "T" s = false ->
    Library.l_updated t = Datetime.of_clock now.
Proof.
  intros fromisoformat repr now issue fields s t H Hf Hu HT.
  unfold Library._parse_jira_library_issue in H.
  rewrite Hf, Hu in H.
  cbn [Library.timestamp_of Library.py_str Issue.parse_datetime] in H.
  rewrite HT in H.
  repeat match type of H with
         | context [match ?e with Some _ => _ | None => _ end] =>
             lazymatch e with
             | Library.getattr _ "description" => fail
             | Library.getattr _ "labels" => fail
             | Library.getattr _ "customfield_10016" => fail
             | Some _ => fail
             | _ => destruct e eqn:?; try discriminate
             end
         end.
  injection H as <-. reflexivity.
Qed.

Lemma library_parser_date_only_becomes_now_witness :
  exists t,
    Library._parse_jira_library_issue Datetime.fromisoformat
      Library.no_repr 777
      (Library.lib_issue "PROJ-1" "2024-01-15T10:30:00" "2024-01-16"
         "Users cannot log in") = Some t
    /\ Library.l_updated t = Datetime.of_clock 777.
Proof.
  eexists.
  assert (E : Library._parse_jira_library_issue Datetime.fromisoformat
                Library.no_repr 777
                (Library.lib_issue "PROJ-1" "2024-01-15T10:30:00"
                   "2024-01-16" "Users cannot log in") = Some _)
    by (vm_compute; reflexivity).
  split; [exact E|].
  eapply (library_parser_date_only_becomes_now _ _ _ _ _ "2024-01-16" _ E);
    reflexivity.
Defined.

(** ** fetch_tasks *)

Section FetchFacts.
Import Datetime Issue Client Library Fetch.

Variable fromisoformat : string -> option datetime.
Variable repr : pyobj -> string.
Variable strftime_ymd : datetime -> string.
Variable search_issues : string -> option (list pyobj).
Variable transport : request -> http_result.

Lemma fetch_http_app (fuel : nat) (c : JiraClient) (since : string)
  (ps1 ps2 : list string) :
  forall (tasks : list JiraTaskObj) (sent : list request),
    fetch_http fromisoformat transport fuel c since (ps1 ++ ps2) tasks sent
    = match fetch_http fromisoformat transport fuel c since ps1 tasks sent
      with
      | Some (tasks1, sent1) =>
          fetch_http fromisoformat transport fuel c since ps2 tasks1 sent1
      | None => None
      end.
Proof.
  induction ps1 as [|p ps1 IH]; intros tasks sent; simpl; [reflexivity|].
  destruct (_execute_search fromisoformat transport fuel c
              (project_jql p since) p) as [[found requests]|];
    [apply IH | reflexivity].
Qed.

(** The accumulators only grow. *)
Lemma fetch_http_accumulates (fuel : nat) (c : JiraClient) (since : string)
  (ps : list string) :
  forall (tasks : list JiraTaskObj) (sent : list request),
    fetch_http fromisoformat transport fuel c since ps tasks sent
    = match fetch_http fromisoformat transport fuel c since ps [] [] with
      | Some (found, requests) => Some (tasks ++ found, sent ++ requests)
      | None => None
      end.
Proof.
  induction ps as [|p ps IH]; intros tasks sent; simpl.
  - now rewrite !app_nil_r.
  - destruct (_execute_search fromisoformat transport fuel c
                (project_jql p since) p) as [[found requests]|];
      [|reflexivity].
    rewrite (IH (tasks ++ found) (sent ++ requests)), (IH found requests).
    destruct (fetch_http fromisoformat transport fuel c since ps [] [])
      as [[found' requests']|]; [|reflexivity].
    now rewrite !app_assoc.
Qed.



End FetchFacts.

(** X25: while the client has no library session and no API endpoint,
    [fetch_tasks] sends no request, whatever the projects: it returns the
    empty list when the start date [now - days_back] can be computed, and
    raises [OverflowError] when it cannot. *)
Theorem fetch_tasks_without_session :
  forall (fromisoformat : string -> option Datetime.datetime)
         (repr : Library.pyobj -> string)
         (strftime_ymd : Datetime.datetime -> string)
         (search_issues : string -> option (list Library.pyobj))
         (transport : Client.request -> Client.http_result)
         (fuel : nat) (c : Client.JiraClient) (now : Z)
         (projects : list string) (days_back : Z),
    Client.jira_instance c = false ->
    Client.api_endpoint c = None ->
    Fetch.fetch_tasks fromisoformat repr strftime_ymd search_issues
      transport fuel c now projects days_back
    = Some (if Fetch.since_in_range now days_back
            then Fetch.FromHttp [] []
            else Fetch.RaisedOverflowError).
Proof.
  intros fromisoformat repr strftime_ymd search_issues transport fuel c now
         projects days_back Hj He.
  unfold Fetch.fetch_tasks.
  destruct (Fetch.since_in_range now days_back); [|reflexivity].
  cbn [negb]. rewrite Hj.
  set (since := strftime_ymd _).
  assert (H : Fetch.fetch_http fromisoformat transport fuel c since
                projects [] [] = Some ([], [])).
  { induction projects as [|p ps IH]; simpl; [reflexivity|].
    unfold Client._execute_search. rewrite He. simpl. exact IH. }
  now rewrite H.
Qed.

Lemma fetch_tasks_without_session_witness :
  exists c,
    Client.fresh_client = Some c
    /\ Fetch.fetch_tasks Datetime.fromisoformat Library.no_repr
         Fetch.fixed_date (fun _ => None) Fetch.proj_only 5 c
         63840911400000000 ["PROJ"; "OTHER"] 14
       = Some (Fetch.FromHttp [] [])
    /\ Fetch.fetch_tasks Datetime.fromisoformat Library.no_repr
         Fetch.fixed_date (fun _ => None) Fetch.proj_only 5 c
         63840911400000000 ["PROJ"; "OTHER"] 1000000
       = Some Fetch.RaisedOverflowError.
Proof.
  eexists. split; [reflexivity|]. split.
  - exact (fetch_tasks_without_session Datetime.fromisoformat
             Library.no_repr Fetch.fixed_date (fun _ => None)
             Fetch.proj_only 5
             (match Client.fresh_client with
              | Some c => c
              | None => Client.connected_client
              end) 63840911400000000 ["PROJ"; "OTHER"] 14
             eq_refl eq_refl).
  - exact (fetch_tasks_without_session Datetime.fromisoformat
             Library.no_repr Fetch.fixed_date (fun _ => None)
             Fetch.proj_only 5
             (match Client.fresh_client with
              | Some c => c
              | None => Client.connected_client
              end) 63840911400000000 ["PROJ"; "OTHER"] 1000000
             eq_refl eq_refl).
Defined.

(** X26: on the HTTP path, when the start date [now - days_back] can be
    computed and the search of every project returns, [fetch_tasks]
    returns the tasks of the projects concatenated in the order of the
    project list, each project being searched once with its own JQL. *)
Theorem fetch_tasks_concatenates_projects :
  forall (fromisoformat : string -> option Datetime.datetime)
         (repr : Library.pyobj -> string)
         (strftime_ymd : Datetime.datetime -> string)
         (search_issues : string -> option (list Library.pyobj))
         (transport : Client.request -> Client.http_result)
         (fuel : nat) (c : Client.JiraClient) (now : Z)
         (projects : list string) (days_back : Z)
         (result : string -> list Issue.JiraTaskObj * list Client.request),
    Client.jira_instance c = false ->
    Fetch.since_in_range now days_back = true ->
    (forall p,
        In p projects ->
        Client._execute_search fromisoformat transport fuel c
          (Fetch.project_jql p
             (strftime_ymd
                (Datetime.minus_days (Datetime.of_clock now) days_back))) p
        = Some (result p)) ->
    Fetch.fetch_tasks fromisoformat repr strftime_ymd search_issues
      transport fuel c now projects days_back
    = Some (Fetch.FromHttp (flat_map (fun p => fst (result p)) projects)
              (flat_map (fun p => snd (result p)) projects)).
Proof.
  intros fromisoformat repr strftime_ymd search_issues transport fuel c now
         projects days_back result Hj Hrange Hall.
  unfold Fetch.fetch_tasks. rewrite Hrange, Hj. cbn [negb].
  set (since := strftime_ymd _) in *.
  assert (H : Fetch.fetch_http fromisoformat transport fuel c since
                projects [] []
              = Some (flat_map (fun p => fst (result p)) projects,
                      flat_map (fun p => snd (result p)) projects)).
  { induction projects as [|p ps IH]; simpl; [reflexivity|].
    rewrite (Hall p (or_introl eq_refl)).
    destruct (result p) as [found requests] eqn:Er.
    rewrite fetch_http_accumulates.
    rewrite IH by (intros q Hq; apply Hall; now right).
    reflexivity. }
  now rewrite H.
Qed.

Lemma fetch_tasks_concatenates_projects_witness :
  Fetch.fetch_tasks Datetime.fromisoformat Library.no_repr
    Fetch.fixed_date (fun _ => None) Fetch.proj_only 5
    Client.connected_client 63840911400000000 ["PROJ"; "PROJ"] 14
  = Some (Fetch.FromHttp
            (flat_map
               (fun p => fst (Issue.emitted Datetime.fromisoformat
                                [Issue.raw_issue "PROJ-1"
                                   "2024-01-15T10:30:00"
                                   "2024-01-15T10:30:00"],
                              [Client.search_request Client.connected_client
                                 "https://jira.example.com/rest/api/2"
                                 (Fetch.project_jql "PROJ" "2024-01-01") 0]))
               ["PROJ"; "PROJ"])
            (flat_map
               (fun p => snd (Issue.emitted Datetime.fromisoformat
                                [Issue.raw_issue "PROJ-1"
                                   "2024-01-15T10:30:00"
                                   "2024-01-15T10:30:00"],
                              [Client.search_request Client.connected_client
                                 "https://jira.example.com/rest/api/2"
                                 (Fetch.project_jql "PROJ" "2024-01-01") 0]))
               ["PROJ"; "PROJ"])).
Proof.
  apply (fetch_tasks_concatenates_projects Datetime.fromisoformat
           Library.no_repr Fetch.fixed_date (fun _ => None) Fetch.proj_only
           5 Client.connected_client 63840911400000000 ["PROJ"; "PROJ"] 14
           (fun _ => (Issue.emitted Datetime.fromisoformat
                        [Issue.raw_issue "PROJ-1" "2024-01-15T10:30:00"
                           "2024-01-15T10:30:00"],
                      [Client.search_request Client.connected_client
                         "https://jira.example.com/rest/api/2"
                         (Fetch.project_jql "PROJ" "2024-01-01") 0]))).
  - reflexivity.
  - reflexivity.
  - intros p [<- | [<- | []]]; vm_compute; reflexivity.
Defined.

(** X27: on the HTTP path a project whose first page request fails is
    given up without effect on the others: the tasks returned for a
    project list that contains it are those returned for the list
    without it. *)
Theorem fetch_tasks_skips_failing_project :
  forall (fromisoformat : string -> option Datetime.datetime)
         (repr : Library.pyobj -> string)
         (strftime_ymd : Datetime.datetime -> string)
         (search_issues : string -> option (list Library.pyobj))
         (transport : Client.request -> Client.http_result)
         (fuel : nat) (c : Client.JiraClient) (endpoint : string) (now : Z)
         (ps1 ps2 : list string) (p : string) (days_back : Z)
         (tasks : list Issue.JiraTaskObj) (sent0 : list Client.request),
    Client.jira_instance c = false ->
    Client.api_endpoint c = Some endpoint ->
    endpoint <> "" ->
    (forall body,
        transport
          (Client.search_request c endpoint
             (Fetch.project_jql p
                (strftime_ymd
                   (Datetime.minus_days (Datetime.of_clock now) days_back)))
             0)
        <> Client.Response 200 body) ->
    Fetch.fetch_tasks fromisoformat repr strftime_ymd search_issues
      transport (S fuel) c now (ps1 ++ ps2) days_back
    = Some (Fetch.FromHttp tasks sent0) ->
    exists sent,
      Fetch.fetch_tasks fromisoformat repr strftime_ymd search_issues
        transport (S fuel) c now (ps1 ++ p :: ps2) days_back
      = Some (Fetch.FromHttp tasks sent).
Proof.
  intros fromisoformat repr strftime_ymd search_issues transport fuel c
         endpoint now ps1 ps2 p days_back tasks sent0 Hj Hep Hne Hfail H.
  unfold Fetch.fetch_tasks in *.
  destruct (Fetch.since_in_range now days_back); [|discriminate].
  cbn [negb] in *. rewrite Hj in *.
  set (since := strftime_ymd _) in *.
  rewrite fetch_http_app in *.
  destruct (Fetch.fetch_http fromisoformat transport (S fuel) c since ps1
              [] []) as [[t1 s1]|]; [|discriminate].
  assert (Hp : Client._execute_search fromisoformat transport (S fuel) c
                 (Fetch.project_jql p since) p
               = Some ([], [Client.search_request c endpoint
                              (Fetch.project_jql p since) 0])).
  { unfold Client._execute_search. rewrite Hep. simpl.
    destruct (String.eqb_spec endpoint "") as [He | _]; [contradiction|].
    simpl. unfold Client.search_step.
    destruct (transport (Client.search_request c endpoint
                           (Fetch.project_jql p since) 0))
      as [e | code body] eqn:E; [reflexivity|].
    destruct (Z.eqb_spec code 200) as [-> | Hc]; [|reflexivity].
    exfalso. now apply (Hfail body). }
  cbn [Fetch.fetch_http]. rewrite Hp. rewrite app_nil_r.
  rewrite fetch_http_accumulates in H. rewrite fetch_http_accumulates.
  destruct (Fetch.fetch_http fromisoformat transport (S fuel) c since ps2
              [] []) as [[t2 s2]|]; [|discriminate].
  injection H as <- <-. eexists. reflexivity.
Qed.

Lemma fetch_tasks_skips_failing_project_witness :
  exists sent,
    Fetch.fetch_tasks Datetime.fromisoformat Library.no_repr
      Fetch.fixed_date (fun _ => None) Fetch.proj_only 5
      Client.connected_client 63840911400000000
      (["PROJ"] ++ "OTHER" :: ["PROJ"]) 14
    = Some (Fetch.FromHttp
              (Issue.emitted Datetime.fromisoformat
                 [Issue.raw_issue "PROJ-1" "2024-01-15T10:30:00"
                    "2024-01-15T10:30:00";
                  Issue.raw_issue "PROJ-1" "2024-01-15T10:30:00"
                    "2024-01-15T10:30:00"])
              sent).
Proof.
  eapply (fetch_tasks_skips_failing_project Datetime.fromisoformat
            Library.no_repr Fetch.fixed_date (fun _ => None)
            Fetch.proj_only 4 Client.connected_client
            "https://jira.example.com/rest/api/2" 63840911400000000
            ["PROJ"] ["PROJ"] "OTHER" 14).
  - reflexivity.
  - reflexivity.
  - discriminate.
  - intros body. vm_compute. discriminate.
  - vm_compute. reflexivity.
Defined.



(** ** The clock and the summary *)

Lemma naive_or_aware (tasks : list Issue.JiraTask) :
  Forall (fun t => Datetime.is_naive (Issue.updated t) = true) tasks
  \/ Exists (fun t => Datetime.is_naive (Issue.updated t) = false) tasks.
Proof.
  induction tasks as [|t tasks [IH | IH]].
  - left. constructor.
  - destruct (Datetime.is_naive (Issue.updated t)) eqn:E.
    + left. now constructor.
    + right. now apply Exists_cons_hd.
  - right. now apply Exists_cons_tl.
Qed.

(** C9, as the specification states it, fails on the code:
    [summarize_tasks] takes the issue list only and reads the reference
    time from the clock, so the same issue list gives different summaries
    at different clock readings: a task updated at day 100 is in
    "this week" for a call at day 100 and in neither list for a call at
    day 120. *)
Lemma summarize_clock_counterexample :
  let t := Summarizer.task_updated "PROJ-1" "Done"
             (100 * Datetime.day_us) in
  Summarizer.summarize_tasks Summarizer.init (100 * Datetime.day_us) [t]
  <> Summarizer.summarize_tasks Summarizer.init (120 * Datetime.day_us) [t]
  /\ (exists s1 s2,
         Summarizer.summarize_tasks Summarizer.init
           (100 * Datetime.day_us) [t] = Summarizer.SummaryDict s1
         /\ Summarizer.summarize_tasks Summarizer.init
              (120 * Datetime.day_us) [t] = Summarizer.SummaryDict s2
         /\ Summarizer.this_week s1 = [t]
         /\ Summarizer.this_week s2 = []
         /\ Summarizer.last_week s2 = []).
Proof.
  split.
  - intros H. vm_compute in H. discriminate H.
  - eexists. eexists. split; [vm_compute; reflexivity|].
    split; [vm_compute; reflexivity|]. repeat split.
Qed.

(** C9 (amended): [summarize_tasks] takes the issue list only; the
    reference time is the clock reading it takes itself, and it is the
    one input beside the list.  The clock has a say in the two recency
    lists only: at any two clock readings the same list gives the same
    outcome (error dict, [TypeError], or summary) with the same total,
    histograms and story points, and it gives the same summary
    altogether when every task falls into the same recency window at
    both readings. *)
Theorem summarize_clock_dependence :
  forall (self : Summarizer.StatusSummarizer) (now1 now2 : Z)
         (tasks : list Issue.JiraTask),
    ClockView.without_timeline (Summarizer.summarize_tasks self now1 tasks)
    = ClockView.without_timeline (Summarizer.summarize_tasks self now2 tasks)
    /\ ((forall t, In t tasks -> ClockView.same_windows now1 now2 t) ->
        Summarizer.summarize_tasks self now1 tasks
        = Summarizer.summarize_tasks self now2 tasks).
Proof.
  intros self now1 now2 tasks.
  destruct tasks as [|t0 tasks0] eqn:Et; [split; reflexivity|].
  rewrite <- Et. assert (Hne : tasks <> []) by (subst; discriminate).
  clear Et.
  destruct (naive_or_aware tasks) as [Hn | Ha].
  - rewrite !(summarize_tasks_closed self _ tasks Hne Hn). split.
    + reflexivity.
    + intros Hw. unfold Tally.closed_form.
      assert (Hthis : filter (Summarizer.in_this_week now1) tasks
                      = filter (Summarizer.in_this_week now2) tasks)
        by (apply filter_ext_in; intros t Ht; apply (Hw t Ht)).
      assert (Hlast : filter (Summarizer.in_last_week now1) tasks
                      = filter (Summarizer.in_last_week now2) tasks)
        by (apply filter_ext_in; intros t Ht; apply (Hw t Ht)).
      now rewrite Hthis, Hlast.
  - assert (Hr : forall now,
               Summarizer.summarize_tasks self now tasks
               = Summarizer.RaisedTypeError).
    { intros now. unfold Summarizer.summarize_tasks.
      destruct tasks as [|t1 tasks1]; [congruence|].
      now rewrite (add_tasks_aware self now _ Ha). }
    rewrite !Hr. split; reflexivity.
Qed.

Lemma summarize_clock_dependence_witness :
  let t := Summarizer.task_updated "PROJ-1" "Done"
             (100 * Datetime.day_us) in
  Summarizer.summarize_tasks Summarizer.init (100 * Datetime.day_us) [t]
  = Summarizer.summarize_tasks Summarizer.init (103 * Datetime.day_us) [t].
Proof.
  intros t.
  apply (summarize_clock_dependence Summarizer.init
           (100 * Datetime.day_us) (103 * Datetime.day_us) [t]).
  intros t' [<- | []]. split; reflexivity.
Defined.
